(** * ToDesktop Recall Desktop SDK plugin: subscription hub and SDK lifecycle

    A shallow embedding of the main-process hub of the plugin
    ([packages/plugin/src/main.ts], class [RecallDesktopMain]) and of its
    store ([packages/plugin/src/store.ts], class [RecallSdkStore]).

    The two singletons, the provider-side listener table and the pending
    [once("destroyed")] callbacks of the connected WebContents form the
    [World].  Every method is a computation in a small state / exception /
    output monad [M]; an exception leaves the state written so far in place,
    as in JavaScript.  Each IPC handler is run to completion; the promise
    returned by an awaited provider call is resolved or rejected as the
    [RecallAiSdk] behaviour handed to the handler says, and whether
    [wc.send] throws is a property of the [WebContents] it is called on.

    Objects are taken as TypeScript types them, with what that leaves open
    at run time: a key of a [Partial<...>] may be absent or hold
    [undefined], so a field of the stored configuration may hold
    [undefined] too.  Strings the code looks into are sequences of UTF-16
    code units.

    The renderer side is embedded as well: [addEventListener] of the preload
    script ([packages/plugin/src/preload.ts]) over the listener list of
    [ipcRenderer], and the class [RecallDesktopClient] of the client library
    ([packages/client/src/index.ts]) over that.  An invocation a page sends
    is handled by the main process before the page's next step.  Of the
    example page ([packages/example/src]) the realtime handler is embedded. *)

From stdpp Require Import base option list gmap strings.

Open Scope string_scope.
Open Scope list_scope.

(** ** shared.ts *)

(** [RecallSdkEventType]: the closed union of provider event names. *)
Inductive RecallSdkEventType : Type :=
  | recording_started
  | recording_ended
  | upload_progress
  | meeting_detected
  | meeting_updated
  | meeting_closed
  | sdk_state_change
  | error_event
  | media_capture_status
  | participant_capture_status
  | permissions_granted
  | permission_status
  | realtime_event
  | shutdown_event.

(** The string each member stands for in the source. *)
Definition eventTypeName (t : RecallSdkEventType) : string :=
  match t with
  | recording_started => "recording-started"
  | recording_ended => "recording-ended"
  | upload_progress => "upload-progress"
  | meeting_detected => "meeting-detected"
  | meeting_updated => "meeting-updated"
  | meeting_closed => "meeting-closed"
  | sdk_state_change => "sdk-state-change"
  | error_event => "error"
  | media_capture_status => "media-capture-status"
  | participant_capture_status => "participant-capture-status"
  | permissions_granted => "permissions-granted"
  | permission_status => "permission-status"
  | realtime_event => "realtime-event"
  | shutdown_event => "shutdown"
  end.

Definition eventTypeIndex (t : RecallSdkEventType) : nat :=
  match t with
  | recording_started => 0
  | recording_ended => 1
  | upload_progress => 2
  | meeting_detected => 3
  | meeting_updated => 4
  | meeting_closed => 5
  | sdk_state_change => 6
  | error_event => 7
  | media_capture_status => 8
  | participant_capture_status => 9
  | permissions_granted => 10
  | permission_status => 11
  | realtime_event => 12
  | shutdown_event => 13
  end.

Definition eventTypeOfIndex (n : nat) : option RecallSdkEventType :=
  match n with
  | 0 => Some recording_started
  | 1 => Some recording_ended
  | 2 => Some upload_progress
  | 3 => Some meeting_detected
  | 4 => Some meeting_updated
  | 5 => Some meeting_closed
  | 6 => Some sdk_state_change
  | 7 => Some error_event
  | 8 => Some media_capture_status
  | 9 => Some participant_capture_status
  | 10 => Some permissions_granted
  | 11 => Some permission_status
  | 12 => Some realtime_event
  | 13 => Some shutdown_event
  | _ => None
  end.

#[global] Instance RecallSdkEventType_eq_dec : EqDecision RecallSdkEventType.
Proof. solve_decision. Defined.

#[global] Instance RecallSdkEventType_countable : Countable RecallSdkEventType.
Proof.
  refine (inj_countable eventTypeIndex eventTypeOfIndex _).
  intros t; destruct t; reflexivity.
Defined.

(** [PermissionType]. *)
Inductive PermissionType : Type :=
  | accessibility
  | screen_capture
  | microphone
  | system_audio.

(** A string the code looks into (tests for emptiness, trims): its UTF-16
    code units.  Strings the code only passes on (messages, payloads,
    channel names) are [string]s. *)
Definition JsStr : Type := list N.

(** The [JsStr] an ASCII literal of the source denotes. *)
Definition js (s : string) : JsStr :=
  (fun a => N.of_nat (Ascii.nat_of_ascii a)) <$> String.list_ascii_of_string s.

(** JavaScript truthiness of a boolean or [undefined] ([None]). *)
Definition truthyBool (v : option bool) : bool := default false v.

(** [RecallSdkConfig] at run time.  The type declares a boolean, a string
    and a boolean; the spread in [setConfig] can store [undefined] ([None])
    in any of them. *)
Record RecallSdkConfig : Type := mkConfigOf {
  enabled : option bool;
  apiUrl : option JsStr;
  requestPermissionsOnStartup : option bool
}.

(** A configuration as the type declares it: every field holds a value. *)
Definition mkConfig (enabled : bool) (apiUrl : string) (requestPermissionsOnStartup : bool) : RecallSdkConfig :=
  mkConfigOf (Some enabled) (Some (js apiUrl)) (Some requestPermissionsOnStartup).

(** A key of an object typed [Partial<...>]: absent, or present with a
    value of the declared type or with [undefined] ([Present None]). *)
Inductive Key (A : Type) : Type :=
  | Absent
  | Present (v : option A).
Arguments Absent {A}.
Arguments Present {A} v.

(** [object.key]: an absent key reads as [undefined]. *)
Definition read {A} (k : Key A) : option A :=
  match k with
  | Absent => None
  | Present v => v
  end.

(** [Partial<RecallSdkConfig>]. *)
Record PartialConfig : Type := mkPartialOf {
  enabled_opt : Key bool;
  apiUrl_opt : Key JsStr;
  requestPermissionsOnStartup_opt : Key bool
}.

(** A key that, if it is there, holds a value. *)
Definition definedKey {A} (v : option A) : Key A :=
  match v with
  | None => Absent
  | Some a => Present (Some a)
  end.

(** A partial configuration none of whose keys holds [undefined]: a key is
    absent ([None]) or holds a value. *)
Definition mkPartial (enabled : option bool) (apiUrl : option string) (requestPermissionsOnStartup : option bool) : PartialConfig :=
  mkPartialOf (definedKey enabled) (definedKey (js <$> apiUrl))
              (definedKey requestPermissionsOnStartup).

(** [SdkInitOptions]. *)
Record SdkInitOptions : Type := mkSdkInitOptions {
  opt_apiUrl : option JsStr;
  opt_acquirePermissionsOnStartup : option (list PermissionType);
  opt_restartOnError : option bool
}.

(** [ApiResponse] (the handlers modelled here never fill [data]). *)
Record ApiResponse : Type := mkResponse {
  success : bool;
  message : string
}.

(** [ApiResponse<T>] with its optional [data]. *)
Record ApiResponseOf (T : Type) : Type := mkResponseOf {
  success_of : bool;
  message_of : string;
  data_of : option T
}.
Arguments mkResponseOf {T} _ _ _.
Arguments success_of {T} _.
Arguments message_of {T} _.
Arguments data_of {T} _.


(** What a [catch] clause can receive: a [RecallSdkError] raised by the
    plugin itself, or any other thrown value (a rejected provider promise,
    a throwing [wc.send]). *)
Inductive Thrown : Type :=
  | RecallSdkError (msg : string) (code : string)
  | OtherError (msg : string).

(** [error instanceof RecallSdkError ? error.message : fallback]. *)
Definition messageOr (fallback : string) (e : Thrown) : string :=
  match e with
  | RecallSdkError msg _ => msg
  | OtherError _ => fallback
  end.

(** Event payloads are [any] in the source; the hub only forwards them. *)
Definition Payload : Type := string.

(** ** Collaborators outside the plugin *)

(** An Electron [WebContents]: its process-unique [id], and whether calling
    [send] on it throws. *)
Record WebContents : Type := mkWebContents {
  wc_id : nat;
  wc_send_throws : bool
}.

(** How the provider answers during one handler: whether the promise of
    [RecallAiSdk.init] / [RecallAiSdk.shutdown] rejects.  The declaration
    file gives [addEventListener] the synchronous type [void]; it returns
    normally. *)
Record RecallAiSdk : Type := mkSdk {
  init_rejects : bool;
  shutdown_rejects : bool
}.

(** The closure [(evt) => this.handleSdkEvent(eventType, evt)] built by
    [ensureSdkListener]; it is determined by the captured [eventType]. *)
Inductive SdkHandler : Type :=
  | ForwardTo (eventType : RecallSdkEventType).

(** Everything the plugin does to the outside, in program order. *)
Inductive Effect : Type :=
  | WcSend (wcId : nat) (channel : string) (data : Payload)
  | WcOnceDestroyed (wcId : nat)
  | SdkInit (options : SdkInitOptions)
  | SdkShutdown
  | SdkAddEventListener (eventType : RecallSdkEventType)
  | ConsoleLog (text : string)
  | ConsoleError (text : string).

(** ** JavaScript [Map<number, number>]

    The inner subscription maps are iterated by [forEach], so insertion
    order is kept: an association list in which [set] overwrites in place
    or appends, and [delete] drops the entry. *)
Module JsMap.

Definition t : Type := list (nat * nat).

Fixpoint get (k : nat) (m : t) : option nat :=
  match m with
  | [] => None
  | (k', v) :: rest => if decide (k = k') then Some v else get k rest
  end.

Fixpoint set (k v : nat) (m : t) : t :=
  match m with
  | [] => [(k, v)]
  | (k', v') :: rest =>
      if decide (k = k') then (k, v) :: rest else (k', v') :: set k v rest
  end.

Fixpoint delete (k : nat) (m : t) : t :=
  match m with
  | [] => []
  | (k', v') :: rest =>
      if decide (k = k') then rest else (k', v') :: delete k rest
  end.

Definition keys (m : t) : list nat := map fst m.

End JsMap.

(** ** store.ts and main.ts state *)

Record RecallSdkStore : Type := mkStore {
  config : RecallSdkConfig;
  initialized : bool;
  sdkInitialized : bool
}.

Record RecallDesktopMain : Type := mkMain {
  isInitialized : bool;
  subscriptions : gmap RecallSdkEventType JsMap.t;
  trackedWebContents : gmap nat WebContents;
  sdkEventHandlers : gmap RecallSdkEventType SdkHandler
}.

Record World : Type := mkWorld {
  recallSdkStore : RecallSdkStore;
  recallDesktopMain : RecallDesktopMain;
  (** listeners the provider holds, in registration order *)
  sdkListeners : list (RecallSdkEventType * SdkHandler);
  (** ids of the WebContents carrying a pending [once("destroyed")] cleanup *)
  destroyedCallbacks : list nat
}.

Definition with_store (s : RecallSdkStore) (w : World) : World :=
  mkWorld s (recallDesktopMain w) (sdkListeners w) (destroyedCallbacks w).

Definition with_main (m : RecallDesktopMain) (w : World) : World :=
  mkWorld (recallSdkStore w) m (sdkListeners w) (destroyedCallbacks w).

(** ** The monad of plugin code *)

(** The result of running a piece of code: what it returned or threw, the
    world it left, and what it did to the outside. *)
Record Run (A : Type) : Type := mkRun {
  outcome : Thrown + A;
  world : World;
  effects : list Effect
}.
Arguments mkRun {A} _ _ _.
Arguments outcome {A} _.
Arguments world {A} _.
Arguments effects {A} _.

Definition M (A : Type) : Type := World -> Run A.

Definition ret {A} (a : A) : M A := fun w => mkRun (inr a) w [].

Definition bind {A B} (m : M A) (k : A -> M B) : M B := fun w =>
  match m w with
  | mkRun (inl e) w1 tr1 => mkRun (inl e) w1 tr1
  | mkRun (inr a) w1 tr1 =>
      match k a w1 with
      | mkRun o w2 tr2 => mkRun o w2 (tr1 ++ tr2)
      end
  end.

Definition throw {A} (e : Thrown) : M A := fun w => mkRun (inl e) w [].

(** [try { body } catch (error) { handler }]. *)
Definition try_catch {A} (body : M A) (handler : Thrown -> M A) : M A := fun w =>
  match body w with
  | mkRun (inl e) w1 tr1 =>
      match handler e w1 with
      | mkRun o w2 tr2 => mkRun o w2 (tr1 ++ tr2)
      end
  | mkRun (inr a) w1 tr1 => mkRun (inr a) w1 tr1
  end.

Definition getWorld : M World := fun w => mkRun (inr w) w [].
Definition putWorld (w' : World) : M unit := fun _ => mkRun (inr tt) w' [].
Definition emit (e : Effect) : M unit := fun w => mkRun (inr tt) w [e].

Declare Scope js_scope.
Delimit Scope js_scope with js.
Notation "'let!' x ':=' m 'in' k" := (bind m (fun x => k))
  (at level 10, x name, m at level 100, k at level 200) : js_scope.
Notation "m '>>' k" := (bind m (fun _ => k))
  (at level 100, k at level 200, right associativity) : js_scope.
Open Scope js_scope.

Definition console_log (text : string) : M unit := emit (ConsoleLog text).
Definition console_error (text : string) : M unit := emit (ConsoleError text).

(** [array.forEach(f)] / [map.forEach(f)] over a snapshot of the entries. *)
Fixpoint forEach {A} (f : A -> M unit) (l : list A) : M unit :=
  match l with
  | [] => ret tt
  | x :: rest => f x >> forEach f rest
  end.

(** ** External calls *)

(** [await RecallAiSdk.init(options)]. *)
Definition RecallAiSdk_init (sdk : RecallAiSdk) (options : SdkInitOptions) : M unit :=
  emit (SdkInit options) >>
  if init_rejects sdk then throw (OtherError "RecallAiSdk.init rejected") else ret tt.

(** [await RecallAiSdk.shutdown()]. *)
Definition RecallAiSdk_shutdown (sdk : RecallAiSdk) : M unit :=
  emit SdkShutdown >>
  if shutdown_rejects sdk then throw (OtherError "RecallAiSdk.shutdown rejected") else ret tt.

(** [RecallAiSdk.addEventListener(eventType, handler)]. *)
Definition RecallAiSdk_addEventListener (eventType : RecallSdkEventType) (handler : SdkHandler) : M unit :=
  emit (SdkAddEventListener eventType) >>
  let! w := getWorld in
  putWorld (mkWorld (recallSdkStore w) (recallDesktopMain w)
                    (sdkListeners w ++ [(eventType, handler)]) (destroyedCallbacks w)).

(** [wc.send(channel, data)]. *)
Definition wc_send (wc : WebContents) (channel : string) (data : Payload) : M unit :=
  emit (WcSend (wc_id wc) channel data) >>
  if wc_send_throws wc then throw (OtherError "webContents.send threw") else ret tt.

(** [wc.once("destroyed", cleanup)]; the cleanup closure is determined by
    the captured [id]. *)
Definition wc_once_destroyed (id : nat) : M unit :=
  emit (WcOnceDestroyed id) >>
  let! w := getWorld in
  putWorld (mkWorld (recallSdkStore w) (recallDesktopMain w)
                    (sdkListeners w) (destroyedCallbacks w ++ [id])).

(** ** store.ts: class RecallSdkStore *)
Module Store.

(** The field initialisers of the class. *)
Definition initial : RecallSdkStore :=
  mkStore (mkConfig true "https://us-east-1.recall.ai" true) false false.

Definition initialize : M unit :=
  try_catch
    (let! w := getWorld in
     let s := recallSdkStore w in
     putWorld (with_store (mkStore (config s) true (sdkInitialized s)) w) >>
     console_log "RecallSdkStore: Initialized successfully")
    (fun error =>
       console_error "RecallSdkStore: Failed to initialize:" >>
       throw error).

Definition getConfig : M RecallSdkConfig :=
  let! w := getWorld in ret (config (recallSdkStore w)).

(** One key of [{ ...this.config, ...updates }]: a key present in
    [updates] wins, also when its value is [undefined]. *)
Definition spread {A} (field : option A) (update : Key A) : option A :=
  match update with
  | Absent => field
  | Present v => v
  end.

(** [{ ...this.config, ...updates }]. *)
Definition merge (c : RecallSdkConfig) (updates : PartialConfig) : RecallSdkConfig :=
  mkConfigOf (spread (enabled c) (enabled_opt updates))
           (spread (apiUrl c) (apiUrl_opt updates))
           (spread (requestPermissionsOnStartup c)
                   (requestPermissionsOnStartup_opt updates)).

Definition setConfig (updates : PartialConfig) : M unit :=
  let! w := getWorld in
  let s := recallSdkStore w in
  putWorld (with_store (mkStore (merge (config s) updates) (initialized s) (sdkInitialized s)) w) >>
  console_log "RecallSdkStore: Configuration updated:".

Definition isInitialized : M bool :=
  let! w := getWorld in ret (initialized (recallSdkStore w)).

(** [isEnabled()] returns the field as it is, so possibly [undefined]. *)
Definition isEnabled : M (option bool) :=
  let! w := getWorld in ret (enabled (config (recallSdkStore w))).

Definition setSdkInitialized (b : bool) : M unit :=
  let! w := getWorld in
  let s := recallSdkStore w in
  putWorld (with_store (mkStore (config s) (initialized s) b) w).

Definition isSdkInitialized : M bool :=
  let! w := getWorld in ret (sdkInitialized (recallSdkStore w)).

Definition clearState : M unit :=
  setSdkInitialized false >>
  console_log "RecallSdkStore: Cleared all state".

(** [loadFromPreferences]: the three field assignments, each guarded by
    [preferences.key !== undefined]. *)
Definition loadFromPreferences (preferences : PartialConfig) : M unit :=
  let! w := getWorld in
  let s := recallSdkStore w in
  let c0 := config s in
  let c1 :=
    match read (enabled_opt preferences) with
    | Some v => mkConfigOf (Some v) (apiUrl c0) (requestPermissionsOnStartup c0)
    | None => c0
    end in
  let c2 :=
    match read (apiUrl_opt preferences) with
    | Some v => mkConfigOf (enabled c1) (Some v) (requestPermissionsOnStartup c1)
    | None => c1
    end in
  let c3 :=
    match read (requestPermissionsOnStartup_opt preferences) with
    | Some v => mkConfigOf (enabled c2) (apiUrl c2) (Some v)
    | None => c2
    end in
  putWorld (with_store (mkStore c3 (initialized s) (sdkInitialized s)) w) >>
  console_log "RecallSdkStore: Loaded configuration from preferences:".

End Store.

(** ** main.ts: class RecallDesktopMain *)
Module Main.

(** The field initialisers of the class. *)
Definition initial : RecallDesktopMain := mkMain false ∅ ∅ ∅.

(** [initialize()]; [registerIpcHandlers()] installs the handlers defined
    below and changes no field. *)
Definition initialize : M unit :=
  let! w := getWorld in
  if isInitialized (recallDesktopMain w) then ret tt
  else
    let! isEnabled := Store.isEnabled in
    if negb (truthyBool isEnabled)
    then console_log "RecallDesktopMain: Plugin is disabled"
    else
      try_catch
        (Store.initialize >>
         let! w := getWorld in
         let m := recallDesktopMain w in
         putWorld (with_main (mkMain true (subscriptions m) (trackedWebContents m)
                                     (sdkEventHandlers m)) w) >>
         console_log "RecallDesktopMain: Main process initialized")
        (fun error =>
           console_error "RecallDesktopMain: Failed to initialize main process:" >>
           throw error).

(** [`recall-desktop:event:${type}`]. *)
Definition channelOf (type : RecallSdkEventType) : string :=
  "recall-desktop:event:" +:+ eventTypeName type.

(** The [sdkOptions] object literal of [initializeSdk]. *)
Definition sdkOptionsOf (config : RecallSdkConfig) : SdkInitOptions :=
  mkSdkInitOptions
    (apiUrl config)
    (if truthyBool (requestPermissionsOnStartup config)
     then Some [accessibility; screen_capture; microphone; system_audio]
     else None)
    (Some true).

Definition initializeSdk (sdk : RecallAiSdk) : M unit :=
  try_catch
    (let! config := Store.getConfig in
     let sdkOptions := sdkOptionsOf config in
     console_log "RecallDesktopMain: SDK options:" >>
     RecallAiSdk_init sdk sdkOptions >>
     Store.setSdkInitialized true >>
     console_log "RecallDesktopMain: SDK initialized successfully")
    (fun error =>
       console_error "RecallDesktopMain: Failed to initialize SDK:" >>
       throw (RecallSdkError "SDK initialization failed" "SDK_INIT_ERROR")).

(** The body of the [subs.forEach] callback of [broadcastEvent]. *)
Definition sendTo (channel : string) (data : Payload) (entry : nat * nat) : M unit :=
  let wcId := entry.1 in
  let! w := getWorld in
  match trackedWebContents (recallDesktopMain w) !! wcId with
  | None => ret tt
  | Some wc =>
      try_catch
        (wc_send wc channel data)
        (fun err =>
           console_error "RecallDesktopMain: Failed to send event to webContents")
  end.

Definition broadcastEvent (type : RecallSdkEventType) (data : Payload) : M unit :=
  let channel := channelOf type in
  let! w := getWorld in
  match subscriptions (recallDesktopMain w) !! type with
  | None => ret tt
  | Some subs => forEach (sendTo channel data) subs
  end.

Definition ensureSdkListener (eventType : RecallSdkEventType) : M unit :=
  let! w := getWorld in
  let m := recallDesktopMain w in
  match sdkEventHandlers m !! eventType with
  | Some _ => ret tt
  | None =>
      let handler := ForwardTo eventType in
      putWorld (with_main (mkMain (isInitialized m) (subscriptions m)
                                  (trackedWebContents m)
                                  (<[eventType := handler]> (sdkEventHandlers m))) w) >>
      RecallAiSdk_addEventListener eventType handler
  end.

(** The class field [eventSideEffects]: only [shutdown] has an entry. *)
Definition eventSideEffects (eventType : RecallSdkEventType) : option (Payload -> M unit) :=
  match eventType with
  | shutdown_event => Some (fun _ => Store.clearState)
  | _ => None
  end.

(** [handleSdkEvent], reading its side effects from the table [table]
    (the value of [this.eventSideEffects]). *)
Definition handleSdkEventWith
    (table : RecallSdkEventType -> option (Payload -> M unit))
    (eventType : RecallSdkEventType) (evt : Payload) : M unit :=
  (if decide (eventType = error_event)
   then console_error "RecallDesktopMain: SDK error:"
   else console_log ("RecallDesktopMain: " +:+ eventTypeName eventType)) >>
  match table eventType with
  | Some sideEffect =>
      try_catch
        (sideEffect evt)
        (fun error => console_error "RecallDesktopMain: Side effect failed for")
  | None => ret tt
  end >>
  broadcastEvent eventType evt.

Definition handleSdkEvent : RecallSdkEventType -> Payload -> M unit :=
  handleSdkEventWith eventSideEffects.

(** The callback handed to [wc.once("destroyed", ...)]. *)
Definition destroyedCleanup (id : nat) : M unit :=
  let! w := getWorld in
  let m := recallDesktopMain w in
  putWorld (with_main (mkMain (isInitialized m)
                              (JsMap.delete id <$> subscriptions m)
                              (delete id (trackedWebContents m))
                              (sdkEventHandlers m)) w).

Definition addDestroyedCleanup (wc : WebContents) : M unit :=
  let id := wc_id wc in
  let! w := getWorld in
  let m := recallDesktopMain w in
  match trackedWebContents m !! id with
  | Some _ => ret tt
  | None =>
      putWorld (with_main (mkMain (isInitialized m) (subscriptions m)
                                  (<[id := wc]> (trackedWebContents m))
                                  (sdkEventHandlers m)) w) >>
      wc_once_destroyed id
  end.

(** [ipcMain.handle(IPC_CHANNELS.SUBSCRIBE_EVENTS, ...)]; [sender] is
    [event.sender]. *)
Definition SUBSCRIBE_EVENTS (sender : WebContents) (eventType : RecallSdkEventType) : M ApiResponse :=
  try_catch
    (let wc := sender in
     addDestroyedCleanup wc >>
     let! w := getWorld in
     let m := recallDesktopMain w in
     let map := default [] (subscriptions m !! eventType) in
     let id := wc_id wc in
     let prev := default 0 (JsMap.get id map) in
     putWorld (with_main (mkMain (isInitialized m)
                                 (<[eventType := JsMap.set id (prev + 1) map]> (subscriptions m))
                                 (trackedWebContents m)
                                 (sdkEventHandlers m)) w) >>
     ensureSdkListener eventType >>
     ret (mkResponse true ("Subscribed to " +:+ eventTypeName eventType)))
    (fun error =>
       console_error "RecallDesktopMain: subscribe-events failed" >>
       ret (mkResponse false "Failed to subscribe to events")).

(** [ipcMain.handle(IPC_CHANNELS.UNSUBSCRIBE_EVENTS, ...)]. *)
Definition UNSUBSCRIBE_EVENTS (sender : WebContents) (eventType : RecallSdkEventType) : M ApiResponse :=
  try_catch
    (let wc := sender in
     let! w := getWorld in
     let m := recallDesktopMain w in
     match subscriptions m !! eventType with
     | Some map =>
         let id := wc_id wc in
         let prev := default 0 (JsMap.get id map) in
         putWorld (with_main (mkMain (isInitialized m)
                                     (<[eventType :=
                                          if decide (prev <= 1)
                                          then JsMap.delete id map
                                          else JsMap.set id (prev - 1) map]>
                                        (subscriptions m))
                                     (trackedWebContents m)
                                     (sdkEventHandlers m)) w)
     | None => ret tt
     end >>
     ret (mkResponse true ("Unsubscribed from " +:+ eventTypeName eventType)))
    (fun error =>
       console_error "RecallDesktopMain: unsubscribe-events failed" >>
       ret (mkResponse false "Failed to unsubscribe from events")).

(** [ipcMain.handle(IPC_CHANNELS.INIT_SDK, ...)]. *)
Definition INIT_SDK (sdk : RecallAiSdk) : M ApiResponse :=
  try_catch
    (let! isEnabled := Store.isEnabled in
     (if negb (truthyBool isEnabled)
      then throw (RecallSdkError "Plugin is disabled" "PLUGIN_DISABLED")
      else ret tt) >>
     let! isSdkInitialized := Store.isSdkInitialized in
     if isSdkInitialized
     then ret (mkResponse true "SDK already initialized")
     else
       initializeSdk sdk >>
       ret (mkResponse true "SDK initialized successfully"))
    (fun error =>
       console_error "RecallDesktopMain: SDK initialization failed:" >>
       ret (mkResponse false (messageOr "SDK initialization failed" error))).

(** [ipcMain.handle(IPC_CHANNELS.SHUTDOWN_SDK, ...)]. *)
Definition SHUTDOWN_SDK (sdk : RecallAiSdk) : M ApiResponse :=
  try_catch
    (RecallAiSdk_shutdown sdk >>
     Store.clearState >>
     ret (mkResponse true "SDK shutdown successfully"))
    (fun error =>
       console_error "RecallDesktopMain: SDK shutdown failed:" >>
       ret (mkResponse false "SDK shutdown failed")).

(** JavaScript truthiness of a string or [undefined]: a string that is not
    empty. *)
Definition truthy (s : option JsStr) : bool :=
  match s with
  | Some (_ :: _) => true
  | Some [] => false
  | None => false
  end.

(** [config.apiUrl || config.requestPermissionsOnStartup !== undefined]. *)
Definition sdkSettingsChanged (config : PartialConfig) : bool :=
  truthy (read (apiUrl_opt config)) ||
  bool_decide (read (requestPermissionsOnStartup_opt config) <> None).

(** [ipcMain.handle(IPC_CHANNELS.SET_CONFIG, ...)]. *)
Definition SET_CONFIG (sdk : RecallAiSdk) (config : PartialConfig) : M ApiResponse :=
  try_catch
    (Store.setConfig config >>
     let! isSdkInitialized := Store.isSdkInitialized in
     (if isSdkInitialized && sdkSettingsChanged config
      then
        console_log "RecallDesktopMain: Reinitializing SDK due to configuration change" >>
        RecallAiSdk_shutdown sdk >>
        initializeSdk sdk
      else ret tt) >>
     ret (mkResponse true "Configuration updated successfully"))
    (fun error =>
       console_error "RecallDesktopMain: Failed to set configuration:" >>
       ret (mkResponse false "Failed to update configuration")).



(** [ipcMain.handle(IPC_CHANNELS.GET_CONFIG, ...)]. *)
Definition GET_CONFIG : M (ApiResponseOf RecallSdkConfig) :=
  let! config := Store.getConfig in
  ret (mkResponseOf true "Configuration retrieved successfully" (Some config)).

End Main.

(** ** main.ts: the handlers that forward to the provider

    These handlers read [recallSdkStore] at most and write nothing, so they
    run in a reader / exception / output monad over the [World]; their
    output is the requests they make of the provider and the lines they
    log. *)

(** [StartRecordingRequest], [StopRecordingRequest] and the like. *)
Record StartRecordingRequest : Type := mkStartRecordingRequest {
  start_windowId : string;
  start_uploadToken : string
}.

(** A call of one of the provider's recording entry points, with the
    argument object the handler builds. *)
Inductive SdkRequest : Type :=
  | SdkStartRecording (windowId uploadToken : string)
  | SdkStopRecording (windowId : string)
  | SdkPauseRecording (windowId : string)
  | SdkResumeRecording (windowId : string)
  | SdkUploadRecording (windowId : string)
  | SdkPrepareDesktopAudioRecording
  | SdkRequestPermission (permission : PermissionType).

(** How the provider answers those calls: which promises reject, and the
    window id [prepareDesktopAudioRecording] resolves with. *)
Record SdkAnswers : Type := mkSdkAnswers {
  rejects : SdkRequest -> bool;
  preparedWindowId : string
}.

Inductive PassEffect : Type :=
  | Requested (request : SdkRequest)
  | Logged (text : string).

Module Pass.

Definition P (A : Type) : Type := World -> (Thrown + A) * list PassEffect.

Definition pret {A} (a : A) : P A := fun _ => (inr a, []).

Definition pbind {A B} (m : P A) (k : A -> P B) : P B := fun w =>
  match m w with
  | (inl e, tr1) => (inl e, tr1)
  | (inr a, tr1) =>
      match k a w with
      | (o, tr2) => (o, tr1 ++ tr2)
      end
  end.

Definition pthrow {A} (e : Thrown) : P A := fun _ => (inl e, []).

Definition ptry_catch {A} (body : P A) (handler : Thrown -> P A) : P A := fun w =>
  match body w with
  | (inl e, tr1) =>
      match handler e w with
      | (o, tr2) => (o, tr1 ++ tr2)
      end
  | (inr a, tr1) => (inr a, tr1)
  end.

Definition pconsole_error (text : string) : P unit := fun _ => (inr tt, [Logged text]).

(** [recallSdkStore.isSdkInitialized()]. *)
Definition isSdkInitialized : P bool := fun w => (inr (sdkInitialized (recallSdkStore w)), []).

(** [await RecallAiSdk.<entry point>(...)] for the entry points resolving
    with [null]. *)
Definition call (sdk : SdkAnswers) (request : SdkRequest) : P unit := fun _ =>
  (if rejects sdk request then inl (OtherError "provider call rejected") else inr tt,
   [Requested request]).

(** [await RecallAiSdk.prepareDesktopAudioRecording()]. *)
Definition callPrepare (sdk : SdkAnswers) : P string := fun _ =>
  (if rejects sdk SdkPrepareDesktopAudioRecording
   then inl (OtherError "provider call rejected")
   else inr (preparedWindowId sdk),
   [Requested SdkPrepareDesktopAudioRecording]).

(** [ipcMain.handle(IPC_CHANNELS.START_RECORDING, ...)]. *)
Definition START_RECORDING (sdk : SdkAnswers) (request : StartRecordingRequest) : P ApiResponse :=
  ptry_catch
    (pbind isSdkInitialized (fun ready =>
     pbind (if negb ready
            then pthrow (RecallSdkError "SDK not initialized" "SDK_NOT_INITIALIZED")
            else pret tt) (fun _ =>
     pbind (call sdk (SdkStartRecording (start_windowId request) (start_uploadToken request)))
           (fun _ =>
     pret (mkResponse true "Recording started successfully")))))
    (fun error =>
       pbind (pconsole_error "RecallDesktopMain: Start recording failed:") (fun _ =>
       pret (mkResponse false (messageOr "Failed to start recording" error)))).

(** [ipcMain.handle(IPC_CHANNELS.STOP_RECORDING, ...)]. *)
Definition STOP_RECORDING (sdk : SdkAnswers) (windowId : string) : P ApiResponse :=
  ptry_catch
    (pbind (call sdk (SdkStopRecording windowId)) (fun _ =>
     pret (mkResponse true "Recording stopped successfully")))
    (fun error =>
       pbind (pconsole_error "RecallDesktopMain: Stop recording failed:") (fun _ =>
       pret (mkResponse false "Failed to stop recording"))).

(** [ipcMain.handle(IPC_CHANNELS.PAUSE_RECORDING, ...)]. *)
Definition PAUSE_RECORDING (sdk : SdkAnswers) (windowId : string) : P ApiResponse :=
  ptry_catch
    (pbind (call sdk (SdkPauseRecording windowId)) (fun _ =>
     pret (mkResponse true "Recording paused successfully")))
    (fun error =>
       pbind (pconsole_error "RecallDesktopMain: Pause recording failed:") (fun _ =>
       pret (mkResponse false "Failed to pause recording"))).

(** [ipcMain.handle(IPC_CHANNELS.RESUME_RECORDING, ...)]. *)
Definition RESUME_RECORDING (sdk : SdkAnswers) (windowId : string) : P ApiResponse :=
  ptry_catch
    (pbind (call sdk (SdkResumeRecording windowId)) (fun _ =>
     pret (mkResponse true "Recording resumed successfully")))
    (fun error =>
       pbind (pconsole_error "RecallDesktopMain: Resume recording failed:") (fun _ =>
       pret (mkResponse false "Failed to resume recording"))).

(** [ipcMain.handle(IPC_CHANNELS.UPLOAD_RECORDING, ...)]. *)
Definition UPLOAD_RECORDING (sdk : SdkAnswers) (windowId : string) : P ApiResponse :=
  ptry_catch
    (pbind (call sdk (SdkUploadRecording windowId)) (fun _ =>
     pret (mkResponse true "Recording upload started successfully")))
    (fun error =>
       pbind (pconsole_error "RecallDesktopMain: Upload recording failed:") (fun _ =>
       pret (mkResponse false "Failed to upload recording"))).

(** [ipcMain.handle(IPC_CHANNELS.PREPARE_DESKTOP_AUDIO, ...)]; [data] is
    the [windowId] of [PrepareDesktopAudioResponse]. *)
Definition PREPARE_DESKTOP_AUDIO (sdk : SdkAnswers) : P (ApiResponseOf string) :=
  ptry_catch
    (pbind (callPrepare sdk) (fun windowId =>
     pret (mkResponseOf true "Desktop audio recording prepared successfully" (Some windowId))))
    (fun error =>
       pbind (pconsole_error "RecallDesktopMain: Prepare desktop audio failed:") (fun _ =>
       pret (mkResponseOf false "Failed to prepare desktop audio recording" None))).

(** [`Permission request sent for ${permission}`]. *)
Definition permissionName (permission : PermissionType) : string :=
  match permission with
  | accessibility => "accessibility"
  | screen_capture => "screen-capture"
  | microphone => "microphone"
  | system_audio => "system-audio"
  end.

(** [ipcMain.handle(IPC_CHANNELS.REQUEST_PERMISSION, ...)]. *)
Definition REQUEST_PERMISSION (sdk : SdkAnswers) (permission : PermissionType) : P ApiResponse :=
  ptry_catch
    (pbind (call sdk (SdkRequestPermission permission)) (fun _ =>
     pret (mkResponse true ("Permission request sent for " +:+ permissionName permission))))
    (fun error =>
       pbind (pconsole_error "RecallDesktopMain: Request permission failed:") (fun _ =>
       pret (mkResponse false "Failed to request permission"))).

(** The requests a run made of the provider. *)
Definition requests (tr : list PassEffect) : list SdkRequest :=
  omap (fun e => match e with Requested r => Some r | Logged _ => None end) tr.

End Pass.

(** ** store.ts: the plugin context, and the plugin's entry point *)

(** A JavaScript value, as far as [typeof] tells values apart here. *)
Inductive JsValue : Type :=
  | JsUndefined
  | JsBoolean (b : bool)
  | JsString (s : JsStr)
  | JsOther.

(** [PluginContext]: the array [plugin.todesktop.preferences] if the chain
    of optional accesses reaches it, each entry reduced to what
    [entry?.spec?.value] evaluates to. *)
Record PluginContext : Type := mkPluginContext {
  preferenceValues : option (list JsValue)
}.

(** The code units [String.prototype.trim] strips: the WhiteSpace and
    LineTerminator code points of ECMAScript, each of them one code unit.
    U+0009 to U+000D, U+0020, U+00A0, U+1680, U+2000 to U+200A, U+2028,
    U+2029, U+202F, U+205F, U+3000 and U+FEFF. *)
Definition whiteSpaceUnits : list N :=
  [9; 10; 11; 12; 13; 32; 160; 5760;
   8192; 8193; 8194; 8195; 8196; 8197; 8198; 8199; 8200; 8201; 8202;
   8232; 8233; 8239; 8287; 12288; 65279]%N.

Definition isWhiteSpace (u : N) : bool := existsb (N.eqb u) whiteSpaceUnits.

Fixpoint trimStart (s : JsStr) : JsStr :=
  match s with
  | [] => []
  | u :: rest => if isWhiteSpace u then trimStart rest else s
  end.

Definition trimEnd (s : JsStr) : JsStr := reverse (trimStart (reverse s)).

(** [s.trim()]. *)
Definition trim (s : JsStr) : JsStr := trimEnd (trimStart s).

(** The [preferences] object literal of [setPluginContext]: all three keys
    are there, with [undefined] where the preference does not fit. *)
Definition preferencesOf (input : PluginContext) : PartialConfig :=
  let prefs := default [] (preferenceValues input) in
  let enabledPref := default JsUndefined (prefs !! 0) in
  let apiUrlPref := default JsUndefined (prefs !! 1) in
  let requestPref := default JsUndefined (prefs !! 2) in
  mkPartialOf
    (Present (match enabledPref with JsBoolean b => Some b | _ => None end))
    (Present (match apiUrlPref with
              | JsString v => if Main.truthy (Some (trim v)) then Some v else None
              | _ => None
              end))
    (Present (match requestPref with JsBoolean b => Some b | _ => None end)).

(** [setPluginContext]; the module variable [pluginContext] is passed in and
    its new value returned. *)
Definition setPluginContext (input : PluginContext) (pluginContext : option PluginContext) : M (option PluginContext) :=
  let pluginContext := Some input in
  Store.loadFromPreferences (preferencesOf input) >>
  ret pluginContext.

(** [getPluginContext]. *)
Definition getPluginContext (pluginContext : option PluginContext) : Thrown + PluginContext :=
  match pluginContext with
  | None => inl (OtherError "Plugin context has not been set")
  | Some context => inr context
  end.

(** The default export of main.ts:
    [setPluginContext(context); recallDesktopMain.initialize().catch(() => undefined)]. *)
Definition pluginEntry (context : PluginContext) (pluginContext : option PluginContext) : M (option PluginContext) :=
  let! pluginContext := setPluginContext context pluginContext in
  try_catch Main.initialize (fun _ => ret tt) >>
  ret pluginContext.

(** The process before the entry point runs: both singletons as their field
    initialisers leave them. *)
Definition fresh_world : World := mkWorld Store.initial Main.initial [] [].

(** A string of white space only (the empty string included). *)
Definition blank (s : JsStr) : bool := forallb isWhiteSpace s.

(** ** Events raised by the collaborators *)

(** Electron emits ["destroyed"] on the WebContents [id]: every pending
    [once] callback of that WebContents is detached and called. *)
Definition emitDestroyed (id : nat) : M unit :=
  let! w := getWorld in
  let pending := filter (fun i => i = id) (destroyedCallbacks w) in
  putWorld (mkWorld (recallSdkStore w) (recallDesktopMain w) (sdkListeners w)
                    (filter (fun i => i <> id) (destroyedCallbacks w))) >>
  forEach Main.destroyedCleanup pending.

(** Calling a registered provider listener. *)
Definition callHandler (evt : Payload) (l : RecallSdkEventType * SdkHandler) : M unit :=
  match l.2 with
  | ForwardTo eventType => Main.handleSdkEvent eventType evt
  end.

(** The provider emits [type] with payload [evt]: every listener registered
    for [type] is called, in registration order. *)
Definition emitSdkEvent (type : RecallSdkEventType) (evt : Payload) : M unit :=
  let! w := getWorld in
  forEach (callHandler evt) (filter (fun l => l.1 = type) (sdkListeners w)).

(** ** Histories *)

(** One turn of the main process. *)
Inductive Op : Type :=
  | Subscribe (sender : WebContents) (eventType : RecallSdkEventType)
  | Unsubscribe (sender : WebContents) (eventType : RecallSdkEventType)
  | InitSdk (sdk : RecallAiSdk)
  | ShutdownSdk (sdk : RecallAiSdk)
  | SetConfig (sdk : RecallAiSdk) (config : PartialConfig)
  | Destroyed (id : nat)
  | SdkEvent (type : RecallSdkEventType) (evt : Payload).

Definition step (op : Op) : M unit :=
  match op with
  | Subscribe sender eventType => Main.SUBSCRIBE_EVENTS sender eventType >> ret tt
  | Unsubscribe sender eventType => Main.UNSUBSCRIBE_EVENTS sender eventType >> ret tt
  | InitSdk sdk => Main.INIT_SDK sdk >> ret tt
  | ShutdownSdk sdk => Main.SHUTDOWN_SDK sdk >> ret tt
  | SetConfig sdk config => Main.SET_CONFIG sdk config >> ret tt
  | Destroyed id => emitDestroyed id
  | SdkEvent type evt => emitSdkEvent type evt
  end.

Definition exec (op : Op) (w : World) : World := world (step op w).

Definition run (ops : list Op) (w : World) : World :=
  fold_left (fun w op => exec op w) ops w.

(** The process once [initialize] has installed the IPC handlers: the
    plugin and its store count as initialised, the SDK does not, nobody has
    subscribed, and the store holds the configuration [c] (the one loaded
    from the preferences, or one a later [setConfig] left).  No handler
    runs in an earlier world. *)
Definition boot (c : RecallSdkConfig) : World :=
  mkWorld (mkStore c true false) (mkMain true ∅ ∅ ∅) [] [].

(** ** Observations *)

(** The reference count stored for [(type, id)]; an absent entry counts 0. *)
Definition refcount (type : RecallSdkEventType) (id : nat) (w : World) : nat :=
  default 0 (subscriptions (recallDesktopMain w) !! type ≫= JsMap.get id).

Definition isSendTo (id : nat) (e : Effect) : bool :=
  match e with
  | WcSend i _ _ => bool_decide (i = id)
  | _ => false
  end.

Definition isSend (e : Effect) : bool :=
  match e with
  | WcSend _ _ _ => true
  | _ => false
  end.

Definition isSdkCall (e : Effect) : bool :=
  match e with
  | SdkInit _ | SdkShutdown => true
  | _ => false
  end.

(** The [wc.send] calls of a trace that go to WebContents [id]. *)
Definition sendsTo (id : nat) (tr : list Effect) : list Effect :=
  List.filter (isSendTo id) tr.

(** All [wc.send] calls of a trace. *)
Definition sends (tr : list Effect) : list Effect := List.filter isSend tr.

(** The [init] and [shutdown] calls to the provider in a trace. *)
Definition sdkCalls (tr : list Effect) : list Effect := List.filter isSdkCall tr.

(** How many listeners the provider holds for [type]. *)
Definition listenerCount (type : RecallSdkEventType) (w : World) : nat :=
  length (filter (fun l => l.1 = type) (sdkListeners w)).

(** The WebContents [broadcastEvent] sends to: for every key of the inner
    map for [type], in insertion order, the tracked object if there is one. *)
Definition subscribersOf (type : RecallSdkEventType) (w : World) : list WebContents :=
  omap (fun entry : nat * nat => trackedWebContents (recallDesktopMain w) !! entry.1)
       (default [] (subscriptions (recallDesktopMain w) !! type)).

(** Net subscription count of consumer [id] for [type] along a history, in
    the words of the specification: a subscribe adds one, an unsubscribe
    takes one away unless the count is already 0, and the removal of the
    consumer resets it. *)
Fixpoint netCount (type : RecallSdkEventType) (id : nat) (n : nat) (ops : list Op) : nat :=
  match ops with
  | [] => n
  | Subscribe sender t :: rest =>
      netCount type id (if decide (wc_id sender = id /\ t = type) then S n else n) rest
  | Unsubscribe sender t :: rest =>
      netCount type id (if decide (wc_id sender = id /\ t = type) then pred n else n) rest
  | Destroyed i :: rest =>
      netCount type id (if decide (i = id) then 0 else n) rest
  | _ :: rest => netCount type id n rest
  end.

(** Whether a turn is a subscribe request sent by WebContents [id]. *)
Definition isSubscribeFrom (id : nat) (op : Op) : bool :=
  match op with
  | Subscribe sender _ => bool_decide (wc_id sender = id)
  | _ => false
  end.

(** A provider that accepts every call. *)
Definition sdk_ok : RecallAiSdk := mkSdk false false.

(** The process after [initSdk] succeeded under the default configuration. *)
Definition ready_world : World := run [InitSdk sdk_ok] (boot (config Store.initial)).

(** ** Invariants of the hub *)

(** Two worlds with the same hub: only the store may differ. *)
Definition hub_eq (w w' : World) : Prop :=
  recallDesktopMain w = recallDesktopMain w' /\
  sdkListeners w = sdkListeners w' /\
  destroyedCallbacks w = destroyedCallbacks w'.

(** The line [handleSdkEvent] logs first. *)
Definition firstLog (t : RecallSdkEventType) : Effect :=
  if decide (t = error_event)
  then ConsoleError "RecallDesktopMain: SDK error:"
  else ConsoleLog ("RecallDesktopMain: " +:+ eventTypeName t).

(** What every history keeps true of the hub: inner maps have no duplicate
    keys and only positive counts, every subscriber is tracked under its own
    id with a pending [destroyed] cleanup, and every event type that has an
    inner map has exactly one provider listener, the forwarding closure. *)
Record Inv (w : World) : Prop := mkInv {
  inv_nodup : forall t m,
    subscriptions (recallDesktopMain w) !! t = Some m -> NoDup (JsMap.keys m);
  inv_positive : forall t m id n,
    subscriptions (recallDesktopMain w) !! t = Some m ->
    JsMap.get id m = Some n -> 0 < n;
  inv_tracked : forall t m id,
    subscriptions (recallDesktopMain w) !! t = Some m ->
    id ∈ JsMap.keys m -> is_Some (trackedWebContents (recallDesktopMain w) !! id);
  inv_tracked_id : forall id wc,
    trackedWebContents (recallDesktopMain w) !! id = Some wc -> wc_id wc = id;
  inv_callbacks : forall id,
    id ∈ destroyedCallbacks w <->
    is_Some (trackedWebContents (recallDesktopMain w) !! id);
  inv_callbacks_nodup : NoDup (destroyedCallbacks w);
  inv_handlers : forall t,
    is_Some (subscriptions (recallDesktopMain w) !! t) ->
    is_Some (sdkEventHandlers (recallDesktopMain w) !! t);
  inv_listeners : forall t,
    filter (fun l => l.1 = t) (sdkListeners w) =
      match sdkEventHandlers (recallDesktopMain w) !! t with
      | Some _ => [(t, ForwardTo t)]
      | None => []
      end
}.


(** Symbolic execution of plugin code. *)
Ltac js_run :=
  cbv beta iota zeta delta
    [Main.SUBSCRIBE_EVENTS Main.UNSUBSCRIBE_EVENTS Main.INIT_SDK
     Main.SHUTDOWN_SDK Main.SET_CONFIG Main.initializeSdk
     Main.addDestroyedCleanup Main.ensureSdkListener Main.destroyedCleanup
     Main.sendTo Main.broadcastEvent
     Store.getConfig Store.setConfig Store.isEnabled Store.isSdkInitialized
     Store.clearState Store.setSdkInitialized
     RecallAiSdk_init RecallAiSdk_shutdown RecallAiSdk_addEventListener
     wc_send wc_once_destroyed console_log console_error
     try_catch bind ret throw getWorld putWorld emit
     with_main with_store] in *;
  cbn [outcome world effects recallSdkStore recallDesktopMain sdkListeners
       destroyedCallbacks subscriptions trackedWebContents
       sdkEventHandlers isInitialized config initialized sdkInitialized
       enabled apiUrl requestPermissionsOnStartup init_rejects shutdown_rejects
       app negb andb orb] in *.

(** ** Further vocabulary for histories and traces *)

(** What [broadcastEvent] does for one subscriber: the [send] call, and the
    error line if the call threw. *)
Definition sendAttempt (channel : string) (data : Payload) (wc : WebContents) : list Effect :=
  WcSend (wc_id wc) channel data ::
  if wc_send_throws wc
  then [ConsoleError "RecallDesktopMain: Failed to send event to webContents"]
  else [].

(** Whether a history holds a subscribe request for event type [t]. *)
Definition everSubscribed (t : RecallSdkEventType) (ops : list Op) : bool :=
  existsb (fun op => match op with
                     | Subscribe _ t' => bool_decide (t' = t)
                     | _ => false
                     end) ops.

(** The turns that touch the subscription hub. *)
Definition isHubOp (op : Op) : bool :=
  match op with
  | Subscribe _ _ | Unsubscribe _ _ | Destroyed _ => true
  | _ => false
  end.

(** Whether a handler answered [success: true]. *)
Definition succeeded (o : Thrown + ApiResponse) : bool :=
  match o with
  | inr response => success response
  | inl _ => false
  end.

(** A string with at least one code unit. *)
Definition nonempty (s : JsStr) : bool :=
  match s with
  | [] => false
  | _ :: _ => true
  end.


(** The update without the keys that hold [undefined]. *)
Definition withoutUndefined (p : PartialConfig) : PartialConfig :=
  mkPartialOf (definedKey (read (enabled_opt p)))
              (definedKey (read (apiUrl_opt p)))
              (definedKey (read (requestPermissionsOnStartup_opt p))).


(** ** preload.ts: addEventListener, in a renderer *)

(** The closure [listener] one call of [addEventListener] builds around its
    [callback].  Closures of different calls are different objects:
    [listener_id] numbers them; a callback is known by a number. *)
Record Listener : Type := mkListener {
  listener_id : nat;
  listener_callback : nat
}.

#[global] Instance Listener_eq_dec : EqDecision Listener.
Proof. solve_decision. Defined.

(** The renderer: the listeners of [ipcRenderer] with their channels, in
    registration order, and how many closures the script has built. *)
Record Renderer : Type := mkRenderer {
  registered : list (string * Listener);
  built : nat
}.

(** [ipcRenderer.invoke(channel, eventType)] on the two subscription
    channels. *)
Inductive IpcInvoke : Type :=
  | InvokeSubscribeEvents (eventType : RecallSdkEventType)
  | InvokeUnsubscribeEvents (eventType : RecallSdkEventType).

(** The function [addEventListener] returns; it closes over [channel],
    [listener] and [eventType]. *)
Record Unsubscriber : Type := mkUnsubscriber {
  un_channel : string;
  un_listener : Listener;
  un_eventType : RecallSdkEventType
}.

Module Preload.

(** [`recall-desktop:event:${eventType}`]. *)
Definition channelOf (eventType : RecallSdkEventType) : string :=
  "recall-desktop:event:" +:+ eventTypeName eventType.

Fixpoint removeFirst (x : string * Listener) (l : list (string * Listener)) : list (string * Listener) :=
  match l with
  | [] => []
  | y :: rest => if decide (x = y) then rest else y :: removeFirst x rest
  end.

(** [ipcRenderer.removeListener(channel, listener)]: the most recently
    added instance of [listener] on [channel] goes, if there is one. *)
Definition removeListener (channel : string) (listener : Listener)
    (l : list (string * Listener)) : list (string * Listener) :=
  reverse (removeFirst (channel, listener) (reverse l)).

(** [addEventListener(eventType, callback)]: the renderer afterwards, the
    invocations sent to the main process, and the function returned. *)
Definition addEventListener (eventType : RecallSdkEventType) (callback : nat) (r : Renderer) : Renderer * list IpcInvoke * Unsubscriber :=
  let channel := channelOf eventType in
  let listener := mkListener (built r) callback in
  (mkRenderer (registered r ++ [(channel, listener)]) (S (built r)),
   [InvokeSubscribeEvents eventType],
   mkUnsubscriber channel listener eventType).

(** Calling the returned function. *)
Definition unsubscribe (u : Unsubscriber) (r : Renderer) : Renderer * list IpcInvoke :=
  (mkRenderer (removeListener (un_channel u) (un_listener u) (registered r)) (built r),
   [InvokeUnsubscribeEvents (un_eventType u)]).

(** A message arrives on [channel]: every listener of the channel calls its
    callback with [data], in registration order. *)
Definition receive (channel : string) (data : Payload) (r : Renderer) : list (nat * Payload) :=
  omap (fun entry : string * Listener =>
          if decide (entry.1 = channel)
          then Some (listener_callback entry.2, data)
          else None)
       (registered r).

End Preload.

(** ** One page and the main process

    The page of WebContents [self] runs the preload script; an invocation
    it sends is handled by the main process before the page's next step. *)
Record Page : Type := mkPage {
  page_world : World;
  page_renderer : Renderer;
  (** the functions [addEventListener] has returned so far, in call order *)
  page_returned : list Unsubscriber
}.

(** A step of the page's script: a call of [addEventListener], or a call of
    the function its [k]-th call (from 0) returned. *)
Inductive PageOp : Type :=
  | PageAddEventListener (eventType : RecallSdkEventType) (callback : nat)
  | PageUnsubscribe (k : nat).

Definition handleInvoke (self : WebContents) (i : IpcInvoke) : M ApiResponse :=
  match i with
  | InvokeSubscribeEvents eventType => Main.SUBSCRIBE_EVENTS self eventType
  | InvokeUnsubscribeEvents eventType => Main.UNSUBSCRIBE_EVENTS self eventType
  end.

Definition deliverInvokes (self : WebContents) (invokes : list IpcInvoke) (w : World) : World :=
  fold_left (fun w i => world (handleInvoke self i w)) invokes w.

Definition pageStep (self : WebContents) (op : PageOp) (p : Page) : Page :=
  match op with
  | PageAddEventListener eventType callback =>
      match Preload.addEventListener eventType callback (page_renderer p) with
      | (r, invokes, u) =>
          mkPage (deliverInvokes self invokes (page_world p)) r (page_returned p ++ [u])
      end
  | PageUnsubscribe k =>
      match page_returned p !! k with
      | Some u =>
          match Preload.unsubscribe u (page_renderer p) with
          | (r, invokes) =>
              mkPage (deliverInvokes self invokes (page_world p)) r (page_returned p)
          end
      | None => p
      end
  end.

Definition pageRun (self : WebContents) (ops : list PageOp) (p : Page) : Page :=
  fold_left (fun p op => pageStep self op p) ops p.

(** The page that has just loaded, beside a main process in world [w]. *)
Definition loadedPage (w : World) : Page := mkPage w (mkRenderer [] 0) [].

(** What the page's callbacks are called with when the [send] calls of the
    main process's trace [tr] reach the renderer. *)
Definition pageReceives (self : WebContents) (tr : list Effect) (r : Renderer) : list (nat * Payload) :=
  if wc_send_throws self then []
  else sendsTo (wc_id self) tr ≫=
         (fun e => match e with
                   | WcSend _ channel data => Preload.receive channel data r
                   | _ => []
                   end).

(** A script in which every [PageUnsubscribe k] names a function returned
    earlier and not called before ([adds] calls of [addEventListener]
    precede the script, the functions in [called] were called). *)
Fixpoint scriptOk (adds : nat) (called : list nat) (ops : list PageOp) : bool :=
  match ops with
  | [] => true
  | PageAddEventListener _ _ :: rest => scriptOk (S adds) called rest
  | PageUnsubscribe k :: rest =>
      bool_decide (k < adds) && bool_decide (k ∉ called) && scriptOk adds (k :: called) rest
  end.

(** The listeners a script leaves in place, as a user counts them: those
    added (number, event type, callback) and not unsubscribed since. *)
Fixpoint liveAfter (adds : nat) (alive : list (nat * RecallSdkEventType * nat))
    (ops : list PageOp) : list (nat * RecallSdkEventType * nat) :=
  match ops with
  | [] => alive
  | PageAddEventListener t cb :: rest => liveAfter (S adds) (alive ++ [(adds, t, cb)]) rest
  | PageUnsubscribe k :: rest =>
      liveAfter adds (filter (fun x => x.1.1 <> k) alive) rest
  end.

(** The callbacks of the live listeners for event type [K]. *)
Definition liveCallbacks (K : RecallSdkEventType) (alive : list (nat * RecallSdkEventType * nat)) : list nat :=
  omap (fun x : nat * RecallSdkEventType * nat =>
          if decide (x.1.2 = K) then Some x.2 else None) alive.

(** How a live listener shows in [ipcRenderer]. *)
Definition asRegistered (x : nat * RecallSdkEventType * nat) : string * Listener :=
  (Preload.channelOf x.1.2, mkListener x.1.1 x.2).

(** What ties a page to the listeners its script has left in place: [n]
    calls of [addEventListener] so far, [alive] still live, [called] the
    returned functions already called. *)
Record PageInv (self : WebContents) (p : Page) (n : nat)
    (alive : list (nat * RecallSdkEventType * nat)) (called : list nat) : Prop := mkPageInv {
  pi_inv : Inv (page_world p);
  pi_built : built (page_renderer p) = n;
  pi_length : length (page_returned p) = n;
  pi_returned : forall k u,
    page_returned p !! k = Some u ->
    listener_id (un_listener u) = k /\ un_channel u = Preload.channelOf (un_eventType u);
  pi_alive : forall k u,
    page_returned p !! k = Some u -> k ∉ called ->
    (k, un_eventType u, listener_callback (un_listener u)) ∈ alive;
  pi_registered : registered (page_renderer p) = asRegistered <$> alive;
  pi_ids : forall x, x ∈ alive -> x.1.1 < n /\ x.1.1 ∉ called;
  pi_nodup : NoDup ((fun x : nat * RecallSdkEventType * nat => x.1.1) <$> alive);
  pi_count : forall K,
    refcount K (wc_id self) (page_world p) = length (liveCallbacks K alive)
}.

(** How many calls of [addEventListener] there are once [ops] has run. *)
Fixpoint addsAfter (adds : nat) (ops : list PageOp) : nat :=
  match ops with
  | [] => adds
  | PageAddEventListener _ _ :: rest => addsAfter (S adds) rest
  | PageUnsubscribe _ :: rest => addsAfter adds rest
  end.

(** The returned functions that have been called once [ops] has run. *)
Fixpoint calledAfter (called : list nat) (ops : list PageOp) : list nat :=
  match ops with
  | [] => called
  | PageAddEventListener _ _ :: rest => calledAfter called rest
  | PageUnsubscribe k :: rest => calledAfter (k :: called) rest
  end.

Abbreviation idOf := (fun x : nat * RecallSdkEventType * nat => x.1.1).

(** ** client index.ts: RecallDesktopClient, over the preload API *)

(** [Map<string, () => void>], in insertion order.  A stored function is
    one the preload [addEventListener] returned, known by its number among
    them. *)
Module EventUnsubscribers.

Definition t : Type := list (string * nat).

Fixpoint set (key : string) (v : nat) (m : t) : t :=
  match m with
  | [] => [(key, v)]
  | (key', v') :: rest =>
      if decide (key = key') then (key, v) :: rest else (key', v') :: set key v rest
  end.

Fixpoint delete (key : string) (m : t) : t :=
  match m with
  | [] => []
  | (key', v') :: rest =>
      if decide (key = key') then rest else (key', v') :: delete key rest
  end.

Definition values (m : t) : list nat := map snd m.

End EventUnsubscribers.

(** [api] is whether [window.todesktop.recallDesktop] was there when the
    client was constructed. *)
Record RecallDesktopClient : Type := mkClient {
  api : bool;
  eventUnsubscribers : EventUnsubscribers.t
}.

(** The function the client's [addEventListener] returns; it closes over
    the preload function [unsubscribe] and over [key]. *)
Record ClientUnsubscriber : Type := mkClientUnsubscriber {
  cu_unsubscribe : nat;
  cu_key : string
}.

(** A page whose script works through one client object. *)
Record ClientPage : Type := mkClientPage {
  cp_client : RecallDesktopClient;
  cp_page : Page;
  (** the functions the client's [addEventListener] has returned so far *)
  cp_returned : list ClientUnsubscriber
}.

Module Client.

Definition notAvailable : Thrown :=
  OtherError "Recall Desktop SDK plugin is not available. Make sure you are running in ToDesktop.".

(** [`${eventType}-${Date.now()}-${Math.random()}`], the two numbers as
    the texts [now] and [random]. *)
Definition keyOf (eventType : RecallSdkEventType) (now random : string) : string :=
  eventTypeName eventType +:+ "-" +:+ now +:+ "-" +:+ random.

Definition addEventListener (self : WebContents) (eventType : RecallSdkEventType)
    (callback : nat) (now random : string) (s : ClientPage) : Thrown + ClientPage :=
  if negb (api (cp_client s)) then inl notAvailable
  else
    let unsubscribe := length (page_returned (cp_page s)) in
    let p := pageStep self (PageAddEventListener eventType callback) (cp_page s) in
    let key := keyOf eventType now random in
    inr (mkClientPage
           (mkClient (api (cp_client s))
                     (EventUnsubscribers.set key unsubscribe (eventUnsubscribers (cp_client s))))
           p
           (cp_returned s ++ [mkClientUnsubscriber unsubscribe key])).

(** Calling a function [addEventListener] returned. *)
Definition unsubscribe (self : WebContents) (u : ClientUnsubscriber) (s : ClientPage) : ClientPage :=
  mkClientPage
    (mkClient (api (cp_client s))
              (EventUnsubscribers.delete (cu_key u) (eventUnsubscribers (cp_client s))))
    (pageStep self (PageUnsubscribe (cu_unsubscribe u)) (cp_page s))
    (cp_returned s).

Definition removeAllEventListeners (self : WebContents) (s : ClientPage) : ClientPage :=
  mkClientPage
    (mkClient (api (cp_client s)) [])
    (pageRun self (PageUnsubscribe <$> EventUnsubscribers.values (eventUnsubscribers (cp_client s)))
             (cp_page s))
    (cp_returned s).


End Client.

(** A step of a script that uses the client: a call of its
    [addEventListener], or a call of the function its [j]-th call returned. *)
Inductive ClientOp : Type :=
  | ClientAddEventListener (eventType : RecallSdkEventType) (callback : nat) (now random : string)
  | ClientUnsubscribe (j : nat).

Definition clientStep (self : WebContents) (op : ClientOp) (s : ClientPage) : Thrown + ClientPage :=
  match op with
  | ClientAddEventListener eventType callback now random =>
      Client.addEventListener self eventType callback now random s
  | ClientUnsubscribe j =>
      match cp_returned s !! j with
      | Some u => inr (Client.unsubscribe self u s)
      | None => inr s
      end
  end.

(** The script stops at the first exception. *)
Fixpoint clientRun (self : WebContents) (ops : list ClientOp) (s : ClientPage) : Thrown + ClientPage :=
  match ops with
  | [] => inr s
  | op :: rest =>
      match clientStep self op s with
      | inl e => inl e
      | inr s' => clientRun self rest s'
      end
  end.

(** The client constructed in a page that has just loaded, the plugin's
    API being there or not. *)
Definition loadedClient (available : bool) (w : World) : ClientPage :=
  mkClientPage (mkClient available []) (loadedPage w) [].

(** A script in which no returned function is called twice and no two
    calls of [addEventListener] drew the same key. *)
Fixpoint clientScriptOk (adds : nat) (called : list nat) (keys : list string)
    (ops : list ClientOp) : bool :=
  match ops with
  | [] => true
  | ClientAddEventListener t _ now random :: rest =>
      bool_decide (Client.keyOf t now random ∉ keys) &&
      clientScriptOk (S adds) called (keys ++ [Client.keyOf t now random]) rest
  | ClientUnsubscribe j :: rest =>
      bool_decide (j < adds) && bool_decide (j ∉ called) &&
      clientScriptOk adds (j :: called) keys rest
  end.

(** The same script as the preload API sees it. *)
Definition asPageOp (op : ClientOp) : PageOp :=
  match op with
  | ClientAddEventListener t cb _ _ => PageAddEventListener t cb
  | ClientUnsubscribe j => PageUnsubscribe j
  end.

(** The entry of [eventUnsubscribers] for a live listener, [ks] being the
    keys drawn so far. *)
Definition asEntry (ks : list string) (x : nat * RecallSdkEventType * nat) : string * nat :=
  (default "" (ks !! x.1.1), x.1.1).

(** What ties the client to the page it works through: [ks] are the keys
    its calls of [addEventListener] drew, in order. *)
Record ClientInv (self : WebContents) (s : ClientPage) (n : nat)
    (alive : list (nat * RecallSdkEventType * nat)) (called : list nat)
    (ks : list string) : Prop := mkClientInv {
  ci_api : api (cp_client s) = true;
  ci_page : PageInv self (cp_page s) n alive called;
  ci_called : forall k, k ∈ called -> k < n;
  ci_returned : cp_returned s = imap mkClientUnsubscriber ks;
  ci_length : length ks = n;
  ci_keys : NoDup ks;
  ci_map : eventUnsubscribers (cp_client s) = asEntry ks <$> alive
}.

(** The keys a script draws, in order. *)
Fixpoint keysAfter (keys : list string) (ops : list ClientOp) : list string :=
  match ops with
  | [] => keys
  | ClientAddEventListener t _ now random :: rest =>
      keysAfter (keys ++ [Client.keyOf t now random]) rest
  | ClientUnsubscribe _ :: rest => keysAfter keys rest
  end.

(** ** example: utils.ts and handlers.ts, the realtime handler *)

(** [TimestampedWord]: [text?: string | null]. *)
Record TimestampedWord : Type := mkTimestampedWord {
  word_text : option JsStr
}.

(** [TranscriptParticipant]: [name?: string | null]. *)
Record TranscriptParticipant : Type := mkTranscriptParticipant {
  participant_name : option JsStr
}.

Record TranscriptPayload : Type := mkTranscriptPayload {
  payload_words : option (list TimestampedWord);
  payload_participant : option TranscriptParticipant
}.

(** [MeetingWindow], as far as the example reads it. *)
Record MeetingWindow : Type := mkMeetingWindow {
  window_id : string;
  window_platform : option string
}.

(** [TranscriptRealtimeEnvelope]; [envelope_data] is what
    [payload.data?.data] evaluates to. *)
Record TranscriptRealtimeEnvelope : Type := mkEnvelope {
  envelope_event : JsStr;
  envelope_data : option TranscriptPayload;
  envelope_window : MeetingWindow
}.

(** What the handlers of the example do to the page and the console. *)
Inductive ExampleEffect : Type :=
  | ExampleLog (text : string)
  | ExampleWarn (text : string)
  | AppendTranscriptLine (speaker text : JsStr) (meeting : MeetingWindow).

Module Example.

Definition isTranscriptEvent (payload : TranscriptRealtimeEnvelope) : bool :=
  bool_decide (envelope_event payload = js "transcript.data").

(** [Array.prototype.join] on strings, [undefined] and [null]. *)
Fixpoint join (sep : JsStr) (l : list (option JsStr)) : JsStr :=
  match l with
  | [] => []
  | [x] => default [] x
  | x :: rest => default [] x ++ sep ++ join sep rest
  end.

(** The function [createRealtimeHandler] returns. *)
Definition realtimeHandler (payload : TranscriptRealtimeEnvelope) : list ExampleEffect :=
  if negb (isTranscriptEvent payload) then []
  else
    ExampleLog "Transcript event received:" ::
    match envelope_data payload with
    | None => [ExampleWarn "Transcript event missing data payload"]
    | Some transcriptData =>
        let words :=
          match payload_words transcriptData with
          | Some ws => List.filter Main.truthy (map (fun word => trim <$> word_text word) ws)
          | None => []
          end in
        if Nat.eqb (length words) 0
        then [ExampleWarn "Transcript event contained no words"]
        else
          let speakerName := trim <$> (payload_participant transcriptData ≫= participant_name) in
          let speaker :=
            if Main.truthy speakerName && Nat.ltb 0 (length (default [] speakerName))
            then default [] speakerName
            else js "Unknown participant" in
          [AppendTranscriptLine speaker (join (js " ") words) (envelope_window payload)]
    end.

End Example.

(** The transcript lines a run rendered. *)
Definition transcriptLines (tr : list ExampleEffect) : list (JsStr * JsStr * MeetingWindow) :=
  omap (fun e => match e with
                 | AppendTranscriptLine speaker text meeting => Some (speaker, text, meeting)
                 | _ => None
                 end) tr.

(** A transcript with at least one word whose text is not all white space. *)
Definition hasSpokenWord (payload : TranscriptRealtimeEnvelope) : bool :=
  existsb (fun word => match word_text word with
                       | Some text => negb (blank text)
                       | None => false
                       end)
          (default [] (envelope_data payload ≫= payload_words)).

(** * Properties *)

(** ** JavaScript maps *)
Module JsMapFacts.
Import JsMap.

Lemma get_set_eq k v m : get k (set k v m) = Some v.
Proof.
  induction m as [|[k' v'] m IH]; simpl.
  - by rewrite decide_True.
  - destruct (decide (k = k')) as [->|Hne]; simpl.
    + by rewrite decide_True.
    + by rewrite decide_False.
Qed.

Lemma get_set_ne k k' v m : k <> k' -> get k' (set k v m) = get k' m.
Proof.
  intros Hne. induction m as [|[k0 v0] m IH]; simpl.
  - by rewrite decide_False.
  - destruct (decide (k = k0)) as [->|Hk]; simpl.
    + by rewrite !decide_False.
    + by rewrite IH.
Qed.

Lemma get_None k m : get k m = None <-> k ∉ keys m.
Proof.
  induction m as [|[k' v'] m IH]; simpl.
  - split; [intros _; apply not_elem_of_nil | done].
  - rewrite not_elem_of_cons. destruct (decide (k = k')) as [->|Hne].
    + split; [done | intros [? _]; done].
    + rewrite IH. tauto.
Qed.

Lemma get_Some_keys k v m : get k m = Some v -> k ∈ keys m.
Proof.
  intros H. destruct (decide (k ∈ keys m)) as [|Hn]; [done|].
  apply get_None in Hn. congruence.
Qed.

Lemma keys_is_Some k m : k ∈ keys m -> is_Some (get k m).
Proof.
  intros H. destruct (get k m) eqn:E; [by eexists|].
  apply get_None in E. done.
Qed.

Lemma delete_absent k m : get k m = None -> delete k m = m.
Proof.
  induction m as [|[k' v'] m IH]; simpl; [done|].
  destruct (decide (k = k')); [done|]. intros H. by rewrite IH.
Qed.

Lemma keys_delete_subseteq k m : keys (delete k m) ⊆ keys m.
Proof.
  induction m as [|[k' v'] m IH]; simpl; [done|].
  destruct (decide (k = k')); simpl.
  - intros x Hx. apply elem_of_cons. by right.
  - intros x. rewrite !elem_of_cons. intros [->|Hx]; [by left|right; by apply IH].
Qed.

Lemma NoDup_delete k m : NoDup (keys m) -> NoDup (keys (delete k m)).
Proof.
  induction m as [|[k' v'] m IH]; simpl; [done|].
  rewrite NoDup_cons. intros [Hnin Hnd].
  destruct (decide (k = k')); simpl; [done|].
  apply NoDup_cons. split; [|by apply IH].
  intros Hin. apply Hnin. by eapply keys_delete_subseteq.
Qed.

Lemma get_delete_eq k m : NoDup (keys m) -> get k (delete k m) = None.
Proof.
  induction m as [|[k' v'] m IH]; simpl; [done|].
  rewrite NoDup_cons. intros [Hnin Hnd].
  destruct (decide (k = k')) as [->|Hne]; simpl.
  - by apply get_None.
  - rewrite decide_False by done. by apply IH.
Qed.

Lemma get_delete_ne k k' m : k <> k' -> get k' (delete k m) = get k' m.
Proof.
  intros Hne. induction m as [|[k0 v0] m IH]; simpl; [done|].
  destruct (decide (k = k0)) as [->|Hk]; simpl.
  - by rewrite decide_False.
  - by rewrite IH.
Qed.

Lemma elem_of_keys_set k v k' m : k' ∈ keys (set k v m) <-> k' = k \/ k' ∈ keys m.
Proof.
  induction m as [|[k0 v0] m IH]; simpl.
  - rewrite list_elem_of_singleton. split; [by left|].
    intros [?|H]; [done|]. by apply elem_of_nil in H.
  - destruct (decide (k = k0)) as [->|Hk]; simpl.
    + rewrite !elem_of_cons. tauto.
    + rewrite !elem_of_cons, IH. tauto.
Qed.

Lemma NoDup_set k v m : NoDup (keys m) -> NoDup (keys (set k v m)).
Proof.
  induction m as [|[k0 v0] m IH]; simpl.
  - intros _. apply NoDup_singleton.
  - rewrite NoDup_cons. intros [Hnin Hnd].
    destruct (decide (k = k0)) as [->|Hk]; simpl.
    + by apply NoDup_cons.
    + apply NoDup_cons. split; [|by apply IH].
      rewrite elem_of_keys_set. intros [?|?]; [congruence|done].
Qed.

End JsMapFacts.

(** ** Running the code *)

Lemma bind_inr {A B} (m : M A) (k : A -> M B) w a :
  outcome (m w) = inr a ->
  bind m k w =
    mkRun (outcome (k a (world (m w)))) (world (k a (world (m w))))
          (effects (m w) ++ effects (k a (world (m w)))).
Proof.
  intros H. unfold bind. destruct (m w) as [o w1 tr1]. cbn in H. subst o.
  cbn. by destruct (k a w1).
Qed.

Lemma sends_app tr1 tr2 : sends (tr1 ++ tr2) = sends tr1 ++ sends tr2.
Proof. apply List.filter_app. Qed.

Lemma sendsTo_app id tr1 tr2 : sendsTo id (tr1 ++ tr2) = sendsTo id tr1 ++ sendsTo id tr2.
Proof. apply List.filter_app. Qed.

Lemma sendsTo_sends id tr : sendsTo id tr = List.filter (isSendTo id) (sends tr).
Proof.
  induction tr as [|e tr IH]; [done|].
  unfold sendsTo, sends in *. destruct e; simpl; try done.
  by rewrite IH.
Qed.

Lemma sendTo_run ch d e w :
  world (Main.sendTo ch d e w) = w /\
  outcome (Main.sendTo ch d e w) = inr tt /\
  sends (effects (Main.sendTo ch d e w)) =
    match trackedWebContents (recallDesktopMain w) !! e.1 with
    | Some wc => [WcSend (wc_id wc) ch d]
    | None => []
    end.
Proof.
  js_run.
  destruct (trackedWebContents (recallDesktopMain w) !! e.1) as [wc|]; js_run; [|done].
  destruct (wc_send_throws wc); js_run; done.
Qed.

Lemma forEach_sendTo_run ch d m w :
  world (forEach (Main.sendTo ch d) m w) = w /\
  outcome (forEach (Main.sendTo ch d) m w) = inr tt /\
  sends (effects (forEach (Main.sendTo ch d) m w)) =
    (fun wc => WcSend (wc_id wc) ch d) <$>
      omap (fun e : nat * nat => trackedWebContents (recallDesktopMain w) !! e.1) m.
Proof.
  induction m as [|e m IH]; [done|].
  destruct (sendTo_run ch d e w) as (Hw & Ho & Hs).
  destruct IH as (IHw & IHo & IHs).
  cbn [forEach]. rewrite (bind_inr _ _ _ _ Ho), Hw. cbn [world outcome effects].
  rewrite sends_app, Hs, IHs. split; [done|]. split; [done|].
  cbn [omap list_omap]. by destruct (trackedWebContents (recallDesktopMain w) !! e.1).
Qed.

Lemma broadcastEvent_run t d w :
  world (Main.broadcastEvent t d w) = w /\
  outcome (Main.broadcastEvent t d w) = inr tt /\
  sends (effects (Main.broadcastEvent t d w)) =
    (fun wc => WcSend (wc_id wc) (Main.channelOf t) d) <$> subscribersOf t w.
Proof.
  unfold Main.broadcastEvent, subscribersOf.
  rewrite (bind_inr getWorld _ w w eq_refl). cbn [getWorld world outcome effects app].
  destruct (subscriptions (recallDesktopMain w) !! t) as [m|]; [|done].
  apply forEach_sendTo_run.
Qed.

Lemma subscribe_run wc t w :
  let r := Main.SUBSCRIBE_EVENTS wc t w in
  let m := recallDesktopMain w in
  let id := wc_id wc in
  let map := default [] (subscriptions m !! t) in
  outcome r = inr (mkResponse true ("Subscribed to " +:+ eventTypeName t)) /\
  recallSdkStore (world r) = recallSdkStore w /\
  isInitialized (recallDesktopMain (world r)) = isInitialized m /\
  subscriptions (recallDesktopMain (world r)) =
    <[t := JsMap.set id (default 0 (JsMap.get id map) + 1) map]> (subscriptions m) /\
  trackedWebContents (recallDesktopMain (world r)) =
    match trackedWebContents m !! id with
    | Some _ => trackedWebContents m
    | None => <[id := wc]> (trackedWebContents m)
    end /\
  sdkEventHandlers (recallDesktopMain (world r)) =
    match sdkEventHandlers m !! t with
    | Some _ => sdkEventHandlers m
    | None => <[t := ForwardTo t]> (sdkEventHandlers m)
    end /\
  sdkListeners (world r) =
    sdkListeners w ++
    match sdkEventHandlers m !! t with Some _ => [] | None => [(t, ForwardTo t)] end /\
  destroyedCallbacks (world r) =
    destroyedCallbacks w ++
    match trackedWebContents m !! id with Some _ => [] | None => [id] end /\
  effects r =
    match trackedWebContents m !! id with Some _ => [] | None => [WcOnceDestroyed id] end ++
    match sdkEventHandlers m !! t with Some _ => [] | None => [SdkAddEventListener t] end.
Proof.
  js_run.
  destruct (trackedWebContents (recallDesktopMain w) !! wc_id wc) eqn:Et;
    destruct (sdkEventHandlers (recallDesktopMain w) !! t) eqn:Eh; js_run;
    rewrite ?Eh; js_run; rewrite ?app_nil_r; repeat split; done.
Qed.


Lemma unsubscribe_run wc t w :
  let r := Main.UNSUBSCRIBE_EVENTS wc t w in
  let m := recallDesktopMain w in
  let id := wc_id wc in
  outcome r = inr (mkResponse true ("Unsubscribed from " +:+ eventTypeName t)) /\
  effects r = [] /\
  recallSdkStore (world r) = recallSdkStore w /\
  sdkListeners (world r) = sdkListeners w /\
  destroyedCallbacks (world r) = destroyedCallbacks w /\
  isInitialized (recallDesktopMain (world r)) = isInitialized m /\
  trackedWebContents (recallDesktopMain (world r)) = trackedWebContents m /\
  sdkEventHandlers (recallDesktopMain (world r)) = sdkEventHandlers m /\
  subscriptions (recallDesktopMain (world r)) =
    match subscriptions m !! t with
    | Some map =>
        <[t := if decide (default 0 (JsMap.get id map) <= 1)
               then JsMap.delete id map
               else JsMap.set id (default 0 (JsMap.get id map) - 1) map]> (subscriptions m)
    | None => subscriptions m
    end.
Proof.
  js_run.
  destruct (subscriptions (recallDesktopMain w) !! t) eqn:Es; cbn; repeat split; done.
Qed.

Lemma hub_eq_refl w : hub_eq w w.
Proof. by repeat split. Qed.

Lemma hub_eq_trans w1 w2 w3 : hub_eq w1 w2 -> hub_eq w2 w3 -> hub_eq w1 w3.
Proof. intros (?&?&?) (?&?&?). repeat split; congruence. Qed.

Lemma init_sdk_hub sdk w : hub_eq w (world (Main.INIT_SDK sdk w)).
Proof.
  js_run.
  destruct (truthyBool (enabled (config (recallSdkStore w)))); cbn; [|apply hub_eq_refl].
  destruct (sdkInitialized (recallSdkStore w)); cbn; [apply hub_eq_refl|].
  destruct (init_rejects sdk); cbn; by repeat split.
Qed.

Lemma shutdown_sdk_hub sdk w : hub_eq w (world (Main.SHUTDOWN_SDK sdk w)).
Proof.
  js_run. destruct (shutdown_rejects sdk); cbn; by repeat split.
Qed.

Lemma set_config_hub sdk c w : hub_eq w (world (Main.SET_CONFIG sdk c w)).
Proof.
  js_run.
  destruct (sdkInitialized (recallSdkStore w) && _); cbn; [|by repeat split].
  destruct (shutdown_rejects sdk); cbn; [by repeat split|].
  destruct (init_rejects sdk); cbn; by repeat split.
Qed.

Lemma handleSdkEventWith_run table t evt w :
  let r := Main.handleSdkEventWith table t evt w in
  outcome r = inr tt /\
  match table t with
  | None =>
      world r = w /\
      effects r = firstLog t :: effects (Main.broadcastEvent t evt w)
  | Some sideEffect =>
      let s := sideEffect evt w in
      world r = world s /\
      effects r =
        firstLog t :: effects s ++
        match outcome s with
        | inl _ => [ConsoleError "RecallDesktopMain: Side effect failed for"]
        | inr _ => []
        end ++ effects (Main.broadcastEvent t evt (world s))
  end.
Proof.
  cbv zeta. unfold Main.handleSdkEventWith.
  set (m0 := if decide _ then _ else _).
  assert (H0 : m0 w = mkRun (inr tt) w [firstLog t]).
  { unfold m0, firstLog. by destruct (decide (t = error_event)). }
  rewrite (bind_inr m0 _ w tt) by (by rewrite H0).
  rewrite H0. cbn [outcome world effects].
  destruct (table t) as [f|].
  - destruct (broadcastEvent_run t evt (world (f evt w))) as (Hw & Ho & _).
    set (mid := try_catch _ _).
    assert (Hmid : outcome (mid w) = inr tt /\ world (mid w) = world (f evt w) /\
                   effects (mid w) = effects (f evt w) ++
                     match outcome (f evt w) with
                     | inl _ => [ConsoleError "RecallDesktopMain: Side effect failed for"]
                     | inr _ => []
                     end).
    { unfold mid, try_catch. destruct (f evt w) as [[e|[]] w1 tr1];
        cbn [outcome world effects console_error emit]; by rewrite ?app_nil_r. }
    destruct Hmid as (Hmo & Hmw & Hme).
    rewrite (bind_inr _ _ _ tt Hmo). cbn [outcome world effects app].
    rewrite Hmw, Hme, Ho, Hw. by rewrite <- app_assoc.
  - destruct (broadcastEvent_run t evt w) as (Hw & Ho & _).
    rewrite (bind_inr (ret tt) _ w tt eq_refl). cbn [ret outcome world effects app].
    by rewrite Hw, Ho.
Qed.

Lemma clearState_run w :
  outcome (Store.clearState w) = inr tt /\
  hub_eq w (world (Store.clearState w)) /\
  sdkInitialized (recallSdkStore (world (Store.clearState w))) = false /\
  config (recallSdkStore (world (Store.clearState w))) = config (recallSdkStore w) /\
  effects (Store.clearState w) = [ConsoleLog "RecallSdkStore: Cleared all state"].
Proof. js_run. by repeat split. Qed.

Lemma handleSdkEvent_hub t evt w :
  outcome (Main.handleSdkEvent t evt w) = inr tt /\
  hub_eq w (world (Main.handleSdkEvent t evt w)).
Proof.
  unfold Main.handleSdkEvent.
  destruct (handleSdkEventWith_run Main.eventSideEffects t evt w) as [Ho H].
  split; [done|].
  destruct t; cbn in H; destruct H as [-> _]; try apply hub_eq_refl.
  apply clearState_run.
Qed.

Lemma forEach_callHandler_hub evt ls w :
  outcome (forEach (callHandler evt) ls w) = inr tt /\
  hub_eq w (world (forEach (callHandler evt) ls w)).
Proof.
  revert w. induction ls as [|[t [t']] ls IH]; intros w.
  - split; [done|apply hub_eq_refl].
  - cbn [forEach].
    destruct (handleSdkEvent_hub t' evt w) as [Ho Hh].
    assert (Hc : callHandler evt (t, ForwardTo t') = Main.handleSdkEvent t' evt) by done.
    rewrite Hc, (bind_inr _ _ _ _ Ho). cbn [outcome world].
    destruct (IH (world (Main.handleSdkEvent t' evt w))) as [IHo IHh].
    split; [done|]. by eapply hub_eq_trans.
Qed.

Lemma emitSdkEvent_hub t evt w :
  outcome (emitSdkEvent t evt w) = inr tt /\
  hub_eq w (world (emitSdkEvent t evt w)).
Proof.
  unfold emitSdkEvent. rewrite (bind_inr getWorld _ w w eq_refl).
  cbn [getWorld outcome world]. apply forEach_callHandler_hub.
Qed.

Lemma Inv_hub_eq w w' : hub_eq w w' -> Inv w -> Inv w'.
Proof.
  intros (Hm & Hl & Hc) [].
  split; rewrite <- ?Hm, <- ?Hl, <- ?Hc; done.
Qed.

Lemma Inv_boot c : Inv (boot c).
Proof.
  split; unfold boot, Main.initial;
    cbn [recallDesktopMain subscriptions trackedWebContents sdkEventHandlers
         sdkListeners destroyedCallbacks].
  - intros t m. by rewrite lookup_empty.
  - intros t m id n. by rewrite lookup_empty.
  - intros t m id. by rewrite lookup_empty.
  - intros id wc. by rewrite lookup_empty.
  - intros id. rewrite elem_of_nil, lookup_empty. split; [done|by intros [? ?]].
  - apply NoDup_nil_2.
  - intros t. rewrite lookup_empty. by intros [? ?].
  - intros t. by rewrite lookup_empty.
Qed.

Lemma Inv_subscribe wc t w : Inv w -> Inv (world (Main.SUBSCRIBE_EVENTS wc t w)).
Proof.
  intros [Hnd Hpos Htr Hid Hcb Hcn Hh Hl].
  destruct (subscribe_run wc t w) as (_ & _ & _ & Hs & Ht & He & Hls & Hcs & _).
  cbv zeta in *.
  set (w' := world (Main.SUBSCRIBE_EVENTS wc t w)) in *.
  assert (Htr' : forall id, is_Some (trackedWebContents (recallDesktopMain w) !! id) ->
                            is_Some (trackedWebContents (recallDesktopMain w') !! id)).
  { intros id His. rewrite Ht.
    destruct (trackedWebContents (recallDesktopMain w) !! wc_id wc) eqn:E; [done|].
    destruct (decide (wc_id wc = id)) as [<-|]; [by rewrite lookup_insert_eq|].
    by rewrite lookup_insert_ne. }
  assert (Hnew : is_Some (trackedWebContents (recallDesktopMain w') !! wc_id wc)).
  { rewrite Ht.
    destruct (trackedWebContents (recallDesktopMain w) !! wc_id wc) eqn:E; [by rewrite E|].
    by rewrite lookup_insert_eq. }
  split.
  - intros t0 m. rewrite Hs. destruct (decide (t = t0)) as [<-|Hne].
    + rewrite lookup_insert_eq. intros [= <-]. apply JsMapFacts.NoDup_set.
      destruct (subscriptions (recallDesktopMain w) !! t) eqn:E; cbn; [by eapply Hnd|apply NoDup_nil_2].
    + rewrite lookup_insert_ne by done. apply Hnd.
  - intros t0 m id n. rewrite Hs. destruct (decide (t = t0)) as [<-|Hne].
    + rewrite lookup_insert_eq. intros [= <-].
      destruct (decide (wc_id wc = id)) as [<-|Hid'].
      * rewrite JsMapFacts.get_set_eq. intros [= <-]. lia.
      * rewrite JsMapFacts.get_set_ne by done.
        destruct (subscriptions (recallDesktopMain w) !! t) eqn:E; cbn; [by eapply Hpos|done].
    + rewrite lookup_insert_ne by done. apply Hpos.
  - intros t0 m id. rewrite Hs. destruct (decide (t = t0)) as [<-|Hne].
    + rewrite lookup_insert_eq. intros [= <-].
      rewrite JsMapFacts.elem_of_keys_set. intros [->|Hin]; [done|].
      apply Htr'.
      destruct (subscriptions (recallDesktopMain w) !! t) eqn:E; cbn in Hin; [by eapply Htr|].
      by apply elem_of_nil in Hin.
    + rewrite lookup_insert_ne by done. intros ??. apply Htr'. by eapply Htr.
  - intros id wc0. rewrite Ht.
    destruct (trackedWebContents (recallDesktopMain w) !! wc_id wc) eqn:E; [apply Hid|].
    destruct (decide (wc_id wc = id)) as [<-|]; [rewrite lookup_insert_eq; by intros [= <-]|].
    rewrite lookup_insert_ne by done. apply Hid.
  - intros id. rewrite Ht, Hcs, elem_of_app.
    destruct (trackedWebContents (recallDesktopMain w) !! wc_id wc) eqn:E.
    + rewrite elem_of_nil, Hcb. tauto.
    + rewrite list_elem_of_singleton, Hcb.
      destruct (decide (wc_id wc = id)) as [<-|].
      * rewrite lookup_insert_eq. split; [done|by right].
      * rewrite lookup_insert_ne by done. split; [intros [?|?]; [done|congruence]|by left].
  - rewrite Hcs.
    destruct (trackedWebContents (recallDesktopMain w) !! wc_id wc) eqn:E.
    + by rewrite app_nil_r.
    + apply NoDup_app. split; [done|]. split; [|apply NoDup_singleton].
      intros x Hx ->%list_elem_of_singleton. apply Hcb in Hx. rewrite E in Hx.
      by destruct Hx.
  - intros t0. rewrite Hs, He. destruct (decide (t = t0)) as [<-|Hne].
    + intros _. destruct (sdkEventHandlers (recallDesktopMain w) !! t) eqn:E; [by rewrite E|].
      by rewrite lookup_insert_eq.
    + rewrite lookup_insert_ne by done. intros H. apply Hh in H.
      destruct (sdkEventHandlers (recallDesktopMain w) !! t) eqn:E; [done|].
      by rewrite lookup_insert_ne.
  - intros t0. rewrite Hls, He, filter_app, Hl.
    destruct (sdkEventHandlers (recallDesktopMain w) !! t) eqn:E.
    + by rewrite app_nil_r.
    + destruct (decide (t = t0)) as [<-|Hne].
      * rewrite E, lookup_insert_eq. by rewrite filter_cons_True.
      * rewrite lookup_insert_ne by done. rewrite filter_cons_False by done.
        by rewrite app_nil_r.
Qed.

Lemma Inv_unsubscribe wc t w : Inv w -> Inv (world (Main.UNSUBSCRIBE_EVENTS wc t w)).
Proof.
  intros [Hnd Hpos Htr Hid Hcb Hcn Hh Hl].
  destruct (unsubscribe_run wc t w) as (_ & _ & _ & Hls & Hcs & _ & Ht & He & Hs).
  cbv zeta in *.
  set (w' := world (Main.UNSUBSCRIBE_EVENTS wc t w)) in *.
  destruct (subscriptions (recallDesktopMain w) !! t) as [map|] eqn:Es.
  2: { split; rewrite ?Hs, ?Ht, ?He, ?Hls, ?Hcs; done. }
  split; rewrite ?Ht, ?He, ?Hls, ?Hcs; try done.
  - intros t0 m. rewrite Hs. destruct (decide (t = t0)) as [<-|Hne].
    + rewrite lookup_insert_eq. intros [= <-]. case_decide.
      * apply JsMapFacts.NoDup_delete. by eapply Hnd.
      * apply JsMapFacts.NoDup_set. by eapply Hnd.
    + rewrite lookup_insert_ne by done. apply Hnd.
  - intros t0 m id n. rewrite Hs. destruct (decide (t = t0)) as [<-|Hne].
    + rewrite lookup_insert_eq. intros [= <-].
      destruct (decide (wc_id wc = id)) as [<-|Hid'].
      * case_decide.
        -- rewrite JsMapFacts.get_delete_eq by (by eapply Hnd). done.
        -- rewrite JsMapFacts.get_set_eq. intros [= <-]. lia.
      * case_decide.
        -- rewrite JsMapFacts.get_delete_ne by done. by eapply Hpos.
        -- rewrite JsMapFacts.get_set_ne by done. by eapply Hpos.
    + rewrite lookup_insert_ne by done. apply Hpos.
  - intros t0 m id. rewrite Hs. destruct (decide (t = t0)) as [<-|Hne].
    + rewrite lookup_insert_eq. intros [= <-]. case_decide.
      * intros Hin%JsMapFacts.keys_delete_subseteq. by eapply Htr.
      * rewrite JsMapFacts.elem_of_keys_set. intros [->|Hin]; [|by eapply Htr].
        eapply Htr; [done|].
        destruct (JsMap.get (wc_id wc) map) eqn:Eg; [by eapply JsMapFacts.get_Some_keys|].
        cbn in *. lia.
    + rewrite lookup_insert_ne by done. apply Htr.
  - intros t0. rewrite Hs. destruct (decide (t = t0)) as [<-|Hne].
    + intros _. apply Hh. by rewrite Es.
    + rewrite lookup_insert_ne by done. apply Hh.
Qed.

Lemma filter_eq_NoDup (id : nat) (l : list nat) :
  NoDup l ->
  filter (fun i => i = id) l = if decide (id ∈ l) then [id] else [].
Proof.
  induction l as [|x l IH]; [done|].
  rewrite NoDup_cons. intros [Hx Hl]. specialize (IH Hl).
  destruct (decide (x = id)) as [->|Hne].
  - rewrite filter_cons_True by done. rewrite decide_True by (by left).
    rewrite IH, decide_False; done.
  - rewrite filter_cons_False by done. rewrite IH.
    destruct (decide (id ∈ l)).
    + rewrite decide_True; [done|by right].
    + rewrite decide_False; [done|]. rewrite elem_of_cons. intros [?|?]; [congruence|done].
Qed.

Lemma emitDestroyed_run id w :
  NoDup (destroyedCallbacks w) ->
  let r := emitDestroyed id w in
  let m := recallDesktopMain w in
  outcome r = inr tt /\
  effects r = [] /\
  recallSdkStore (world r) = recallSdkStore w /\
  sdkListeners (world r) = sdkListeners w /\
  destroyedCallbacks (world r) = filter (fun i => i <> id) (destroyedCallbacks w) /\
  recallDesktopMain (world r) =
    if decide (id ∈ destroyedCallbacks w)
    then mkMain (isInitialized m) (JsMap.delete id <$> subscriptions m)
                (delete id (trackedWebContents m)) (sdkEventHandlers m)
    else m.
Proof.
  intros Hnd. unfold emitDestroyed.
  rewrite (bind_inr getWorld _ w w eq_refl). cbn [getWorld outcome world effects app].
  rewrite (filter_eq_NoDup id _ Hnd).
  destruct (decide (id ∈ destroyedCallbacks w)); cbn [forEach]; js_run; by repeat split.
Qed.

Lemma Inv_destroyed id w : Inv w -> Inv (world (emitDestroyed id w)).
Proof.
  intros [Hnd Hpos Htr Hid Hcb Hcn Hh Hl].
  destruct (emitDestroyed_run id w Hcn) as (_ & _ & _ & Hls & Hcs & Hm).
  cbv zeta in *.
  set (w' := world (emitDestroyed id w)) in *.
  assert (Hcb' : forall i, i ∈ destroyedCallbacks w' <-> i <> id /\ i ∈ destroyedCallbacks w).
  { intros i. rewrite Hcs, list_elem_of_filter. done. }
  destruct (decide (id ∈ destroyedCallbacks w)) as [Hin|Hnin].
  - split; rewrite ?Hm, ?Hls; cbn [subscriptions trackedWebContents sdkEventHandlers]; try done.
    + intros t m. rewrite lookup_fmap. destruct (subscriptions (recallDesktopMain w) !! t) eqn:E; [|done].
      intros [= <-]. apply JsMapFacts.NoDup_delete. by eapply Hnd.
    + intros t m i n. rewrite lookup_fmap. destruct (subscriptions (recallDesktopMain w) !! t) eqn:E; [|done].
      intros [= <-]. destruct (decide (id = i)) as [<-|Hne].
      * rewrite JsMapFacts.get_delete_eq by (by eapply Hnd). done.
      * rewrite JsMapFacts.get_delete_ne by done. by eapply Hpos.
    + intros t m i. rewrite lookup_fmap. destruct (subscriptions (recallDesktopMain w) !! t) as [m0|] eqn:E; [|done].
      intros [= <-] Hi. destruct (decide (id = i)) as [<-|Hne].
      * apply JsMapFacts.keys_is_Some in Hi.
        rewrite JsMapFacts.get_delete_eq in Hi by (by eapply Hnd). by destruct Hi.
      * rewrite lookup_delete_ne by done. eapply Htr; [done|].
        by eapply JsMapFacts.keys_delete_subseteq.
    + intros i wc. destruct (decide (id = i)) as [<-|Hne]; [by rewrite lookup_delete_eq|].
      rewrite lookup_delete_ne by done. apply Hid.
    + intros i. rewrite Hcb'. destruct (decide (id = i)) as [<-|Hne].
      * rewrite lookup_delete_eq. split; [tauto|by intros [? ?]].
      * rewrite lookup_delete_ne, Hcb by done. split; [tauto|]. split; [congruence|done].
    + rewrite Hcs. by apply NoDup_filter.
    + intros t. rewrite lookup_fmap. intros H%fmap_is_Some. by apply Hh.
  - assert (Hnt : trackedWebContents (recallDesktopMain w) !! id = None).
    { destruct (trackedWebContents (recallDesktopMain w) !! id) eqn:E; [|done].
      exfalso. apply Hnin, Hcb. by rewrite E. }
    split; rewrite ?Hm, ?Hls; try done.
    + intros i. rewrite Hcb', Hcb. split; [tauto|]. intros H. split; [|done].
      intros ->. rewrite Hnt in H. by destruct H.
    + rewrite Hcs. by apply NoDup_filter.
Qed.

Lemma discard_world {A} (m : M A) w : world ((m >> ret tt) w) = world (m w).
Proof. unfold bind. by destruct (m w) as [[e|a] w1 tr1]. Qed.

Lemma discard_effects {A} (m : M A) w : effects ((m >> ret tt) w) = effects (m w).
Proof.
  unfold bind. destruct (m w) as [[e|a] w1 tr1]; [done|].
  cbn [ret effects]. apply app_nil_r.
Qed.

Lemma Inv_exec op w : Inv w -> Inv (exec op w).
Proof.
  intros HI. unfold exec. destruct op; cbn [step]; rewrite ?discard_world.
  - by apply Inv_subscribe.
  - by apply Inv_unsubscribe.
  - eapply Inv_hub_eq; [apply init_sdk_hub|done].
  - eapply Inv_hub_eq; [apply shutdown_sdk_hub|done].
  - eapply Inv_hub_eq; [apply set_config_hub|done].
  - by apply Inv_destroyed.
  - eapply Inv_hub_eq; [apply emitSdkEvent_hub|done].
Qed.

Lemma Inv_run ops w : Inv w -> Inv (run ops w).
Proof.
  revert w. induction ops as [|op ops IH]; intros w HI; [done|].
  cbn. apply IH. by apply Inv_exec.
Qed.

(** ** Reference counts and deliveries *)

Lemma refcount_hub_eq K C w w' : hub_eq w w' -> refcount K C w' = refcount K C w.
Proof. intros (Hm & _ & _). unfold refcount. by rewrite Hm. Qed.

Lemma refcount_unfold K C w :
  refcount K C w =
    default 0 (JsMap.get C (default [] (subscriptions (recallDesktopMain w) !! K))).
Proof. unfold refcount. by destruct (subscriptions (recallDesktopMain w) !! K). Qed.

Lemma refcount_exec K C op w :
  Inv w -> refcount K C (exec op w) = netCount K C (refcount K C w) [op].
Proof.
  intros HI. unfold exec.
  destruct op as [sender eventType|sender eventType|sdk|sdk|sdk cfg|i|t evt];
    cbn [step netCount]; rewrite ?discard_world.
  - destruct (subscribe_run sender eventType w) as (_ & _ & _ & Hs & _).
    cbv zeta in Hs. rewrite (refcount_unfold K C w). unfold refcount. rewrite Hs.
    case_decide as Hd.
    + destruct Hd as [<- ->]. rewrite lookup_insert_eq. cbn [mbind option_bind].
      rewrite JsMapFacts.get_set_eq. cbn [default from_option id]. lia.
    + destruct (decide (eventType = K)) as [->|Hne].
      * rewrite lookup_insert_eq. cbn [mbind option_bind].
        rewrite JsMapFacts.get_set_ne; [done|]. intros ?. apply Hd. done.
      * rewrite lookup_insert_ne by done.
        by destruct (subscriptions (recallDesktopMain w) !! K).
  - destruct (unsubscribe_run sender eventType w) as (_ & _ & _ & _ & _ & _ & _ & _ & Hs).
    cbv zeta in Hs. unfold refcount. rewrite Hs.
    destruct (subscriptions (recallDesktopMain w) !! eventType) as [map|] eqn:Es.
    2: { case_decide as Hd.
         - destruct Hd as [? ?]. subst eventType. by rewrite Es.
         - done. }
    destruct (decide (wc_id sender = C /\ eventType = K)) as [Hd|Hd].
    + destruct Hd as [<- ->]. rewrite lookup_insert_eq, Es. cbn [mbind option_bind].
      case_decide as Hle.
      * rewrite JsMapFacts.get_delete_eq by (by eapply inv_nodup). cbn [default from_option id]. lia.
      * rewrite JsMapFacts.get_set_eq. cbn [default from_option id]. lia.
    + destruct (decide (eventType = K)) as [->|Hne].
      * rewrite lookup_insert_eq, Es. cbn [mbind option_bind].
        assert (wc_id sender <> C) by (intros ?; by apply Hd).
        case_decide.
        -- by rewrite JsMapFacts.get_delete_ne.
        -- by rewrite JsMapFacts.get_set_ne.
      * by rewrite lookup_insert_ne.
  - apply refcount_hub_eq, init_sdk_hub.
  - apply refcount_hub_eq, shutdown_sdk_hub.
  - apply refcount_hub_eq, set_config_hub.
  - destruct (emitDestroyed_run i w (inv_callbacks_nodup _ HI)) as (_ & _ & _ & _ & _ & Hm).
    cbv zeta in Hm. unfold refcount. rewrite Hm.
    destruct (decide (i ∈ destroyedCallbacks w)) as [Hin|Hnin];
      cbn [subscriptions].
    + rewrite lookup_fmap.
      destruct (subscriptions (recallDesktopMain w) !! K) as [m|] eqn:Es;
        cbn [fmap option_fmap option_map mbind option_bind]; [|by case_decide].
      case_decide as Hd.
      * subst i. by rewrite JsMapFacts.get_delete_eq by (by eapply inv_nodup).
      * by rewrite JsMapFacts.get_delete_ne.
    + case_decide as Hd.
      2: done.
      subst i.
      destruct (subscriptions (recallDesktopMain w) !! K) as [m|] eqn:Es;
        cbn [mbind option_bind]; [|done].
      destruct (JsMap.get C m) eqn:Eg; [|done].
      exfalso. apply Hnin. apply (inv_callbacks _ HI).
      eapply (inv_tracked _ HI); [done|]. by eapply JsMapFacts.get_Some_keys.
  - apply refcount_hub_eq, emitSdkEvent_hub.
Qed.

Lemma netCount_app K C n ops1 ops2 :
  netCount K C n (ops1 ++ ops2) = netCount K C (netCount K C n ops1) ops2.
Proof.
  revert n. induction ops1 as [|op ops1 IH]; intros n; [done|].
  destruct op; cbn [app netCount]; apply IH.
Qed.

Lemma refcount_run K C ops w :
  Inv w -> refcount K C (run ops w) = netCount K C (refcount K C w) ops.
Proof.
  revert w. induction ops as [|op ops IH]; intros w HI; [done|].
  change (op :: ops) with ([op] ++ ops). rewrite netCount_app.
  rewrite <- (refcount_exec K C op w HI). cbn [run app fold_left].
  apply IH. by apply Inv_exec.
Qed.

(** Among the sends of one fan-out over an inner map without duplicate
    keys, whose keys are all tracked under their own id, consumer [C] gets
    one if it is a key and none otherwise. *)
Lemma fanout_to (tracked : gmap nat WebContents) ch d C (m : JsMap.t) :
  NoDup (JsMap.keys m) ->
  (forall id, id ∈ JsMap.keys m -> exists wc, tracked !! id = Some wc /\ wc_id wc = id) ->
  List.filter (isSendTo C)
    ((fun wc => WcSend (wc_id wc) ch d) <$> omap (fun e : nat * nat => tracked !! e.1) m) =
  if decide (C ∈ JsMap.keys m) then [WcSend C ch d] else [].
Proof.
  induction m as [|[k v] m IH]; [done|].
  cbn [JsMap.keys map fst]. rewrite NoDup_cons. intros [Hk Hnd] Htr.
  destruct (Htr k) as (wc & Hwc & Hid); [by left|].
  cbn [omap list_omap fst]. rewrite Hwc. cbn [fmap list_fmap List.filter isSendTo].
  rewrite Hid.
  fold (omap (fun e : nat * nat => tracked !! e.1) m).
  fold (fmap (M:=list) (fun wc => WcSend (wc_id wc) ch d)
             (omap (fun e : nat * nat => tracked !! e.1) m)).
  rewrite IH; [|done|intros id Hin; apply Htr; by right].
  destruct (decide (k = C)) as [->|Hne].
  - rewrite bool_decide_eq_true_2 by done.
    rewrite (decide_False (P := C ∈ JsMap.keys m)) by done.
    rewrite decide_True; [done|]. cbn [JsMap.keys map fst]. by left.
  - rewrite bool_decide_eq_false_2 by done.
    destruct (decide (C ∈ JsMap.keys m)).
    + rewrite decide_True; [done|]. cbn [JsMap.keys map fst]. by right.
    + rewrite decide_False; [done|]. cbn [JsMap.keys map fst].
      rewrite elem_of_cons. intros [?|?]; [congruence|done].
Qed.

Lemma broadcast_sendsTo K C d w :
  Inv w ->
  sendsTo C (effects (Main.broadcastEvent K d w)) =
    if decide (0 < refcount K C w) then [WcSend C (Main.channelOf K) d] else [].
Proof.
  intros HI. rewrite sendsTo_sends.
  destruct (broadcastEvent_run K d w) as (_ & _ & ->).
  unfold subscribersOf. rewrite refcount_unfold.
  destruct (subscriptions (recallDesktopMain w) !! K) as [m|] eqn:Es; cbn [default from_option id].
  2: { rewrite decide_False; [done|]. cbn. lia. }
  rewrite fanout_to.
  - destruct (decide (C ∈ JsMap.keys m)) as [Hin|Hnin].
    + destruct (JsMapFacts.keys_is_Some _ _ Hin) as [n Hn]. rewrite Hn.
      rewrite decide_True; [done|]. cbn. by eapply (inv_positive _ HI).
    + apply JsMapFacts.get_None in Hnin. rewrite Hnin.
      rewrite decide_False; [done|]. cbn. lia.
  - by eapply (inv_nodup _ HI).
  - intros id Hin. destruct (inv_tracked _ HI K m id Es Hin) as [wc Hwc].
    exists wc. split; [done|]. by eapply (inv_tracked_id _ HI).
Qed.

Lemma handleSdkEvent_sendsTo K C d w :
  Inv w ->
  sendsTo C (effects (Main.handleSdkEvent K d w)) =
    if decide (0 < refcount K C w) then [WcSend C (Main.channelOf K) d] else [].
Proof.
  intros HI. unfold Main.handleSdkEvent.
  destruct (handleSdkEventWith_run Main.eventSideEffects K d w) as [_ H].
  assert (Hlog : sendsTo C [firstLog K] = []).
  { unfold firstLog. by destruct (decide (K = error_event)). }
  destruct (Main.eventSideEffects K) as [f|] eqn:Ef.
  - destruct K; try discriminate Ef. injection Ef as <-.
    cbv zeta in H. destruct H as [_ ->].
    destruct (clearState_run w) as (Ho & Hh & _ & _ & He).
    rewrite Ho, He.
    change (firstLog shutdown_event :: ?l) with ([firstLog shutdown_event] ++ l).
    rewrite !sendsTo_app, Hlog. cbn [app].
    rewrite broadcast_sendsTo by (by eapply Inv_hub_eq).
    by rewrite (refcount_hub_eq _ _ _ _ Hh).
  - destruct H as [_ ->].
    change (firstLog K :: ?l) with ([firstLog K] ++ l).
    rewrite sendsTo_app, Hlog. cbn [app]. by apply broadcast_sendsTo.
Qed.

Lemma emitSdkEvent_sendsTo K C d w :
  Inv w ->
  sendsTo C (effects (emitSdkEvent K d w)) =
    if decide (0 < refcount K C w) then [WcSend C (Main.channelOf K) d] else [].
Proof.
  intros HI. unfold emitSdkEvent.
  rewrite (bind_inr getWorld _ w w eq_refl). cbn [getWorld outcome world effects app].
  rewrite (inv_listeners _ HI).
  destruct (sdkEventHandlers (recallDesktopMain w) !! K) as [h|] eqn:Eh.
  - cbn [forEach]. change (callHandler d (K, ForwardTo K)) with (Main.handleSdkEvent K d).
    rewrite discard_effects. by apply handleSdkEvent_sendsTo.
  - cbn [forEach ret effects]. rewrite decide_False; [done|].
    unfold refcount.
    destruct (subscriptions (recallDesktopMain w) !! K) as [m|] eqn:Es; [|cbn; lia].
    exfalso. destruct (inv_handlers _ HI K) as [h Hh]; [by rewrite Es|]. congruence.
Qed.

(** C1. Along every history of the main process, the reference count stored
    for consumer [C] and event type [K] is the net subscription count of the
    history; when the provider then fires [K], the calls of [send] on [C] are
    exactly one, carrying the payload on the channel of [K], if that count is
    positive (also when it is above 1), and none if it is 0; the dispatch
    itself never throws, whatever the other consumers' [send] does. *)
Theorem C1_one_delivery_per_subscribed_consumer
    (c : RecallSdkConfig) (ops : list Op) (K : RecallSdkEventType) (C : nat) (d : Payload) :
  let w := run ops (boot c) in
  refcount K C w = netCount K C 0 ops /\
  sendsTo C (effects (emitSdkEvent K d w)) =
    (if decide (0 < netCount K C 0 ops) then [WcSend C (Main.channelOf K) d] else []) /\
  outcome (emitSdkEvent K d w) = inr tt.
Proof.
  cbv zeta.
  assert (HI : Inv (run ops (boot c))) by apply Inv_run, Inv_boot.
  assert (Hc : refcount K C (run ops (boot c)) = netCount K C 0 ops).
  { rewrite refcount_run by apply Inv_boot. done. }
  split; [done|]. split.
  - rewrite <- Hc. by apply emitSdkEvent_sendsTo.
  - apply emitSdkEvent_hub.
Qed.

(** The scenario of the specification, run on the model: two consumers
    subscribe to [recording-started] and both are sent the event; after the
    first unsubscribes only the second is. *)
Example scenario_two_consumers :
  let C1 := mkWebContents 1 false in
  let C2 := mkWebContents 2 false in
  let w := run [Subscribe C1 recording_started; Subscribe C2 recording_started]
               (boot (config Store.initial)) in
  let ch := "recall-desktop:event:recording-started" in
  sends (effects (emitSdkEvent recording_started "evt" w)) =
    [WcSend 1 ch "evt"; WcSend 2 ch "evt"] /\
  sends (effects (emitSdkEvent recording_started "evt"
                    (run [Unsubscribe C1 recording_started] w))) =
    [WcSend 2 ch "evt"].
Proof. vm_compute. split; reflexivity. Qed.

(** ** Lifecycle handlers *)

Lemma set_config_run sdk p w :
  let r := Main.SET_CONFIG sdk p w in
  let c' := Store.merge (config (recallSdkStore w)) p in
  let reinit := sdkInitialized (recallSdkStore w) && Main.sdkSettingsChanged p in
  config (recallSdkStore (world r)) = c' /\
  initialized (recallSdkStore (world r)) = initialized (recallSdkStore w) /\
  sdkInitialized (recallSdkStore (world r)) = sdkInitialized (recallSdkStore w) /\
  sdkCalls (effects r) =
    (if reinit
     then if shutdown_rejects sdk then [SdkShutdown]
          else [SdkShutdown; SdkInit (Main.sdkOptionsOf c')]
     else []) /\
  outcome r =
    inr (if reinit && (shutdown_rejects sdk || init_rejects sdk)
         then mkResponse false "Failed to update configuration"
         else mkResponse true "Configuration updated successfully").
Proof.
  cbv zeta. js_run.
  destruct (sdkInitialized (recallSdkStore w)) eqn:Ei; js_run.
  2: { repeat split; done. }
  destruct (Main.sdkSettingsChanged p) eqn:Et; js_run.
  2: { repeat split; done. }
  destruct (shutdown_rejects sdk); js_run.
  1: { repeat split; done. }
  destruct (init_rejects sdk); js_run; repeat split; done.
Qed.

Lemma init_sdk_run sdk w :
  let r := Main.INIT_SDK sdk w in
  let s := recallSdkStore w in
  config (recallSdkStore (world r)) = config s /\
  if negb (truthyBool (enabled (config s)))
  then world r = w /\ sdkCalls (effects r) = [] /\
       effects r = [ConsoleError "RecallDesktopMain: SDK initialization failed:"] /\
       outcome r = inr (mkResponse false "Plugin is disabled")
  else if sdkInitialized s
  then world r = w /\ effects r = [] /\
       outcome r = inr (mkResponse true "SDK already initialized")
  else sdkCalls (effects r) = [SdkInit (Main.sdkOptionsOf (config s))] /\
       if init_rejects sdk
       then sdkInitialized (recallSdkStore (world r)) = false /\
            outcome r = inr (mkResponse false "SDK initialization failed")
       else sdkInitialized (recallSdkStore (world r)) = true /\
            outcome r = inr (mkResponse true "SDK initialized successfully").
Proof.
  cbv zeta. js_run.
  destruct (truthyBool (enabled (config (recallSdkStore w)))) eqn:Ee; js_run.
  2: { repeat split; done. }
  destruct (sdkInitialized (recallSdkStore w)) eqn:Ei; js_run.
  1: { repeat split; done. }
  destruct (init_rejects sdk); js_run; repeat split; done.
Qed.

(** ** Lifecycle claims *)

(** C2 (as stated) fails: the provider rejects [shutdown] in a world whose
    SDK is initialised; the handler answers [success: false] and the flag
    is still set. *)
Lemma C2_shutdown_failure_keeps_flag :
  sdkInitialized (recallSdkStore ready_world) = true /\
  outcome (Main.SHUTDOWN_SDK (mkSdk false true) ready_world) =
    inr (mkResponse false "SDK shutdown failed") /\
  sdkInitialized (recallSdkStore (world (Main.SHUTDOWN_SDK (mkSdk false true) ready_world))) = true.
Proof. vm_compute. repeat split; reflexivity. Qed.

(** C2 (amended). Every shutdown request calls the provider's [shutdown]
    exactly once and leaves hub and configuration alone.  If the provider
    call succeeds the answer is [success: true] and [sdkInitialized] is
    false afterwards; if it rejects, the answer is [success: false] and the
    store is exactly as before. *)
Theorem C2_shutdown_clears_state_on_success (sdk : RecallAiSdk) (w : World) :
  let r := Main.SHUTDOWN_SDK sdk w in
  hub_eq w (world r) /\
  config (recallSdkStore (world r)) = config (recallSdkStore w) /\
  sdkCalls (effects r) = [SdkShutdown] /\
  if shutdown_rejects sdk
  then outcome r = inr (mkResponse false "SDK shutdown failed") /\
       recallSdkStore (world r) = recallSdkStore w
  else outcome r = inr (mkResponse true "SDK shutdown successfully") /\
       sdkInitialized (recallSdkStore (world r)) = false.
Proof.
  cbv zeta. unfold Main.SHUTDOWN_SDK, RecallAiSdk_shutdown.
  destruct (shutdown_rejects sdk).
  - (* the awaited promise rejects: [clearState] is skipped *)
    js_run. repeat split; reflexivity.
  - (* it resolves: [clearState] runs *)
    js_run. repeat split; reflexivity.
Qed.

(** C4 (as stated) fails twice in a world whose SDK is initialised: a
    partial update whose [apiUrl] is the empty string touches the endpoint
    and makes no provider call; and when the provider rejects [shutdown],
    [init] is never called. *)
Lemma C4_reinit_not_always_shutdown_then_init :
  sdkInitialized (recallSdkStore ready_world) = true /\
  sdkCalls (effects (Main.SET_CONFIG sdk_ok (mkPartial None (Some "") None) ready_world)) = [] /\
  sdkCalls (effects (Main.SET_CONFIG (mkSdk false true)
                       (mkPartial None (Some "https://eu-central-1.recall.ai") None)
                       ready_world)) = [SdkShutdown].
Proof. vm_compute. repeat split; reflexivity. Qed.

Lemma merge_fields (c : RecallSdkConfig) (p : PartialConfig) :
  enabled (Store.merge c p) =
    match enabled_opt p with Present v => v | Absent => enabled c end /\
  apiUrl (Store.merge c p) =
    match apiUrl_opt p with Present v => v | Absent => apiUrl c end /\
  requestPermissionsOnStartup (Store.merge c p) =
    match requestPermissionsOnStartup_opt p with
    | Present v => v
    | Absent => requestPermissionsOnStartup c
    end.
Proof.
  unfold Store.merge, Store.spread. cbn [enabled apiUrl requestPermissionsOnStartup].
  by destruct (enabled_opt p), (apiUrl_opt p), (requestPermissionsOnStartup_opt p).
Qed.

Lemma sdkSettingsChanged_keys (p : PartialConfig) :
  Main.sdkSettingsChanged p =
    match apiUrl_opt p with Present (Some (_ :: _)) => true | _ => false end ||
    match requestPermissionsOnStartup_opt p with Present (Some _) => true | _ => false end.
Proof.
  unfold Main.sdkSettingsChanged.
  destruct (apiUrl_opt p) as [|[[|u rest]|]], (requestPermissionsOnStartup_opt p) as [|[b|]];
    reflexivity.
Qed.

(** C4 (amended). [SET_CONFIG] always stores the update: every key the
    update holds replaces the field, also when its value is [undefined];
    the other fields stay.  While the SDK is not initialised it calls
    neither [shutdown] nor [init].  While it is initialised and the update
    carries a non-empty [apiUrl] or any [requestPermissionsOnStartup] value
    (not [undefined]), it calls [shutdown] once and then, only if that call
    succeeded, [init] once with the options of the stored configuration. *)
Theorem C4_reconfigure_provider_calls (sdk : RecallAiSdk) (p : PartialConfig) (w : World) :
  let r := Main.SET_CONFIG sdk p w in
  let old := config (recallSdkStore w) in
  let new := config (recallSdkStore (world r)) in
  enabled new = match enabled_opt p with Present v => v | Absent => enabled old end /\
  apiUrl new = match apiUrl_opt p with Present v => v | Absent => apiUrl old end /\
  requestPermissionsOnStartup new =
    match requestPermissionsOnStartup_opt p with
    | Present v => v
    | Absent => requestPermissionsOnStartup old
    end /\
  (sdkInitialized (recallSdkStore w) = false -> sdkCalls (effects r) = []) /\
  (sdkInitialized (recallSdkStore w) = true ->
   (exists u rest, apiUrl_opt p = Present (Some (u :: rest))) \/
   (exists b, requestPermissionsOnStartup_opt p = Present (Some b)) ->
   sdkCalls (effects r) =
     if shutdown_rejects sdk then [SdkShutdown]
     else [SdkShutdown;
           SdkInit (mkSdkInitOptions
                      (apiUrl new)
                      (if truthyBool (requestPermissionsOnStartup new)
                       then Some [accessibility; screen_capture; microphone; system_audio]
                       else None)
                      (Some true))]).
Proof.
  destruct (set_config_run sdk p w) as (Hc & _ & _ & Hcalls & _).
  destruct (merge_fields (config (recallSdkStore w)) p) as (He & Ha & Hr).
  cbv zeta in *. rewrite Hc.
  split; [exact He|]. split; [exact Ha|]. split; [exact Hr|]. split.
  - intros Hi. by rewrite Hcalls, Hi.
  - intros Hi Ht. rewrite Hcalls, Hi. cbn [andb].
    assert (Hch : Main.sdkSettingsChanged p = true); [|by rewrite Hch].
    rewrite sdkSettingsChanged_keys.
    destruct Ht as [(u & rest & ->)|(b & ->)]; [done|].
    apply orb_true_r.
Qed.

(** The amended C4 at work: a new endpoint while the SDK is initialised and
    the provider accepts both calls. *)
Lemma C4_reconfigure_provider_calls_witness :
  sdkInitialized (recallSdkStore ready_world) = true /\
  sdkCalls (effects (Main.SET_CONFIG sdk_ok
                       (mkPartial None (Some "https://eu-central-1.recall.ai") None)
                       ready_world)) =
    [SdkShutdown;
     SdkInit (Main.sdkOptionsOf (mkConfig true "https://eu-central-1.recall.ai" true))].
Proof.
  split; [reflexivity|].
  refine (proj2 (proj2 (proj2 (proj2 (C4_reconfigure_provider_calls sdk_ok
            (mkPartial None (Some "https://eu-central-1.recall.ai") None) ready_world)))) _ _).
  - reflexivity.
  - left. eexists. eexists. reflexivity.
Defined.

(** C5 fails on the reconfiguration path.  [SET_CONFIG] never changes
    [sdkInitialized]; so in a world whose SDK is initialised, when a
    [setConfig] with a new endpoint shuts the provider down and the
    following [init] rejects, the answer is [success: false] and
    [sdkInitialized] is still true. *)
Theorem C5_failed_reinit_leaves_flag_set :
  (forall sdk p w,
     sdkInitialized (recallSdkStore (world (Main.SET_CONFIG sdk p w))) =
       sdkInitialized (recallSdkStore w)) /\
  let r := Main.SET_CONFIG (mkSdk true false)
             (mkPartial None (Some "https://eu-central-1.recall.ai") None) ready_world in
  sdkCalls (effects r) =
    [SdkShutdown;
     SdkInit (Main.sdkOptionsOf (mkConfig true "https://eu-central-1.recall.ai" true))] /\
  outcome r = inr (mkResponse false "Failed to update configuration") /\
  sdkInitialized (recallSdkStore (world r)) = true.
Proof.
  split.
  - intros sdk p w. apply set_config_run.
  - vm_compute. repeat split; reflexivity.
Qed.

(** C7. With the [enabled] flag off ([false], or [undefined] after an
    update stored that), [INIT_SDK] answers [success: false] with the
    message of the disabled error, calls nothing on the provider (it only
    logs the error) and leaves the whole world as it was. *)
Theorem C7_init_while_disabled (sdk : RecallAiSdk) (w : World) :
  truthyBool (enabled (config (recallSdkStore w))) = false ->
  let r := Main.INIT_SDK sdk w in
  outcome r = inr (mkResponse false "Plugin is disabled") /\
  effects r = [ConsoleError "RecallDesktopMain: SDK initialization failed:"] /\
  sdkCalls (effects r) = [] /\
  world r = w.
Proof.
  intros He. destruct (init_sdk_run sdk w) as [_ H]. cbv zeta in *.
  rewrite He in H. cbn [negb] in H. tauto.
Qed.

(** C7 at work: the handlers are installed, the store holds a
    configuration with [enabled: false], and [initSdk] is the first
    request. *)
Lemma C7_init_while_disabled_witness :
  let w := boot (mkConfig false "https://us-east-1.recall.ai" true) in
  truthyBool (enabled (config (recallSdkStore w))) = false /\
  outcome (Main.INIT_SDK sdk_ok w) = inr (mkResponse false "Plugin is disabled") /\
  sdkInitialized (recallSdkStore (world (Main.INIT_SDK sdk_ok w))) = false.
Proof.
  cbv zeta. split; [reflexivity|].
  destruct (C7_init_while_disabled sdk_ok
              (boot (mkConfig false "https://us-east-1.recall.ai" true)) eq_refl)
    as (Ho & _ & _ & Hw).
  split; [exact Ho|]. rewrite Hw. reflexivity.
Defined.

(** An update with [undefined] in it, while the SDK is initialised:
    [{ apiUrl: undefined, requestPermissionsOnStartup: false }] stores
    [undefined] as the endpoint and calls [init] with it. *)
Example set_config_undefined_endpoint :
  let r := Main.SET_CONFIG sdk_ok (mkPartialOf Absent (Present None) (Present (Some false)))
                           ready_world in
  config (recallSdkStore (world r)) = mkConfigOf (Some true) None (Some false) /\
  sdkCalls (effects r) = [SdkShutdown; SdkInit (mkSdkInitOptions None None (Some true))].
Proof. vm_compute. split; reflexivity. Qed.

(** C10. After every [SET_CONFIG] the store holds the update, whatever the
    answer: every key the update holds has replaced the field (also by
    [undefined]) and the other fields are as before.  The answer is
    [success: false] exactly when a reinitialisation was started and the
    provider rejected [shutdown] or [init].  At work in the world whose SDK
    is initialised: an update that disables the plugin and moves the
    endpoint is answered [success: false] both when the provider rejects
    [init] and when it rejects [shutdown], and the store holds the update
    all the same. *)
Theorem C10_set_config_never_rolled_back :
  (forall (sdk : RecallAiSdk) (p : PartialConfig) (w : World),
     let r := Main.SET_CONFIG sdk p w in
     let old := config (recallSdkStore w) in
     let new := config (recallSdkStore (world r)) in
     let reinit :=
       sdkInitialized (recallSdkStore w) &&
       (match apiUrl_opt p with Present (Some (_ :: _)) => true | _ => false end ||
        match requestPermissionsOnStartup_opt p with Present (Some _) => true | _ => false end) in
     enabled new = match enabled_opt p with Present v => v | Absent => enabled old end /\
     apiUrl new = match apiUrl_opt p with Present v => v | Absent => apiUrl old end /\
     requestPermissionsOnStartup new =
       match requestPermissionsOnStartup_opt p with
       | Present v => v
       | Absent => requestPermissionsOnStartup old
       end /\
     outcome r =
       inr (if reinit && (shutdown_rejects sdk || init_rejects sdk)
            then mkResponse false "Failed to update configuration"
            else mkResponse true "Configuration updated successfully")) /\
  let p := mkPartial (Some false) (Some "https://eu-central-1.recall.ai") None in
  let stored := mkConfig false "https://eu-central-1.recall.ai" true in
  config (recallSdkStore ready_world) = mkConfig true "https://us-east-1.recall.ai" true /\
  (let r := Main.SET_CONFIG (mkSdk true false) p ready_world in
   outcome r = inr (mkResponse false "Failed to update configuration") /\
   config (recallSdkStore (world r)) = stored) /\
  (let r := Main.SET_CONFIG (mkSdk false true) p ready_world in
   outcome r = inr (mkResponse false "Failed to update configuration") /\
   config (recallSdkStore (world r)) = stored).
Proof.
  split.
  - intros sdk p w. cbv zeta.
    destruct (set_config_run sdk p w) as (Hc & _ & _ & _ & Ho). cbv zeta in Hc, Ho.
    destruct (merge_fields (config (recallSdkStore w)) p) as (He & Ha & Hr).
    rewrite Hc, <- sdkSettingsChanged_keys. by repeat split.
  - vm_compute. repeat split; reflexivity.
Qed.

(** ** Provider listeners *)

Lemma ensureSdkListener_run K w :
  match sdkEventHandlers (recallDesktopMain w) !! K with
  | Some _ => Main.ensureSdkListener K w = mkRun (inr tt) w []
  | None =>
      let r := Main.ensureSdkListener K w in
      outcome r = inr tt /\
      effects r = [SdkAddEventListener K] /\
      sdkListeners (world r) = sdkListeners w ++ [(K, ForwardTo K)] /\
      sdkEventHandlers (recallDesktopMain (world r)) =
        <[K := ForwardTo K]> (sdkEventHandlers (recallDesktopMain w))
  end.
Proof.
  unfold Main.ensureSdkListener.
  rewrite (bind_inr getWorld _ w w eq_refl). cbn [getWorld outcome world effects app].
  destruct (sdkEventHandlers (recallDesktopMain w) !! K); [done|].
  js_run. by repeat split.
Qed.

Lemma listenerCount_handlers K w :
  Inv w ->
  listenerCount K w =
    match sdkEventHandlers (recallDesktopMain w) !! K with Some _ => 1 | None => 0 end.
Proof.
  intros HI. unfold listenerCount. rewrite (inv_listeners _ HI).
  by destruct (sdkEventHandlers (recallDesktopMain w) !! K).
Qed.

Lemma sdkListeners_exec op w :
  Inv w -> exists more, sdkListeners (exec op w) = sdkListeners w ++ more.
Proof.
  intros HI. unfold exec.
  destruct op as [sender eventType|sender eventType|sdk|sdk|sdk cfg|i|t evt];
    cbn [step]; rewrite ?discard_world.
  - destruct (subscribe_run sender eventType w) as (_ & _ & _ & _ & _ & _ & Hl & _).
    eexists. exact Hl.
  - destruct (unsubscribe_run sender eventType w) as (_ & _ & _ & Hl & _).
    exists []. by rewrite app_nil_r.
  - destruct (init_sdk_hub sdk w) as (_ & <- & _). exists []. by rewrite app_nil_r.
  - destruct (shutdown_sdk_hub sdk w) as (_ & <- & _). exists []. by rewrite app_nil_r.
  - destruct (set_config_hub sdk cfg w) as (_ & <- & _). exists []. by rewrite app_nil_r.
  - destruct (emitDestroyed_run i w (inv_callbacks_nodup _ HI)) as (_ & _ & _ & Hl & _).
    exists []. by rewrite app_nil_r.
  - destruct (emitSdkEvent_hub t evt w) as (_ & _ & <- & _). exists []. by rewrite app_nil_r.
Qed.

(** C3. In every reachable world the provider holds at most one listener
    for [K]; no turn of the main process removes a listener; and
    [ensureSdkListener K] registers exactly one listener, with one
    [addEventListener] call, when none is recorded for [K], and otherwise
    does nothing at all. *)
Theorem C3_one_listener_per_event_type
    (c : RecallSdkConfig) (ops : list Op) (K : RecallSdkEventType) :
  let w := run ops (boot c) in
  listenerCount K w <= 1 /\
  (forall op, exists more, sdkListeners (exec op w) = sdkListeners w ++ more) /\
  match sdkEventHandlers (recallDesktopMain w) !! K with
  | None =>
      listenerCount K w = 0 /\
      effects (Main.ensureSdkListener K w) = [SdkAddEventListener K] /\
      listenerCount K (world (Main.ensureSdkListener K w)) = 1
  | Some _ =>
      listenerCount K w = 1 /\
      Main.ensureSdkListener K w = mkRun (inr tt) w []
  end.
Proof.
  cbv zeta.
  assert (HI : Inv (run ops (boot c))) by apply Inv_run, Inv_boot.
  set (w := run ops (boot c)) in *.
  pose proof (listenerCount_handlers K w HI) as Hn.
  pose proof (ensureSdkListener_run K w) as He.
  split; [|split].
  - rewrite Hn. destruct (sdkEventHandlers (recallDesktopMain w) !! K); lia.
  - intros op. by apply sdkListeners_exec.
  - destruct (sdkEventHandlers (recallDesktopMain w) !! K) as [h|] eqn:Eh; [done|].
    cbv zeta in He. destruct He as (_ & Hef & Hl & _).
    split; [done|]. split; [done|].
    unfold listenerCount in *. rewrite Hl, filter_app, length_app, Hn.
    by rewrite filter_cons_True.
Qed.

(** ** Subscribing *)

Lemma refcount_subscribe sender t w :
  refcount t (wc_id sender) (world (Main.SUBSCRIBE_EVENTS sender t w)) =
    refcount t (wc_id sender) w + 1.
Proof.
  destruct (subscribe_run sender t w) as (_ & _ & _ & Hs & _). cbv zeta in Hs.
  rewrite (refcount_unfold t _ w). unfold refcount.
  rewrite Hs, lookup_insert_eq. cbn [mbind option_bind].
  by rewrite JsMapFacts.get_set_eq.
Qed.

(** C9. In every world, whatever the store says about [enabled] and
    [sdkInitialized], [SUBSCRIBE_EVENTS] answers [success: true], raises the
    reference count of the sender for the event type by one, leaves a
    handler recorded for the type and registers it with the provider if
    none was recorded, and touches neither the store nor the provider's
    [init] / [shutdown].  Right after boot, under any configuration, the
    provider therefore holds a listener while the SDK is not initialised. *)
Theorem C9_subscribe_needs_no_lifecycle_state
    (sender : WebContents) (t : RecallSdkEventType) (w : World) :
  let r := Main.SUBSCRIBE_EVENTS sender t w in
  (outcome r = inr (mkResponse true ("Subscribed to " +:+ eventTypeName t)) /\
   refcount t (wc_id sender) (world r) = refcount t (wc_id sender) w + 1 /\
   is_Some (sdkEventHandlers (recallDesktopMain (world r)) !! t) /\
   sdkListeners (world r) =
     sdkListeners w ++
     match sdkEventHandlers (recallDesktopMain w) !! t with
     | Some _ => []
     | None => [(t, ForwardTo t)]
     end /\
   recallSdkStore (world r) = recallSdkStore w /\
   sdkCalls (effects r) = []) /\
  (forall c : RecallSdkConfig,
     let r0 := Main.SUBSCRIBE_EVENTS sender t (boot c) in
     sdkListeners (world r0) = [(t, ForwardTo t)] /\
     effects r0 = [WcOnceDestroyed (wc_id sender); SdkAddEventListener t] /\
     sdkInitialized (recallSdkStore (world r0)) = false).
Proof.
  cbv zeta. split.
  - destruct (subscribe_run sender t w) as (Ho & Hst & _ & _ & _ & Hh & Hl & _ & He).
    cbv zeta in *. split; [done|]. split; [apply refcount_subscribe|].
    split; [|split; [done|split; [done|]]].
    + rewrite Hh. destruct (sdkEventHandlers (recallDesktopMain w) !! t) eqn:E.
      * by rewrite E.
      * by rewrite lookup_insert_eq.
    + rewrite He.
      by destruct (trackedWebContents (recallDesktopMain w) !! wc_id sender),
                  (sdkEventHandlers (recallDesktopMain w) !! t).
  - intros c.
    destruct (subscribe_run sender t (boot c)) as (_ & Hst & _ & _ & _ & _ & Hl & _ & He).
    cbv zeta in *. rewrite Hl, He, Hst.
    unfold boot, Main.initial.
    cbn [recallDesktopMain sdkEventHandlers trackedWebContents sdkListeners recallSdkStore sdkInitialized].
    by rewrite !lookup_empty.
Qed.

(** ** Disconnects *)

Lemma World_ext w w' :
  recallSdkStore w = recallSdkStore w' ->
  recallDesktopMain w = recallDesktopMain w' ->
  sdkListeners w = sdkListeners w' ->
  destroyedCallbacks w = destroyedCallbacks w' ->
  w = w'.
Proof. destruct w, w'. cbn. by intros -> -> -> ->. Qed.

Lemma RecallDesktopMain_ext m m' :
  isInitialized m = isInitialized m' ->
  subscriptions m = subscriptions m' ->
  trackedWebContents m = trackedWebContents m' ->
  sdkEventHandlers m = sdkEventHandlers m' ->
  m = m'.
Proof. destruct m, m'. cbn. by intros -> -> -> ->. Qed.

Lemma run_app ops1 ops2 w : run (ops1 ++ ops2) w = run ops2 (run ops1 w).
Proof. unfold run. apply fold_left_app. Qed.

Lemma destroyed_removes id w :
  Inv w ->
  let w1 := exec (Destroyed id) w in
  trackedWebContents (recallDesktopMain w1) !! id = None /\
  (id ∉ destroyedCallbacks w1) /\
  (forall t m, subscriptions (recallDesktopMain w1) !! t = Some m -> JsMap.get id m = None).
Proof.
  intros HI. cbv zeta. unfold exec. cbn [step].
  destruct (emitDestroyed_run id w (inv_callbacks_nodup _ HI)) as (_ & _ & _ & _ & Hc & Hm).
  cbv zeta in *. rewrite Hc, Hm. split; [|split].
  - destruct (decide (id ∈ destroyedCallbacks w)) as [Hin|Hnin];
      cbn [trackedWebContents]; [apply lookup_delete_eq|].
    destruct (trackedWebContents (recallDesktopMain w) !! id) eqn:E; [|done].
    exfalso. apply Hnin, (inv_callbacks _ HI). by rewrite E.
  - rewrite list_elem_of_filter. tauto.
  - intros t m. destruct (decide (id ∈ destroyedCallbacks w)) as [Hin|Hnin];
      cbn [subscriptions].
    + rewrite lookup_fmap.
      destruct (subscriptions (recallDesktopMain w) !! t) as [m0|] eqn:Es; [|done].
      intros [= <-]. apply JsMapFacts.get_delete_eq. by eapply (inv_nodup _ HI).
    + intros Es. destruct (JsMap.get id m) eqn:Eg; [|done].
      exfalso. apply Hnin, (inv_callbacks _ HI).
      eapply (inv_tracked _ HI); [done|]. by eapply JsMapFacts.get_Some_keys.
Qed.

Lemma unsubscribe_absent sender t w :
  (forall m, subscriptions (recallDesktopMain w) !! t = Some m ->
             JsMap.get (wc_id sender) m = None) ->
  Main.UNSUBSCRIBE_EVENTS sender t w =
    mkRun (inr (mkResponse true ("Unsubscribed from " +:+ eventTypeName t))) w [].
Proof.
  intros Habs.
  destruct (unsubscribe_run sender t w) as (Ho & He & Hst & Hl & Hc & Hi & Ht & Hh & Hs).
  cbv zeta in *.
  destruct (Main.UNSUBSCRIBE_EVENTS sender t w) as [o w' tr]. cbn [outcome world effects] in *.
  subst o tr. f_equal.
  apply World_ext; try done. apply RecallDesktopMain_ext; try done.
  rewrite Hs. destruct (subscriptions (recallDesktopMain w) !! t) as [m|] eqn:Es; [|done].
  rewrite (Habs m eq_refl). cbn [default from_option id].
  rewrite decide_True by lia.
  rewrite JsMapFacts.delete_absent by (by apply Habs).
  by apply insert_id.
Qed.

Lemma netCount_without_subscribe K id post :
  forallb (fun op => negb (isSubscribeFrom id op)) post = true ->
  netCount K id 0 post = 0.
Proof.
  induction post as [|op post IH]; [done|].
  cbn [forallb]. intros [Hop Hpost]%andb_true_iff.
  destruct op as [sender eventType|sender eventType|sdk|sdk|sdk cfg|i|t evt];
    cbn [netCount]; try (by apply IH).
  - cbn [isSubscribeFrom] in Hop. apply negb_true_iff, bool_decide_eq_false in Hop.
    rewrite decide_False by tauto. by apply IH.
  - case_decide; by apply IH.
  - case_decide; by apply IH.
Qed.

(** C6. Whatever happened before, once the [destroyed] event of consumer
    [id] has been handled the consumer is tracked no more and is a key of no
    inner subscription map; an unsubscribe request naming it then answers
    [success: true] and changes nothing; and as long as it sends no new
    subscribe request, no provider event fired later makes a [send] call on
    it. *)
Theorem C6_no_delivery_after_disconnect
    (c : RecallSdkConfig) (pre : list Op) (id : nat) :
  let w1 := run (pre ++ [Destroyed id]) (boot c) in
  trackedWebContents (recallDesktopMain w1) !! id = None /\
  (forall t m, subscriptions (recallDesktopMain w1) !! t = Some m -> id ∉ JsMap.keys m) /\
  (forall sender t,
     wc_id sender = id ->
     Main.UNSUBSCRIBE_EVENTS sender t w1 =
       mkRun (inr (mkResponse true ("Unsubscribed from " +:+ eventTypeName t))) w1 []) /\
  (forall post K d,
     forallb (fun op => negb (isSubscribeFrom id op)) post = true ->
     sendsTo id (effects (emitSdkEvent K d (run post w1))) = []).
Proof.
  cbv zeta. rewrite run_app. cbn [run fold_left].
  assert (HI : Inv (run pre (boot c))) by apply Inv_run, Inv_boot.
  destruct (destroyed_removes id _ HI) as (Ht & _ & Hs). cbv zeta in *.
  set (w1 := exec (Destroyed id) (run pre (boot c))) in *.
  assert (HI1 : Inv w1) by (by apply Inv_exec).
  split; [done|]. split; [|split].
  - intros t m Hm. apply JsMapFacts.get_None. by eapply Hs.
  - intros sender t <-. apply unsubscribe_absent. intros m Hm. by eapply Hs.
  - intros post K d Hpost.
    rewrite emitSdkEvent_sendsTo by (by apply Inv_run).
    rewrite refcount_run by done.
    assert (H0 : refcount K id w1 = 0).
    { unfold refcount. destruct (subscriptions (recallDesktopMain w1) !! K) as [m|] eqn:Em; [|done].
      cbn [mbind option_bind]. by rewrite (Hs K m Em). }
    rewrite H0, netCount_without_subscribe by done.
    rewrite decide_False; [done|lia].
Qed.

(** C6 at work: a consumer subscribed to two event types is destroyed; a late
    unsubscribe changes nothing and a later event is not sent to it. *)
Lemma C6_no_delivery_after_disconnect_witness :
  let A := mkWebContents 1 false in
  let w1 := run ([Subscribe A recording_started; Subscribe A realtime_event] ++ [Destroyed 1])
                (boot (config Store.initial)) in
  Main.UNSUBSCRIBE_EVENTS A realtime_event w1 =
    mkRun (inr (mkResponse true ("Unsubscribed from " +:+ eventTypeName realtime_event))) w1 [] /\
  sendsTo 1 (effects (emitSdkEvent recording_started "payload"
                        (run [Unsubscribe A recording_started; SdkEvent realtime_event "x"] w1))) = [].
Proof.
  cbv zeta.
  pose proof (C6_no_delivery_after_disconnect (config Store.initial)
                [Subscribe (mkWebContents 1 false) recording_started;
                 Subscribe (mkWebContents 1 false) realtime_event] 1) as H.
  cbv zeta in H. destruct H as (_ & _ & Hu & Hp). split.
  - apply Hu. reflexivity.
  - apply Hp. reflexivity.
Defined.

(** ** Side effects and fan-out *)

Lemma sends_firstLog t : sends [firstLog t] = [].
Proof. unfold firstLog. by destruct (decide (t = error_event)). Qed.

(** C8. [handleSdkEvent] never throws, whatever table of side effects it
    reads: the trace is its log line, then everything the side effect of the
    event type did, then the error log if the side effect threw, and only
    then the fan-out, which runs in the world the side effect left.  The
    fan-out calls [send] once on every tracked subscriber, in order, whether
    or not an earlier [send] threw.  With the table of the class, nothing is
    sent before the fan-out, and for [shutdown] the fan-out runs with
    [sdkInitialized] already false. *)
Theorem C8_side_effect_before_fanout
    (table : RecallSdkEventType -> option (Payload -> M unit))
    (t : RecallSdkEventType) (evt : Payload) (w : World) :
  let r := Main.handleSdkEventWith table t evt w in
  (outcome r = inr tt /\
   match table t with
   | None =>
       world r = w /\
       effects r = firstLog t :: effects (Main.broadcastEvent t evt w)
   | Some sideEffect =>
       let s := sideEffect evt w in
       world r = world s /\
       effects r =
         firstLog t :: effects s ++
         match outcome s with
         | inl _ => [ConsoleError "RecallDesktopMain: Side effect failed for"]
         | inr _ => []
         end ++ effects (Main.broadcastEvent t evt (world s))
   end) /\
  (forall w' : World,
     outcome (Main.broadcastEvent t evt w') = inr tt /\
     sends (effects (Main.broadcastEvent t evt w')) =
       (fun wc => WcSend (wc_id wc) (Main.channelOf t) evt) <$> subscribersOf t w') /\
  (exists before,
     effects (Main.handleSdkEvent t evt w) =
       before ++ effects (Main.broadcastEvent t evt (world (Main.handleSdkEvent t evt w))) /\
     sends before = [] /\
     if decide (t = shutdown_event)
     then sdkInitialized (recallSdkStore (world (Main.handleSdkEvent t evt w))) = false
     else world (Main.handleSdkEvent t evt w) = w).
Proof.
  cbv zeta. split; [apply handleSdkEventWith_run|]. split.
  - intros w'. destruct (broadcastEvent_run t evt w') as (_ & Ho & Hs). by split.
  - unfold Main.handleSdkEvent.
    destruct (handleSdkEventWith_run Main.eventSideEffects t evt w) as [_ H].
    destruct (Main.eventSideEffects t) as [f|] eqn:Ef.
    + destruct t; try discriminate Ef. injection Ef as <-.
      cbv zeta in H. destruct H as [Hw ->].
      destruct (clearState_run w) as (Ho & _ & Hi & _ & He).
      rewrite Hw, Ho, He.
      exists [firstLog shutdown_event; ConsoleLog "RecallSdkStore: Cleared all state"].
      split; [done|]. split; [done|]. by rewrite decide_True.
    + destruct H as [-> ->]. exists [firstLog t].
      split; [done|]. split; [apply sends_firstLog|].
      rewrite decide_False; [done|]. intros ->. discriminate Ef.
Qed.

(** * Further properties of the plugin *)

(** ** Invariants of reachable worlds *)

(** X1. After any history from start-up, for every event type and every
    consumer id: the inner map of the event type holds no id twice; a
    stored count is at least 1 and its consumer is tracked, under its own
    id; and the consumer has exactly one pending [destroyed] callback if it
    is tracked and none otherwise. *)
Theorem reachable_registry_invariants
    (c : RecallSdkConfig) (ops : list Op) (t : RecallSdkEventType) (wcId : nat) :
  let w := run ops (boot c) in
  let inner := default [] (subscriptions (recallDesktopMain w) !! t) in
  NoDup (JsMap.keys inner) /\
  match JsMap.get wcId inner with
  | Some n =>
      1 <= n /\
      exists wc, trackedWebContents (recallDesktopMain w) !! wcId = Some wc /\ wc_id wc = wcId
  | None => True
  end /\
  length (filter (fun i => i = wcId) (destroyedCallbacks w)) =
    match trackedWebContents (recallDesktopMain w) !! wcId with
    | Some _ => 1
    | None => 0
    end.
Proof.
  cbv zeta.
  assert (HI : Inv (run ops (boot c))) by apply Inv_run, Inv_boot.
  set (w := run ops (boot c)) in *.
  split; [|split].
  - destruct (subscriptions (recallDesktopMain w) !! t) as [m|] eqn:Es; cbn [default from_option id].
    + by eapply (inv_nodup _ HI).
    + apply NoDup_nil_2.
  - destruct (subscriptions (recallDesktopMain w) !! t) as [m|] eqn:Es; cbn [default from_option id];
      [|done].
    destruct (JsMap.get wcId m) as [n|] eqn:Eg; [|done]. split.
    + pose proof (inv_positive _ HI t m wcId n Es Eg). lia.
    + destruct (inv_tracked _ HI t m wcId Es) as [wc Hwc]; [by eapply JsMapFacts.get_Some_keys|].
      exists wc. split; [done|]. by eapply (inv_tracked_id _ HI).
  - rewrite (filter_eq_NoDup wcId _ (inv_callbacks_nodup _ HI)).
    pose proof (inv_callbacks _ HI wcId) as Hcb.
    destruct (decide (wcId ∈ destroyedCallbacks w)) as [Hin|Hnin].
    + apply Hcb in Hin.
      destruct (trackedWebContents (recallDesktopMain w) !! wcId) eqn:E; [done|by destruct Hin].
    + destruct (trackedWebContents (recallDesktopMain w) !! wcId) eqn:E; [|done].
      exfalso. apply Hnin, Hcb. done.
Qed.

(** ** The destroyed cleanup runs once *)

Lemma filter_ne_absent (id : nat) (l : list nat) :
  id ∉ l -> filter (fun i => i <> id) l = l.
Proof.
  induction l as [|x l IH]; [done|].
  rewrite not_elem_of_cons. intros [Hne Hl].
  rewrite filter_cons_True by congruence. by rewrite IH.
Qed.

(** X2. The [destroyed] cleanup of a consumer runs at most once: after the
    event has been handled, a second [destroyed] event for the same id
    finds no callback, changes nothing and does nothing. *)
Theorem destroyed_twice_is_once (c : RecallSdkConfig) (ops : list Op) (id : nat) :
  let w1 := exec (Destroyed id) (run ops (boot c)) in
  emitDestroyed id w1 = mkRun (inr tt) w1 [].
Proof.
  cbv zeta.
  assert (HI : Inv (run ops (boot c))) by apply Inv_run, Inv_boot.
  destruct (destroyed_removes id _ HI) as (_ & Hnin & _). cbv zeta in Hnin.
  set (w1 := exec (Destroyed id) (run ops (boot c))) in *.
  assert (HI1 : Inv w1) by (by apply Inv_exec).
  destruct (emitDestroyed_run id w1 (inv_callbacks_nodup _ HI1)) as (Ho & He & Hst & Hl & Hc & Hm).
  cbv zeta in *. rewrite decide_False in Hm by done.
  rewrite filter_ne_absent in Hc by done.
  destruct (emitDestroyed id w1) as [o w' tr]. cbn [outcome world effects] in *.
  subst o tr. f_equal. by apply World_ext.
Qed.

(** ** The whole trace of a fan-out *)

Lemma sendTo_effects ch d e w :
  effects (Main.sendTo ch d e w) =
    match trackedWebContents (recallDesktopMain w) !! e.1 with
    | Some wc => sendAttempt ch d wc
    | None => []
    end.
Proof.
  unfold sendAttempt. js_run.
  destruct (trackedWebContents (recallDesktopMain w) !! e.1) as [wc|]; js_run; [|done].
  destruct (wc_send_throws wc); js_run; done.
Qed.

Lemma forEach_sendTo_effects ch d m w :
  effects (forEach (Main.sendTo ch d) m w) =
    omap (fun e : nat * nat => trackedWebContents (recallDesktopMain w) !! e.1) m
      ≫= sendAttempt ch d.
Proof.
  induction m as [|e m IH]; [done|].
  destruct (sendTo_run ch d e w) as (Hw & Ho & _).
  cbn [forEach]. rewrite (bind_inr _ _ _ _ Ho), Hw. cbn [effects].
  rewrite IH, sendTo_effects. cbn [omap list_omap].
  destruct (trackedWebContents (recallDesktopMain w) !! e.1); [|done].
  by rewrite bind_cons.
Qed.

(** X4. The whole trace of [broadcastEvent]: for every tracked subscriber of
    the event type, in the insertion order of the inner map, one [send] on
    the event's channel, followed by one error line exactly when that
    [send] threw; nothing else. *)
Theorem broadcast_trace (t : RecallSdkEventType) (d : Payload) (w : World) :
  effects (Main.broadcastEvent t d w) =
    subscribersOf t w ≫= sendAttempt (Main.channelOf t) d.
Proof.
  unfold Main.broadcastEvent, subscribersOf.
  rewrite (bind_inr getWorld _ w w eq_refl). cbn [getWorld world outcome effects app].
  destruct (subscriptions (recallDesktopMain w) !! t) as [m|]; [|done].
  apply forEach_sendTo_effects.
Qed.

(** ** Fan-out order *)

Lemma set_absent k v (m : JsMap.t) : JsMap.get k m = None -> JsMap.set k v m = m ++ [(k, v)].
Proof.
  induction m as [|[k' v'] m IH]; cbn [JsMap.get JsMap.set app]; [done|].
  destruct (decide (k = k')); [done|]. intros H. by rewrite IH.
Qed.

Lemma keys_set_present k v (m : JsMap.t) :
  k ∈ JsMap.keys m -> JsMap.keys (JsMap.set k v m) = JsMap.keys m.
Proof.
  induction m as [|[k' v'] m IH]; cbn [JsMap.keys JsMap.set map fst].
  - by intros ?%elem_of_nil.
  - destruct (decide (k = k')) as [->|Hne]; [done|].
    rewrite elem_of_cons. intros [?|Hin]; [done|].
    cbn [map fst]. f_equal. by apply IH.
Qed.

(** The objects a fan-out over keys [ks] reaches. *)
Lemma subscribersOf_keys t w :
  subscribersOf t w =
    omap (fun id => trackedWebContents (recallDesktopMain w) !! id)
         (JsMap.keys (default [] (subscriptions (recallDesktopMain w) !! t))).
Proof.
  unfold subscribersOf, JsMap.keys.
  induction (default [] (subscriptions (recallDesktopMain w) !! t)) as [|e m IH]; [done|].
  cbn [omap list_omap map]. by rewrite IH.
Qed.

Lemma omap_lookup_ext (tr1 tr2 : gmap nat WebContents) (ks : list nat) :
  (forall k, k ∈ ks -> tr1 !! k = tr2 !! k) ->
  omap (fun id => tr1 !! id) ks = omap (fun id => tr2 !! id) ks.
Proof.
  induction ks as [|k ks IH]; [done|]. intros H.
  cbn [omap list_omap]. rewrite (H k) by (by left).
  rewrite IH; [done|]. intros k' Hk'. apply H. by right.
Qed.

Lemma keys_default_elem (subs : gmap RecallSdkEventType JsMap.t) t k :
  k ∈ JsMap.keys (default [] (subs !! t)) ->
  exists m, subs !! t = Some m /\ k ∈ JsMap.keys m.
Proof.
  destruct (subs !! t) as [m|]; cbn [default from_option id].
  - intros Hk. by exists m.
  - by intros ?%elem_of_nil.
Qed.

(** X3. After any history, a subscribe request for [t] changes the fan-out
    list of [t] only if the sender's count for [t] was 0, and then appends
    one entry at the end: the object already tracked under the sender's id,
    or else the sender.  The fan-out lists of all other event types are as
    before. *)
Theorem subscribe_appends_once
    (c : RecallSdkConfig) (ops : list Op) (sender : WebContents)
    (t t' : RecallSdkEventType) :
  let w := run ops (boot c) in
  let w' := exec (Subscribe sender t) w in
  subscribersOf t' w' =
    if decide (t' = t /\ refcount t (wc_id sender) w = 0)
    then subscribersOf t w ++
         [default sender (trackedWebContents (recallDesktopMain w) !! wc_id sender)]
    else subscribersOf t' w.
Proof.
  cbv zeta.
  assert (HI : Inv (run ops (boot c))) by apply Inv_run, Inv_boot.
  set (w := run ops (boot c)) in *.
  unfold exec. cbn [step]. rewrite discard_world.
  destruct (subscribe_run sender t w) as (_ & _ & _ & Hs & Ht & _). cbv zeta in *.
  set (w' := world (Main.SUBSCRIBE_EVENTS sender t w)) in *.
  (* keys already in some inner map keep their tracked object *)
  assert (Hkeep : forall t0 m k,
            subscriptions (recallDesktopMain w) !! t0 = Some m -> k ∈ JsMap.keys m ->
            trackedWebContents (recallDesktopMain w') !! k =
            trackedWebContents (recallDesktopMain w) !! k).
  { intros t0 m k Hm Hk. rewrite Ht.
    destruct (trackedWebContents (recallDesktopMain w) !! wc_id sender) eqn:E; [done|].
    destruct (decide (wc_id sender = k)) as [<-|Hne]; [|by rewrite lookup_insert_ne].
    destruct (inv_tracked _ HI t0 m _ Hm Hk) as [? ?]. congruence. }
  rewrite !subscribersOf_keys, Hs, (refcount_unfold t _ w).
  destruct (decide (t' = t)) as [->|Hne].
  - rewrite lookup_insert_eq. cbn [default from_option id].
    destruct (subscriptions (recallDesktopMain w) !! t) as [m|] eqn:Es;
      cbn [default from_option id].
    + destruct (JsMap.get (wc_id sender) m) as [n|] eqn:Eg; cbn [default from_option id].
      * pose proof (inv_positive _ HI t m _ n Es Eg).
        rewrite decide_False by (intros [_ ?]; lia).
        rewrite keys_set_present by (by eapply JsMapFacts.get_Some_keys).
        apply omap_lookup_ext. intros k Hk. by eapply Hkeep.
      * rewrite decide_True by done. rewrite set_absent by done.
        unfold JsMap.keys. rewrite map_app, omap_app. cbn [map fst omap list_omap].
        f_equal.
        -- apply omap_lookup_ext. intros k Hk. by eapply Hkeep.
        -- rewrite Ht.
           destruct (trackedWebContents (recallDesktopMain w) !! wc_id sender) eqn:E.
           ++ by rewrite E.
           ++ by rewrite lookup_insert_eq.
    + rewrite decide_True by done. cbn [JsMap.get JsMap.set JsMap.keys map fst omap list_omap app].
      rewrite Ht.
      destruct (trackedWebContents (recallDesktopMain w) !! wc_id sender) eqn:E.
      * by rewrite E.
      * by rewrite lookup_insert_eq.
  - rewrite decide_False by tauto. rewrite lookup_insert_ne by done.
    apply omap_lookup_ext. intros k Hk.
    destruct (keys_default_elem _ _ _ Hk) as (m & Hm & Hin). by eapply Hkeep.
Qed.

(** ** Provider events and listeners *)

Lemma handlers_exec op t w :
  Inv w ->
  is_Some (sdkEventHandlers (recallDesktopMain (exec op w)) !! t) <->
  is_Some (sdkEventHandlers (recallDesktopMain w) !! t) \/ everSubscribed t [op] = true.
Proof.
  intros HI. unfold exec, everSubscribed.
  destruct op as [sender eventType|sender eventType|sdk|sdk|sdk cfg|i|t0 evt];
    cbn [step existsb]; rewrite ?discard_world, ?orb_false_r.
  - destruct (subscribe_run sender eventType w) as (_ & _ & _ & _ & _ & Hh & _).
    cbv zeta in Hh. rewrite Hh, bool_decide_eq_true.
    destruct (sdkEventHandlers (recallDesktopMain w) !! eventType) eqn:E.
    + split; [tauto|]. intros [?|<-]; [done|]. by rewrite E.
    + destruct (decide (eventType = t)) as [<-|Hne].
      * rewrite lookup_insert_eq. split; [by right|done].
      * rewrite lookup_insert_ne by done. tauto.
  - destruct (unsubscribe_run sender eventType w) as (_ & _ & _ & _ & _ & _ & _ & -> & _).
    split; [tauto|]. by intros [?|?].
  - destruct (init_sdk_hub sdk w) as (<- & _). split; [tauto|]. by intros [?|?].
  - destruct (shutdown_sdk_hub sdk w) as (<- & _). split; [tauto|]. by intros [?|?].
  - destruct (set_config_hub sdk cfg w) as (<- & _). split; [tauto|]. by intros [?|?].
  - destruct (emitDestroyed_run i w (inv_callbacks_nodup _ HI)) as (_ & _ & _ & _ & _ & ->).
    destruct (decide (i ∈ destroyedCallbacks w)); cbn [sdkEventHandlers];
      (split; [tauto|]; by intros [?|?]).
  - destruct (emitSdkEvent_hub t0 evt w) as (_ & <- & _). split; [tauto|]. by intros [?|?].
Qed.

Lemma handlers_run ops t w :
  Inv w ->
  is_Some (sdkEventHandlers (recallDesktopMain (run ops w)) !! t) <->
  is_Some (sdkEventHandlers (recallDesktopMain w) !! t) \/ everSubscribed t ops = true.
Proof.
  revert w. induction ops as [|op ops IH]; intros w HI.
  - cbn. split; [tauto|]. by intros [?|?].
  - cbn [run fold_left]. fold (run ops (exec op w)).
    rewrite IH by (by apply Inv_exec). rewrite handlers_exec by done.
    unfold everSubscribed. cbn [existsb]. rewrite ?orb_false_r, ?orb_true_iff. tauto.
Qed.

(** X5. After any history from start-up, an event the provider emits
    reaches [handleSdkEvent] exactly if some consumer has asked for that
    event type before (unsubscribing does not undo this).  If so, the
    emission does what one call of [handleSdkEvent] does, and afterwards
    [sdkInitialized] is false for [shutdown] and unchanged for every other
    event type; if not, nothing happens at all. *)
Theorem provider_event_needs_listener
    (c : RecallSdkConfig) (ops : list Op) (t : RecallSdkEventType) (evt : Payload) :
  let w := run ops (boot c) in
  let r := emitSdkEvent t evt w in
  if everSubscribed t ops
  then effects r = effects (Main.handleSdkEvent t evt w) /\
       world r = world (Main.handleSdkEvent t evt w) /\
       sdkInitialized (recallSdkStore (world r)) =
         (if decide (t = shutdown_event) then false
          else sdkInitialized (recallSdkStore w))
  else r = mkRun (inr tt) w [].
Proof.
  cbv zeta.
  assert (HI : Inv (run ops (boot c))) by apply Inv_run, Inv_boot.
  pose proof (handlers_run ops t (boot c) (Inv_boot c)) as Hh.
  set (w := run ops (boot c)) in *.
  unfold emitSdkEvent.
  rewrite (bind_inr getWorld _ w w eq_refl). cbn [getWorld outcome world effects app].
  rewrite (inv_listeners _ HI).
  destruct (everSubscribed t ops) eqn:Ev.
  - destruct (sdkEventHandlers (recallDesktopMain w) !! t) as [h|] eqn:Eh.
    2: { exfalso. assert (Hs : is_Some (None : option SdkHandler)) by (apply Hh; by right).
         by destruct Hs. }
    cbn [forEach]. change (callHandler evt (t, ForwardTo t)) with (Main.handleSdkEvent t evt).
    rewrite discard_effects, discard_world. split; [done|]. split; [done|].
    unfold Main.handleSdkEvent.
    destruct (handleSdkEventWith_run Main.eventSideEffects t evt w) as [_ H].
    destruct (decide (t = shutdown_event)) as [->|Hne].
    + cbn in H. destruct H as [-> _]. apply clearState_run.
    + destruct (Main.eventSideEffects t) eqn:Ef.
      * destruct t; try discriminate Ef. done.
      * destruct H as [-> _]. done.
  - destruct (sdkEventHandlers (recallDesktopMain w) !! t) as [h|] eqn:Eh; [|done].
    exfalso. assert (Hs : is_Some (Some h)) by done.
    apply Hh in Hs. destruct Hs as [Hs|?]; [|done].
    unfold boot, Main.initial in Hs. cbn in Hs. rewrite lookup_empty in Hs. by destruct Hs.
Qed.

(** ** Lifecycle requests and the hub *)

Lemma hub_eq_sym w1 w2 : hub_eq w1 w2 -> hub_eq w2 w1.
Proof. intros (?&?&?). by repeat split. Qed.

Lemma exec_hub_congr op w1 w2 :
  Inv w1 -> Inv w2 -> hub_eq w1 w2 -> isHubOp op = true ->
  hub_eq (exec op w1) (exec op w2).
Proof.
  intros HI1 HI2 (Hm & Hl & Hc) Hop. unfold exec.
  destruct op as [sender eventType|sender eventType|sdk|sdk|sdk cfg|i|t0 evt];
    try discriminate Hop; cbn [step]; rewrite ?discard_world.
  - destruct (subscribe_run sender eventType w1) as (_ & _ & Hi1 & Hs1 & Ht1 & Hh1 & Hl1 & Hc1 & _).
    destruct (subscribe_run sender eventType w2) as (_ & _ & Hi2 & Hs2 & Ht2 & Hh2 & Hl2 & Hc2 & _).
    cbv zeta in *. rewrite <- Hm, <- ?Hl, <- ?Hc in *.
    repeat split; [|congruence|congruence].
    apply RecallDesktopMain_ext; congruence.
  - destruct (unsubscribe_run sender eventType w1) as (_ & _ & _ & Hl1 & Hc1 & Hi1 & Ht1 & Hh1 & Hs1).
    destruct (unsubscribe_run sender eventType w2) as (_ & _ & _ & Hl2 & Hc2 & Hi2 & Ht2 & Hh2 & Hs2).
    cbv zeta in *. rewrite <- Hm in *.
    repeat split; [|congruence|congruence].
    apply RecallDesktopMain_ext; congruence.
  - destruct (emitDestroyed_run i w1 (inv_callbacks_nodup _ HI1)) as (_ & _ & _ & Hl1 & Hc1 & Hm1).
    destruct (emitDestroyed_run i w2 (inv_callbacks_nodup _ HI2)) as (_ & _ & _ & Hl2 & Hc2 & Hm2).
    cbv zeta in *. rewrite <- Hm, <- Hc in *.
    repeat split; congruence.
Qed.

Lemma exec_lifecycle_hub op w : isHubOp op = false -> hub_eq w (exec op w).
Proof.
  intros Hop. unfold exec.
  destruct op as [sender eventType|sender eventType|sdk|sdk|sdk cfg|i|t0 evt];
    try discriminate Hop; cbn [step]; rewrite ?discard_world.
  - apply init_sdk_hub.
  - apply shutdown_sdk_hub.
  - apply set_config_hub.
  - apply emitSdkEvent_hub.
Qed.

Lemma run_hub_congr ops w1 w2 :
  Inv w1 -> Inv w2 -> hub_eq w1 w2 ->
  hub_eq (run ops w1) (run (List.filter isHubOp ops) w2).
Proof.
  revert w1 w2. induction ops as [|op ops IH]; intros w1 w2 HI1 HI2 Hh; [done|].
  cbn [run fold_left List.filter]. fold (run ops (exec op w1)).
  destruct (isHubOp op) eqn:Hop.
  - cbn [fold_left]. fold (run (List.filter isHubOp ops) (exec op w2)).
    apply IH; [by apply Inv_exec|by apply Inv_exec|by apply exec_hub_congr].
  - fold (run (List.filter isHubOp ops) w2).
    apply IH; [by apply Inv_exec|done|].
    eapply hub_eq_trans; [|exact Hh]. apply hub_eq_sym. by apply exec_lifecycle_hub.
Qed.

(** X6. Lifecycle requests, configuration updates and provider events never
    touch the hub: the subscriptions, tracked consumers, provider listeners
    and pending [destroyed] callbacks after a history are those after its
    subscribe, unsubscribe and [destroyed] turns alone, whatever the
    configuration at start-up. *)
Theorem lifecycle_invisible_to_hub (c c' : RecallSdkConfig) (ops : list Op) :
  hub_eq (run ops (boot c)) (run (List.filter isHubOp ops) (boot c')).
Proof.
  apply run_hub_congr; [apply Inv_boot|apply Inv_boot|]. by repeat split.
Qed.

(** ** More on the lifecycle handlers *)

Lemma init_sdk_succeeded sdk w :
  succeeded (outcome (Main.INIT_SDK sdk w)) = true ->
  truthyBool (enabled (config (recallSdkStore (world (Main.INIT_SDK sdk w))))) = true /\
  sdkInitialized (recallSdkStore (world (Main.INIT_SDK sdk w))) = true.
Proof.
  intros Hok. destruct (init_sdk_run sdk w) as [Hc H]. cbv zeta in *.
  rewrite Hc. destruct (truthyBool (enabled (config (recallSdkStore w)))); cbn [negb] in H.
  - destruct (sdkInitialized (recallSdkStore w)) eqn:Ei.
    + destruct H as (-> & _). by rewrite Ei.
    + destruct H as [_ H]. destruct (init_rejects sdk).
      * destruct H as [_ Ho]. rewrite Ho in Hok. discriminate Hok.
      * by destruct H as [-> _].
  - destruct H as (_ & _ & _ & Ho). rewrite Ho in Hok. discriminate Hok.
Qed.

(** X7. Once [INIT_SDK] has answered [success: true], a further [INIT_SDK]
    answers "SDK already initialized" without calling the provider, logging
    or changing anything, whatever the provider would have done. *)
Theorem init_sdk_once (sdk sdk' : RecallAiSdk) (w : World) :
  succeeded (outcome (Main.INIT_SDK sdk w)) = true ->
  let w1 := world (Main.INIT_SDK sdk w) in
  Main.INIT_SDK sdk' w1 = mkRun (inr (mkResponse true "SDK already initialized")) w1 [].
Proof.
  intros Hok. cbv zeta.
  destruct (init_sdk_succeeded sdk w Hok) as [He Hi].
  destruct (init_sdk_run sdk' (world (Main.INIT_SDK sdk w))) as [_ H'].
  cbv zeta in H'. rewrite He, Hi in H'. cbn [negb] in H'.
  destruct H' as (Hw & Hef & Ho).
  destruct (Main.INIT_SDK sdk' (world (Main.INIT_SDK sdk w))) as [o w' tr].
  cbn [outcome world effects] in *. by subst.
Qed.

Lemma init_sdk_once_witness :
  let w := boot (config Store.initial) in
  succeeded (outcome (Main.INIT_SDK sdk_ok w)) = true /\
  Main.INIT_SDK (mkSdk true true) (world (Main.INIT_SDK sdk_ok w)) =
    mkRun (inr (mkResponse true "SDK already initialized")) (world (Main.INIT_SDK sdk_ok w)) [].
Proof.
  cbv zeta. split; [reflexivity|].
  apply (init_sdk_once sdk_ok (mkSdk true true) (boot (config Store.initial))). reflexivity.
Defined.

(** X8. [GET_CONFIG] right after [SET_CONFIG] returns the configuration
    in which every key the update holds has replaced the field (also by
    [undefined]) and the other fields are as before, whether or not the
    re-initialisation that [SET_CONFIG] attempted succeeded; it changes
    and logs nothing. *)
Theorem get_config_after_set_config (sdk : RecallAiSdk) (p : PartialConfig) (w : World) :
  let old := config (recallSdkStore w) in
  let w1 := world (Main.SET_CONFIG sdk p w) in
  Main.GET_CONFIG w1 =
    mkRun (inr (mkResponseOf true "Configuration retrieved successfully"
                  (Some (mkConfigOf
                           match enabled_opt p with Present v => v | Absent => enabled old end
                           match apiUrl_opt p with Present v => v | Absent => apiUrl old end
                           match requestPermissionsOnStartup_opt p with
                           | Present v => v
                           | Absent => requestPermissionsOnStartup old
                           end))))
          w1 [].
Proof.
  cbv zeta. destruct (set_config_run sdk p w) as (Hc & _). cbv zeta in Hc.
  destruct (merge_fields (config (recallSdkStore w)) p) as (He & Ha & Hr).
  unfold Main.GET_CONFIG, Store.getConfig.
  cbv beta iota zeta delta [bind ret getWorld]. rewrite Hc, <- He, <- Ha, <- Hr.
  by destruct (Store.merge (config (recallSdkStore w)) p).
Qed.

(** ** store.ts *)

Lemma loadFromPreferences_run (p : PartialConfig) (w : World) :
  let s := recallSdkStore w in
  Store.loadFromPreferences p w =
    mkRun (inr tt)
          (with_store
             (mkStore
                (mkConfigOf
                   (match read (enabled_opt p) with Some v => Some v | None => enabled (config s) end)
                   (match read (apiUrl_opt p) with Some v => Some v | None => apiUrl (config s) end)
                   (match read (requestPermissionsOnStartup_opt p) with
                    | Some v => Some v
                    | None => requestPermissionsOnStartup (config s)
                    end))
                (initialized s) (sdkInitialized s)) w)
          [ConsoleLog "RecallSdkStore: Loaded configuration from preferences:"].
Proof.
  cbv zeta. unfold Store.loadFromPreferences.
  destruct w as [[[e0 a0 q0] i0 s0] m0 l0 cb0].
  destruct (read (enabled_opt p)), (read (apiUrl_opt p)),
    (read (requestPermissionsOnStartup_opt p)); js_run; reflexivity.
Qed.

Lemma setConfig_run (p : PartialConfig) (w : World) :
  let s := recallSdkStore w in
  Store.setConfig p w =
    mkRun (inr tt)
          (with_store (mkStore (Store.merge (config s) p) (initialized s) (sdkInitialized s)) w)
          [ConsoleLog "RecallSdkStore: Configuration updated:"].
Proof. cbv zeta. js_run. reflexivity. Qed.

(** X9. [loadFromPreferences] skips a key whose value is [undefined], where
    [setConfig] stores [undefined] in the field.  So the two leave the same
    world exactly up to such keys: loading [p] is setting [p] without its
    [undefined] keys.  Both return normally; each logs its one line, and
    neither calls the provider. *)
Theorem load_preferences_skips_undefined (p : PartialConfig) (w : World) :
  let old := config (recallSdkStore w) in
  let loaded := config (recallSdkStore (world (Store.loadFromPreferences p w))) in
  let set := config (recallSdkStore (world (Store.setConfig p w))) in
  (enabled loaded =
     match enabled_opt p with Present (Some v) => Some v | _ => enabled old end /\
   apiUrl loaded =
     match apiUrl_opt p with Present (Some v) => Some v | _ => apiUrl old end /\
   requestPermissionsOnStartup loaded =
     match requestPermissionsOnStartup_opt p with
     | Present (Some v) => Some v
     | _ => requestPermissionsOnStartup old
     end) /\
  (enabled set =
     match enabled_opt p with Present v => v | Absent => enabled old end /\
   apiUrl set =
     match apiUrl_opt p with Present v => v | Absent => apiUrl old end /\
   requestPermissionsOnStartup set =
     match requestPermissionsOnStartup_opt p with
     | Present v => v
     | Absent => requestPermissionsOnStartup old
     end) /\
  world (Store.loadFromPreferences p w) = world (Store.setConfig (withoutUndefined p) w) /\
  outcome (Store.loadFromPreferences p w) = inr tt /\
  outcome (Store.setConfig p w) = inr tt /\
  effects (Store.loadFromPreferences p w) =
    [ConsoleLog "RecallSdkStore: Loaded configuration from preferences:"] /\
  effects (Store.setConfig p w) = [ConsoleLog "RecallSdkStore: Configuration updated:"].
Proof.
  cbv zeta. rewrite loadFromPreferences_run, !setConfig_run.
  cbn [world outcome effects].
  destruct w as [[[e0 a0 q0] i0 s0] m0 l0 cb0].
  destruct p as [[|[e|]] [|[a|]] [|[q|]]];
    cbn [with_store recallSdkStore config enabled apiUrl requestPermissionsOnStartup
         initialized sdkInitialized read enabled_opt apiUrl_opt
         requestPermissionsOnStartup_opt withoutUndefined definedKey Store.merge Store.spread];
    repeat split; reflexivity.
Qed.

(** The difference at work, for the update [{ apiUrl: undefined }]. *)
Example set_config_stores_undefined :
  let p := mkPartialOf Absent (Present None) Absent in
  apiUrl (config (recallSdkStore (world (Store.setConfig p fresh_world)))) = None /\
  apiUrl (config (recallSdkStore (world (Store.loadFromPreferences p fresh_world)))) =
    Some (js "https://us-east-1.recall.ai").
Proof. split; reflexivity. Qed.

Lemma truthy_nonempty s : Main.truthy (Some s) = nonempty s.
Proof. by destruct s. Qed.

Lemma blank_cons u s : blank (u :: s) = isWhiteSpace u && blank s.
Proof. reflexivity. Qed.

Lemma blank_app s1 s2 : blank (s1 ++ s2) = blank s1 && blank s2.
Proof. apply forallb_app. Qed.

Lemma nonempty_trimStart s : nonempty (trimStart s) = negb (blank s).
Proof.
  induction s as [|u s IH]; [done|].
  rewrite blank_cons. cbn [trimStart].
  destruct (isWhiteSpace u); [exact IH|done].
Qed.

Lemma blank_trimStart s : blank (trimStart s) = blank s.
Proof.
  induction s as [|u s IH]; [done|].
  cbn [trimStart]. destruct (isWhiteSpace u) eqn:E; [|done].
  by rewrite IH, blank_cons, E.
Qed.

Lemma blank_reverse s : blank (reverse s) = blank s.
Proof.
  induction s as [|u s IH]; [done|].
  rewrite reverse_cons, blank_app, IH, blank_cons. cbn [blank forallb].
  rewrite andb_true_r. apply andb_comm.
Qed.

Lemma nonempty_reverse s : nonempty (reverse s) = nonempty s.
Proof.
  destruct s as [|u s]; [done|].
  rewrite reverse_cons. by destruct (reverse s).
Qed.

Lemma trim_truthy s : Main.truthy (Some (trim s)) = negb (blank s).
Proof.
  rewrite truthy_nonempty. unfold trim, trimEnd.
  rewrite nonempty_reverse, nonempty_trimStart, blank_reverse. by rewrite blank_trimStart.
Qed.

Lemma blank_trim s : blank (trim s) = blank s.
Proof.
  unfold trim, trimEnd.
  by rewrite blank_reverse, blank_trimStart, blank_reverse, blank_trimStart.
Qed.

(** What [trim] strips reaches beyond the white space below 256: an em
    space and an ideographic space go, a letter between them stays. *)
Example trim_strips_unicode_spaces :
  trim [8195; 12288]%N = [] /\ trim [8195; 97; 12288; 65279]%N = [97]%N.
Proof. split; reflexivity. Qed.

Lemma preferencesOf_apiUrl (input : PluginContext) :
  read (apiUrl_opt (preferencesOf input)) =
    match default [] (preferenceValues input) !! 1 with
    | Some (JsString v) => if blank v then None else Some v
    | _ => None
    end.
Proof.
  unfold preferencesOf. cbn [apiUrl_opt read].
  destruct (default [] (preferenceValues input) !! 1) as [[| |v|]|]; try done.
  cbn [default from_option id]. rewrite trim_truthy. by destruct (blank v).
Qed.

Lemma setPluginContext_run
    (input : PluginContext) (pluginContext : option PluginContext) (w : World) :
  setPluginContext input pluginContext w =
    mkRun (inr (Some input)) (world (Store.loadFromPreferences (preferencesOf input) w))
          [ConsoleLog "RecallSdkStore: Loaded configuration from preferences:"].
Proof.
  unfold setPluginContext. rewrite (bind_inr _ _ w tt) by by rewrite loadFromPreferences_run.
  rewrite loadFromPreferences_run. reflexivity.
Qed.

Lemma setPluginContext_hub
    (input : PluginContext) (pluginContext : option PluginContext) (w : World) :
  let r := setPluginContext input pluginContext w in
  hub_eq w (world r) /\
  sdkInitialized (recallSdkStore (world r)) = sdkInitialized (recallSdkStore w).
Proof.
  cbv zeta. rewrite setPluginContext_run, loadFromPreferences_run.
  cbn [world]. destruct w as [[c0 i0 s0] m0 l0 cb0]. by repeat split.
Qed.

(** X10. [setPluginContext] takes the endpoint from the second preference
    only if its value is a string that [trim] does not empty, that is, one
    that is not all white space (of any kind [trim] strips); it stores the
    string as it is, untrimmed.  Otherwise the endpoint stays.  So an
    endpoint that is a non-blank string never becomes blank or
    [undefined].  The context stored is the one [getPluginContext] returns
    afterwards, and neither the hub nor [sdkInitialized] changes.  At work
    in a fresh process: an em space alone is no endpoint, and an endpoint
    with a space before it is stored with the space. *)
Theorem plugin_context_endpoint :
  (forall (input : PluginContext) (pluginContext : option PluginContext) (w : World),
     let r := setPluginContext input pluginContext w in
     let old := apiUrl (config (recallSdkStore w)) in
     let new := apiUrl (config (recallSdkStore (world r))) in
     let isBlank (url : option JsStr) := match url with Some u => blank u | None => true end in
     new = match default [] (preferenceValues input) !! 1 with
           | Some (JsString v) => if blank v then old else Some v
           | _ => old
           end /\
     isBlank new && negb (isBlank old) = false /\
     match outcome r with
     | inr stored => getPluginContext stored = inr input
     | inl _ => False
     end /\
     hub_eq w (world r) /\
     sdkInitialized (recallSdkStore (world r)) = sdkInitialized (recallSdkStore w)) /\
  let endpointAfter (value : JsValue) :=
    apiUrl (config (recallSdkStore
              (world (setPluginContext (mkPluginContext (Some [JsBoolean true; value]))
                                       None fresh_world)))) in
  endpointAfter (JsString [8195%N]) = Some (js "https://us-east-1.recall.ai") /\
  endpointAfter (JsString (js " https://eu-central-1.recall.ai")) =
    Some (js " https://eu-central-1.recall.ai").
Proof.
  split; [|split; reflexivity].
  intros input pluginContext w.
  cbv zeta. destruct (setPluginContext_hub input pluginContext w) as [Hhub Hsdk].
  cbv zeta in Hhub, Hsdk.
  rewrite setPluginContext_run in *. rewrite loadFromPreferences_run in *.
  cbn [world outcome] in *. cbn [with_store recallSdkStore config apiUrl].
  rewrite preferencesOf_apiUrl.
  split; [|split; [|by repeat split]].
  - destruct (default [] (preferenceValues input) !! 1) as [[| |v|]|]; try done.
    by destruct (blank v).
  - destruct (default [] (preferenceValues input) !! 1) as [[| |v|]|];
      try (by destruct (apiUrl (config (recallSdkStore w))) as [u|]; [destruct (blank u)|]).
    destruct (blank v) eqn:Ev.
    + by destruct (apiUrl (config (recallSdkStore w))) as [u|]; [destruct (blank u)|].
    + by rewrite Ev.
Qed.

(** ** The main process's own initialisation *)

Lemma initialize_run w :
  let r := Main.initialize w in
  let m := recallDesktopMain w in
  let s := recallSdkStore w in
  let on := truthyBool (enabled (config s)) in
  let go := negb (isInitialized m) && on in
  outcome r = inr tt /\
  sdkListeners (world r) = sdkListeners w /\
  destroyedCallbacks (world r) = destroyedCallbacks w /\
  recallDesktopMain (world r) =
    mkMain (isInitialized m || on) (subscriptions m)
           (trackedWebContents m) (sdkEventHandlers m) /\
  recallSdkStore (world r) =
    mkStore (config s) (initialized s || go) (sdkInitialized s) /\
  effects r =
    if isInitialized m then []
    else if on
    then [ConsoleLog "RecallSdkStore: Initialized successfully";
          ConsoleLog "RecallDesktopMain: Main process initialized"]
    else [ConsoleLog "RecallDesktopMain: Plugin is disabled"].
Proof.
  cbv zeta. destruct w as [[cfg i0 s0] [mi ms mt mh] l0 cb0].
  unfold Main.initialize, Store.initialize.
  destruct mi; js_run; [by rewrite ?orb_false_r|].
  destruct (truthyBool (enabled cfg)); js_run; by rewrite ?orb_false_r, ?orb_true_r.
Qed.

(** X12. [initialize] is idempotent: a second call changes nothing.  The
    first call sets [isInitialized] exactly if the plugin is enabled (the
    [enabled] field is [true]); once it is set, a further call logs
    nothing, and while the plugin is disabled the call leaves the world as
    it was. *)
Theorem initialize_idempotent (w : World) :
  let w1 := world (Main.initialize w) in
  world (Main.initialize w1) = w1 /\
  outcome (Main.initialize w1) = inr tt /\
  isInitialized (recallDesktopMain w1) =
    isInitialized (recallDesktopMain w) || truthyBool (enabled (config (recallSdkStore w))) /\
  (if isInitialized (recallDesktopMain w1)
   then effects (Main.initialize w1) = []
   else w1 = w).
Proof.
  cbv zeta. destruct w as [[[en a q] i0 s0] [mi ms mt mh] l0 cb0].
  unfold Main.initialize, Store.initialize.
  destruct mi, en as [[|]|]; js_run; cbn [truthyBool from_option id negb]; js_run;
    repeat split; reflexivity.
Qed.

(** X11. The plugin's entry point, in a fresh process: it returns normally
    with the context stored; the plugin and its store count as initialised
    exactly if the first preference is not the boolean [false]; the
    provider is never called, no listener is registered with it, and
    [sdkInitialized] is false. *)
Theorem plugin_entry_gated_by_preference (context : PluginContext) :
  let r := pluginEntry context None fresh_world in
  let on :=
    match default [] (preferenceValues context) !! 0 with
    | Some (JsBoolean b) => b
    | _ => true
    end in
  outcome r = inr (Some context) /\
  isInitialized (recallDesktopMain (world r)) = on /\
  initialized (recallSdkStore (world r)) = on /\
  enabled (config (recallSdkStore (world r))) = Some on /\
  sdkInitialized (recallSdkStore (world r)) = false /\
  sdkCalls (effects r) = [] /\
  sdkListeners (world r) = [].
Proof.
  cbv zeta. unfold pluginEntry.
  rewrite (bind_inr _ _ fresh_world (Some context)) by by rewrite setPluginContext_run.
  rewrite setPluginContext_run. cbn [world effects outcome].
  rewrite loadFromPreferences_run. cbn [world].
  set (w0 := with_store _ fresh_world).
  assert (Hen : enabled (config (recallSdkStore w0)) =
                Some match default [] (preferenceValues context) !! 0 with
                     | Some (JsBoolean b) => b
                     | _ => true
                     end).
  { unfold w0, preferencesOf. cbn [with_store recallSdkStore config enabled enabled_opt read].
    by destruct (default [] (preferenceValues context) !! 0) as [[| | |]|]. }
  assert (Hi : initialized (recallSdkStore w0) = false) by reflexivity.
  assert (Hmi : isInitialized (recallDesktopMain w0) = false) by reflexivity.
  assert (Hs : sdkInitialized (recallSdkStore w0) = false) by reflexivity.
  assert (Hl : sdkListeners w0 = []) by reflexivity.
  destruct (initialize_run w0) as (Hio & Hil & Hic & Him & His & Hie). cbv zeta in *.
  assert (Htc : try_catch Main.initialize (fun _ => ret tt) w0 = Main.initialize w0).
  { unfold try_catch. destruct (Main.initialize w0) as [o w' tr]. cbn in Hio. by subst. }
  rewrite (bind_inr (try_catch _ _) _ w0 tt) by (by rewrite Htc).
  rewrite Htc. cbn [outcome world effects ret].
  rewrite Him, His, Hil, Hmi, Hi, Hs, Hl, Hen.
  cbn [isInitialized initialized config enabled sdkInitialized negb orb andb
       truthyBool from_option id].
  repeat split; try done.
  rewrite app_nil_r. change (sdkCalls (?a :: ?l)) with (sdkCalls l).
  rewrite Hie, Hmi, Hen. cbn [truthyBool from_option id].
  by destruct (match default [] (preferenceValues context) !! 0 with
               | Some (JsBoolean b) => b
               | _ => true
               end).
Qed.

(** ** The forwarding handlers *)

Lemma emitSdkEvent_store t evt w :
  Inv w ->
  config (recallSdkStore (world (emitSdkEvent t evt w))) = config (recallSdkStore w) /\
  sdkInitialized (recallSdkStore (world (emitSdkEvent t evt w))) =
    sdkInitialized (recallSdkStore w) &&
    negb (bool_decide (is_Some (sdkEventHandlers (recallDesktopMain w) !! shutdown_event)) &&
          bool_decide (t = shutdown_event)).
Proof.
  intros HI. unfold emitSdkEvent.
  rewrite (bind_inr getWorld _ w w eq_refl). cbn [getWorld outcome world effects app].
  rewrite (inv_listeners _ HI).
  destruct (sdkEventHandlers (recallDesktopMain w) !! t) as [h|] eqn:Eh.
  - cbn [forEach]. change (callHandler evt (t, ForwardTo t)) with (Main.handleSdkEvent t evt).
    rewrite discard_world. unfold Main.handleSdkEvent.
    destruct (handleSdkEventWith_run Main.eventSideEffects t evt w) as [_ H].
    destruct (decide (t = shutdown_event)) as [->|Hne].
    + cbn in H. destruct H as [-> _].
      destruct (clearState_run w) as (_ & _ & Hf & Hc & _).
      split; [exact Hc|].
      rewrite Eh, bool_decide_eq_true_2 by done.
      rewrite (bool_decide_eq_true_2 (shutdown_event = shutdown_event)) by done.
      rewrite andb_false_r. exact Hf.
    + rewrite (bool_decide_eq_false_2 (t = shutdown_event)) by done.
      rewrite andb_false_r, andb_true_r.
      destruct (Main.eventSideEffects t) eqn:Ef.
      * destruct t; try discriminate Ef. done.
      * by destruct H as [-> _].
  - cbn [forEach ret world]. split; [done|].
    destruct (decide (t = shutdown_event)) as [->|Hne].
    + rewrite Eh. rewrite bool_decide_eq_false_2 by (by intros [? ?]).
      by rewrite andb_true_r.
    + rewrite (bool_decide_eq_false_2 (t = shutdown_event)) by done.
      by rewrite andb_false_r, andb_true_r.
Qed.

Lemma start_recording_run (answers : SdkAnswers) (request : StartRecordingRequest) (w : World) :
  let call := SdkStartRecording (start_windowId request) (start_uploadToken request) in
  let r := Pass.START_RECORDING answers request w in
  Pass.requests r.2 = (if sdkInitialized (recallSdkStore w) then [call] else []) /\
  r.1 = inr (if negb (sdkInitialized (recallSdkStore w))
             then mkResponse false "SDK not initialized"
             else if rejects answers call
             then mkResponse false "Failed to start recording"
             else mkResponse true "Recording started successfully").
Proof.
  cbv zeta. unfold Pass.START_RECORDING, Pass.ptry_catch, Pass.pbind, Pass.isSdkInitialized,
    Pass.pthrow, Pass.pret, Pass.call, Pass.pconsole_error.
  destruct (sdkInitialized (recallSdkStore w)); cbn [negb fst snd app]; [|done].
  destruct (rejects answers _); done.
Qed.

Lemma shutdown_sdk_flag sdk w :
  sdkInitialized (recallSdkStore (world (Main.SHUTDOWN_SDK sdk w))) =
    if shutdown_rejects sdk then sdkInitialized (recallSdkStore w) else false.
Proof.
  unfold Main.SHUTDOWN_SDK, RecallAiSdk_shutdown.
  destruct (shutdown_rejects sdk); js_run; reflexivity.
Qed.

Lemma shutdown_event_flag evt w :
  sdkInitialized (recallSdkStore (world (Main.handleSdkEvent shutdown_event evt w))) = false.
Proof.
  unfold Main.handleSdkEvent.
  destruct (handleSdkEventWith_run Main.eventSideEffects shutdown_event evt w) as [_ H].
  cbn in H. destruct H as [-> _]. apply clearState_run.
Qed.

Lemma start_recording_flag (answers : SdkAnswers) (request : StartRecordingRequest) (w1 w2 : World) :
  sdkInitialized (recallSdkStore w1) = sdkInitialized (recallSdkStore w2) ->
  Pass.START_RECORDING answers request w1 = Pass.START_RECORDING answers request w2.
Proof.
  intros H. unfold Pass.START_RECORDING, Pass.ptry_catch, Pass.pbind,
    Pass.isSdkInitialized, Pass.pthrow, Pass.pret, Pass.call, Pass.pconsole_error.
  rewrite H. by destruct (sdkInitialized (recallSdkStore w2)).
Qed.

(** X13. [START_RECORDING] follows the lifecycle: right after an
    [INIT_SDK] that answered [success: true] it makes exactly one
    [startRecording] request of the provider; right after a [SHUTDOWN_SDK]
    the provider accepted it answers "SDK not initialized" and asks the
    provider nothing.  After any history, it does the same right after a
    [shutdown] event of the provider if some consumer has asked for that
    event type before; if none has, the event reaches no handler and
    [START_RECORDING] behaves as it did before the event. *)
Theorem start_recording_follows_lifecycle
    (sdk : RecallAiSdk) (answers : SdkAnswers) (request : StartRecordingRequest)
    (evt : Payload) (w : World) (c : RecallSdkConfig) (ops : list Op) :
  let call := SdkStartRecording (start_windowId request) (start_uploadToken request) in
  let start := Pass.START_RECORDING answers request in
  let refused (r : (Thrown + ApiResponse) * list PassEffect) :=
    r = (inr (mkResponse false "SDK not initialized"),
         [Logged "RecallDesktopMain: Start recording failed:"]) in
  (succeeded (outcome (Main.INIT_SDK sdk w)) = true ->
   Pass.requests (start (world (Main.INIT_SDK sdk w))).2 = [call]) /\
  (shutdown_rejects sdk = false -> refused (start (world (Main.SHUTDOWN_SDK sdk w)))) /\
  (let w' := run ops (boot c) in
   if everSubscribed shutdown_event ops
   then refused (start (world (emitSdkEvent shutdown_event evt w')))
   else start (world (emitSdkEvent shutdown_event evt w')) = start w').
Proof.
  cbv zeta.
  assert (Hrefused : forall w0, sdkInitialized (recallSdkStore w0) = false ->
            Pass.START_RECORDING answers request w0 =
              (inr (mkResponse false "SDK not initialized"),
               [Logged "RecallDesktopMain: Start recording failed:"])).
  { intros w0 H0. unfold Pass.START_RECORDING, Pass.ptry_catch, Pass.pbind,
      Pass.isSdkInitialized, Pass.pthrow, Pass.pret, Pass.call, Pass.pconsole_error.
    rewrite H0. reflexivity. }
  split; [|split].
  - intros Hok. destruct (init_sdk_succeeded sdk w Hok) as [_ Hi].
    destruct (start_recording_run answers request (world (Main.INIT_SDK sdk w))) as [Hr _].
    cbv zeta in Hr. by rewrite Hi in Hr.
  - intros Hs. apply Hrefused. by rewrite shutdown_sdk_flag, Hs.
  - assert (HI : Inv (run ops (boot c))) by apply Inv_run, Inv_boot.
    destruct (emitSdkEvent_store shutdown_event evt _ HI) as [_ Hf].
    pose proof (handlers_run ops shutdown_event (boot c) (Inv_boot c)) as Hh.
    rewrite (bool_decide_eq_true_2 (shutdown_event = shutdown_event)) in Hf by done.
    rewrite andb_true_r in Hf.
    destruct (everSubscribed shutdown_event ops) eqn:Ev.
    + apply Hrefused. rewrite Hf, bool_decide_eq_true_2; [by rewrite andb_false_r|].
      apply Hh. by right.
    + apply start_recording_flag. rewrite Hf, bool_decide_eq_false_2; [by rewrite andb_true_r|].
      intros Hs. apply Hh in Hs as [Hs|?]; [|done].
      unfold boot in Hs. cbn in Hs. rewrite lookup_empty in Hs. by destruct Hs.
Qed.

Lemma start_recording_follows_lifecycle_witness :
  let w := boot (config Store.initial) in
  let answers := mkSdkAnswers (fun _ => false) "w" in
  let request := mkStartRecordingRequest "window-1" "token" in
  let heard := run [Subscribe (mkWebContents 1 false) shutdown_event; InitSdk sdk_ok]
                   (boot (config Store.initial)) in
  succeeded (outcome (Main.INIT_SDK sdk_ok w)) = true /\
  shutdown_rejects sdk_ok = false /\
  Pass.requests (Pass.START_RECORDING answers request (world (Main.INIT_SDK sdk_ok w))).2 =
    [SdkStartRecording "window-1" "token"] /\
  Pass.START_RECORDING answers request (world (Main.SHUTDOWN_SDK sdk_ok w)) =
    (inr (mkResponse false "SDK not initialized"),
     [Logged "RecallDesktopMain: Start recording failed:"]) /\
  Pass.requests (Pass.START_RECORDING answers request heard).2 =
    [SdkStartRecording "window-1" "token"] /\
  Pass.START_RECORDING answers request (world (emitSdkEvent shutdown_event "bye" heard)) =
    (inr (mkResponse false "SDK not initialized"),
     [Logged "RecallDesktopMain: Start recording failed:"]).
Proof.
  cbv zeta.
  pose proof (start_recording_follows_lifecycle sdk_ok (mkSdkAnswers (fun _ => false) "w")
                (mkStartRecordingRequest "window-1" "token") "bye"
                (boot (config Store.initial)) (config Store.initial)
                [Subscribe (mkWebContents 1 false) shutdown_event; InitSdk sdk_ok]) as H.
  cbv zeta in H. destruct H as (H1 & H2 & H3).
  split; [reflexivity|]. split; [reflexivity|].
  split; [exact (H1 eq_refl)|]. split; [exact (H2 eq_refl)|].
  split; [reflexivity|exact H3].
Defined.

(** X14. The other forwarding handlers never look at the lifecycle state:
    in any two worlds (initialised or not) each of them behaves the same
    and makes exactly one request of the provider. *)
Theorem forwarding_handlers_ignore_sdk_state (sdk : SdkAnswers) (windowId : string)
    (permission : PermissionType) (w w' : World) :
  (Pass.STOP_RECORDING sdk windowId w = Pass.STOP_RECORDING sdk windowId w' /\
   Pass.requests (Pass.STOP_RECORDING sdk windowId w).2 = [SdkStopRecording windowId]) /\
  (Pass.PAUSE_RECORDING sdk windowId w = Pass.PAUSE_RECORDING sdk windowId w' /\
   Pass.requests (Pass.PAUSE_RECORDING sdk windowId w).2 = [SdkPauseRecording windowId]) /\
  (Pass.RESUME_RECORDING sdk windowId w = Pass.RESUME_RECORDING sdk windowId w' /\
   Pass.requests (Pass.RESUME_RECORDING sdk windowId w).2 = [SdkResumeRecording windowId]) /\
  (Pass.UPLOAD_RECORDING sdk windowId w = Pass.UPLOAD_RECORDING sdk windowId w' /\
   Pass.requests (Pass.UPLOAD_RECORDING sdk windowId w).2 = [SdkUploadRecording windowId]) /\
  (Pass.PREPARE_DESKTOP_AUDIO sdk w = Pass.PREPARE_DESKTOP_AUDIO sdk w' /\
   Pass.requests (Pass.PREPARE_DESKTOP_AUDIO sdk w).2 = [SdkPrepareDesktopAudioRecording]) /\
  (Pass.REQUEST_PERMISSION sdk permission w = Pass.REQUEST_PERMISSION sdk permission w' /\
   Pass.requests (Pass.REQUEST_PERMISSION sdk permission w).2 = [SdkRequestPermission permission]).
Proof.
  unfold Pass.STOP_RECORDING, Pass.PAUSE_RECORDING, Pass.RESUME_RECORDING,
    Pass.UPLOAD_RECORDING, Pass.PREPARE_DESKTOP_AUDIO, Pass.REQUEST_PERMISSION,
    Pass.ptry_catch, Pass.pbind, Pass.pthrow, Pass.pret, Pass.call, Pass.callPrepare,
    Pass.pconsole_error.
  repeat split; try reflexivity.
  - by destruct (rejects sdk (SdkStopRecording windowId)).
  - by destruct (rejects sdk (SdkPauseRecording windowId)).
  - by destruct (rejects sdk (SdkResumeRecording windowId)).
  - by destruct (rejects sdk (SdkUploadRecording windowId)).
  - by destruct (rejects sdk SdkPrepareDesktopAudioRecording).
  - by destruct (rejects sdk (SdkRequestPermission permission)).
Qed.

(** ** What a status request reports *)



(** The plugin's entry point under the default preferences ends in the
    world the histories start from. *)
Lemma boot_is_entry :
  world (pluginEntry (mkPluginContext None) None fresh_world) = boot (config Store.initial).
Proof. reflexivity. Qed.

(** ** Renderer listeners *)

Lemma eventTypeName_inj t1 t2 : eventTypeName t1 = eventTypeName t2 -> t1 = t2.
Proof. destruct t1, t2; intros H; (reflexivity || discriminate H). Qed.

Lemma channelOf_inj t1 t2 : Preload.channelOf t1 = Preload.channelOf t2 -> t1 = t2.
Proof.
  unfold Preload.channelOf. intros H. apply eventTypeName_inj.
  by eapply (String.app_inj "recall-desktop:event:").
Qed.

Lemma removeFirst_NoDup (x : string * Listener) l :
  NoDup l -> Preload.removeFirst x l = filter (fun y => y <> x) l.
Proof.
  induction l as [|y l IH]; [done|].
  rewrite NoDup_cons. intros [Hy Hl]. cbn [Preload.removeFirst].
  destruct (decide (x = y)) as [<-|Hne].
  - rewrite filter_cons_False by naive_solver.
    symmetry. clear IH Hl. induction l as [|z l IH]; [done|].
    apply not_elem_of_cons in Hy as [Hz Hl].
    rewrite filter_cons_True by congruence. by rewrite IH.
  - rewrite filter_cons_True by congruence. by rewrite IH.
Qed.

Lemma removeListener_NoDup channel listener l :
  NoDup l ->
  Preload.removeListener channel listener l = filter (fun y => y <> (channel, listener)) l.
Proof.
  intros Hnd. unfold Preload.removeListener.
  rewrite removeFirst_NoDup by (by rewrite reverse_Permutation).
  by rewrite filter_reverse, reverse_involutive.
Qed.

Lemma filter_id_absent (alive : list (nat * RecallSdkEventType * nat)) k :
  k ∉ idOf <$> alive -> filter (fun x => x.1.1 <> k) alive = alive.
Proof.
  induction alive as [|x alive IH]; [done|].
  rewrite fmap_cons, not_elem_of_cons. intros [Hx Hin].
  rewrite filter_cons_True by (cbn; congruence). by rewrite IH.
Qed.

Lemma registered_absent (alive : list (nat * RecallSdkEventType * nat)) k t cb :
  k ∉ idOf <$> alive ->
  filter (fun y => y <> asRegistered (k, t, cb)) (asRegistered <$> alive) = asRegistered <$> alive.
Proof.
  induction alive as [|x alive IH]; [done|].
  rewrite !fmap_cons, not_elem_of_cons. intros [Hx Hin].
  rewrite filter_cons_True; [by rewrite IH|].
  intros [= _ Hid _]. cbn in Hx. congruence.
Qed.

Lemma elem_of_ids (alive : list (nat * RecallSdkEventType * nat)) x :
  x ∈ alive -> x.1.1 ∈ idOf <$> alive.
Proof. intros H. apply list_elem_of_fmap. by exists x. Qed.

Lemma registered_remove (alive : list (nat * RecallSdkEventType * nat)) k t cb :
  NoDup (idOf <$> alive) -> (k, t, cb) ∈ alive ->
  filter (fun y => y <> asRegistered (k, t, cb)) (asRegistered <$> alive) =
    asRegistered <$> filter (fun x => x.1.1 <> k) alive.
Proof.
  induction alive as [|x alive IH]; [by intros _ ?%elem_of_nil|].
  rewrite !fmap_cons, NoDup_cons, elem_of_cons. intros [Hx Hnd] Hin.
  destruct (decide (x.1.1 = k)) as [Hk|Hk].
  - assert (x = (k, t, cb)) as ->.
    { destruct Hin as [<-|Hin]; [done|]. exfalso. apply Hx.
      rewrite Hk. by apply (elem_of_ids alive (k, t, cb)). }
    rewrite filter_cons_False by naive_solver.
    rewrite (filter_cons_False _ (k, t, cb)) by naive_solver.
    rewrite registered_absent by done. by rewrite filter_id_absent.
  - destruct Hin as [Heq|Hin]; [by subst x|].
    rewrite filter_cons_True.
    2: { intros [= _ Hid _]. done. }
    rewrite (filter_cons_True _ x) by done.
    rewrite fmap_cons. f_equal. by apply IH.
Qed.

Lemma NoDup_registered (alive : list (nat * RecallSdkEventType * nat)) :
  NoDup (idOf <$> alive) -> NoDup (asRegistered <$> alive).
Proof.
  intros H. apply (NoDup_fmap_1 (fun y : string * Listener => listener_id y.2)).
  by rewrite <- list_fmap_compose.
Qed.

Lemma liveCallbacks_app K alive1 alive2 :
  liveCallbacks K (alive1 ++ alive2) = liveCallbacks K alive1 ++ liveCallbacks K alive2.
Proof. apply omap_app. Qed.

Lemma liveCallbacks_elem K (alive : list (nat * RecallSdkEventType * nat)) k cb :
  (k, K, cb) ∈ alive -> 0 < length (liveCallbacks K alive).
Proof.
  induction alive as [|x alive IH]; [by intros ?%elem_of_nil|].
  rewrite elem_of_cons. unfold liveCallbacks. cbn [omap list_omap].
  intros [<-|Hin].
  - cbn. rewrite decide_True by done. cbn. lia.
  - specialize (IH Hin). unfold liveCallbacks in IH. destruct (decide _); cbn; lia.
Qed.

Lemma liveCallbacks_remove K (alive : list (nat * RecallSdkEventType * nat)) k t cb :
  NoDup (idOf <$> alive) -> (k, t, cb) ∈ alive ->
  length (liveCallbacks K (filter (fun x => x.1.1 <> k) alive)) =
    if decide (t = K) then pred (length (liveCallbacks K alive))
    else length (liveCallbacks K alive).
Proof.
  induction alive as [|x alive IH]; [by intros _ ?%elem_of_nil|].
  rewrite fmap_cons, NoDup_cons, elem_of_cons. intros [Hx Hnd] Hin.
  destruct (decide (x.1.1 = k)) as [Hk|Hk].
  - assert (x = (k, t, cb)) as ->.
    { destruct Hin as [<-|Hin]; [done|]. exfalso. apply Hx.
      rewrite Hk. by apply (elem_of_ids alive (k, t, cb)). }
    rewrite filter_cons_False by naive_solver.
    rewrite filter_id_absent by done.
    unfold liveCallbacks. cbn [omap list_omap]. cbn [fst snd].
    destruct (decide (t = K)); done.
  - destruct Hin as [Heq|Hin]; [by subst x|].
    rewrite filter_cons_True by done.
    specialize (IH Hnd Hin). unfold liveCallbacks in *. cbn [omap list_omap].
    destruct (decide (x.1.2 = K)); cbn [length]; [|done].
    rewrite IH. destruct (decide (t = K)) as [->|]; [|done].
    pose proof (liveCallbacks_elem K alive k cb Hin) as Hpos.
    unfold liveCallbacks in Hpos. lia.
Qed.

Lemma refcount_after_subscribe K self t w :
  Inv w ->
  refcount K (wc_id self) (world (Main.SUBSCRIBE_EVENTS self t w)) =
    if decide (t = K) then S (refcount K (wc_id self) w) else refcount K (wc_id self) w.
Proof.
  intros HI. pose proof (refcount_exec K (wc_id self) (Subscribe self t) w HI) as H.
  unfold exec in H. cbn [step netCount] in H. rewrite discard_world in H. rewrite H.
  destruct (decide (t = K)).
  - by rewrite decide_True.
  - rewrite decide_False; [done|]. by intros [_ ?].
Qed.

Lemma refcount_after_unsubscribe K self t w :
  Inv w ->
  refcount K (wc_id self) (world (Main.UNSUBSCRIBE_EVENTS self t w)) =
    if decide (t = K) then pred (refcount K (wc_id self) w) else refcount K (wc_id self) w.
Proof.
  intros HI. pose proof (refcount_exec K (wc_id self) (Unsubscribe self t) w HI) as H.
  unfold exec in H. cbn [step netCount] in H. rewrite discard_world in H. rewrite H.
  destruct (decide (t = K)).
  - by rewrite decide_True.
  - rewrite decide_False; [done|]. by intros [_ ?].
Qed.

Lemma PageInv_add self p n alive called t cb :
  PageInv self p n alive called ->
  (forall k, k ∈ called -> k < n) ->
  PageInv self (pageStep self (PageAddEventListener t cb) p) (S n) (alive ++ [(n, t, cb)]) called.
Proof.
  intros [HI Hb Hlen Hret Hal Hreg Hids Hnd Hcnt] Hcalled.
  unfold pageStep, Preload.addEventListener.
  cbn [deliverInvokes fold_left handleInvoke page_world page_renderer page_returned].
  split; cbn [page_world page_renderer page_returned registered built].
  - by apply Inv_subscribe.
  - by rewrite Hb.
  - rewrite length_app, Hlen. cbn. lia.
  - intros k u. rewrite lookup_app. destruct (page_returned p !! k) eqn:E.
    + intros [= <-]. by eapply Hret.
    + rewrite Hlen, Hb. destruct (k - n) as [|j] eqn:Ek; cbn; [|done].
      intros [= <-]. cbn. split; [|done].
      apply lookup_ge_None in E. lia.
  - intros k u. rewrite lookup_app, elem_of_app. destruct (page_returned p !! k) eqn:E.
    + intros [= <-] Hk. left. by eapply Hal.
    + rewrite Hlen, Hb. destruct (k - n) as [|j] eqn:Ek; cbn; [|done].
      intros [= <-] _. right. cbn. apply list_elem_of_singleton.
      apply lookup_ge_None in E. repeat f_equal. lia.
  - rewrite Hreg, Hb, fmap_app. done.
  - intros x. rewrite elem_of_app, list_elem_of_singleton. intros [Hx| ->].
    + destruct (Hids x Hx). split; [lia|done].
    + cbn. split; [lia|]. intros Hc. apply Hcalled in Hc. lia.
  - rewrite fmap_app. apply NoDup_app. split; [done|]. split; [|apply NoDup_singleton].
    intros k Hk ->%list_elem_of_singleton.
    apply list_elem_of_fmap in Hk as (x & Hx1 & Hx2). destruct (Hids x Hx2). cbn in Hx1. lia.
  - intros K. rewrite refcount_after_subscribe by done. rewrite Hcnt, liveCallbacks_app, length_app.
    assert (Hone : length (liveCallbacks K [(n, t, cb)]) = if decide (t = K) then 1 else 0).
    { unfold liveCallbacks. cbn [omap list_omap fst snd]. by destruct (decide (t = K)). }
    rewrite Hone. destruct (decide (t = K)); lia.
Qed.

Lemma PageInv_unsubscribe self p n alive called k :
  PageInv self p n alive called ->
  k < n -> k ∉ called ->
  PageInv self (pageStep self (PageUnsubscribe k) p) n
          (filter (fun x => x.1.1 <> k) alive) (k :: called).
Proof.
  intros [HI Hb Hlen Hret Hal Hreg Hids Hnd Hcnt] Hk Hnc.
  unfold pageStep.
  destruct (page_returned p !! k) as [u|] eqn:Eu.
  2: { apply lookup_ge_None in Eu. lia. }
  destruct (Hret k u Eu) as [Hid Hch].
  pose proof (Hal k u Eu Hnc) as Hin.
  unfold Preload.unsubscribe.
  cbn [deliverInvokes fold_left handleInvoke page_world page_renderer page_returned].
  split; cbn [page_world page_renderer page_returned registered built].
  - by apply Inv_unsubscribe.
  - done.
  - done.
  - done.
  - intros k' u' Hu' Hk'. apply not_elem_of_cons in Hk' as [Hne Hk'].
    apply list_elem_of_filter. split; [cbn; congruence|]. by eapply Hal.
  - rewrite Hreg. rewrite removeListener_NoDup by (by apply NoDup_registered).
    assert (Hu : (un_channel u, un_listener u) =
                 asRegistered (k, un_eventType u, listener_callback (un_listener u))).
    { unfold asRegistered. cbn. rewrite Hch. destruct (un_listener u). cbn in *. by subst. }
    rewrite Hu. by apply registered_remove.
  - intros x [Hx1 Hx2]%list_elem_of_filter. destruct (Hids x Hx2).
    split; [done|]. apply not_elem_of_cons. done.
  - eapply sublist_NoDup; [exact Hnd|apply fmap_sublist, sublist_filter].
  - intros K. rewrite refcount_after_unsubscribe by done. rewrite Hcnt.
    by rewrite (liveCallbacks_remove K alive k _ _ Hnd Hin).
Qed.

Lemma PageInv_run self ops : forall p n alive called,
  PageInv self p n alive called ->
  (forall k, k ∈ called -> k < n) ->
  scriptOk n called ops = true ->
  PageInv self (pageRun self ops p) (addsAfter n ops) (liveAfter n alive ops) (calledAfter called ops).
Proof.
  induction ops as [|op ops IH]; intros p n alive called HP Hc Hok; [done|].
  destruct op as [t cb|k]; cbn [scriptOk] in Hok;
    cbn [pageRun fold_left addsAfter liveAfter calledAfter].
  - apply IH; [by apply PageInv_add| |done].
    intros k Hk. apply Hc in Hk. lia.
  - apply andb_true_iff in Hok as [[Hk Hnc%bool_decide_eq_true]%andb_true_iff Hok].
    apply bool_decide_eq_true in Hk.
    apply IH; [by apply PageInv_unsubscribe| |done].
    intros k' [->|Hk']%elem_of_cons; [done|by apply Hc].
Qed.

Lemma PageInv_loaded self c pre :
  forallb (fun op => negb (isSubscribeFrom (wc_id self) op)) pre = true ->
  PageInv self (loadedPage (run pre (boot c))) 0 [] [].
Proof.
  intros Hpre. split; cbn [loadedPage page_world page_renderer page_returned registered built].
  - apply Inv_run, Inv_boot.
  - done.
  - done.
  - intros k u. by rewrite lookup_nil.
  - intros k u. by rewrite lookup_nil.
  - done.
  - by intros x ?%elem_of_nil.
  - apply NoDup_nil_2.
  - intros K. rewrite refcount_run by apply Inv_boot.
    assert (refcount K (wc_id self) (boot c) = 0) as -> by done.
    by rewrite netCount_without_subscribe.
Qed.

Lemma receive_registered K d (alive : list (nat * RecallSdkEventType * nat)) r :
  registered r = asRegistered <$> alive ->
  Preload.receive (Main.channelOf K) d r = (fun cb => (cb, d)) <$> liveCallbacks K alive.
Proof.
  intros Hr. unfold Preload.receive. rewrite Hr. clear Hr.
  induction alive as [|x alive IH]; [done|].
  rewrite fmap_cons. unfold liveCallbacks. cbn [omap list_omap].
  fold (omap (fun entry : string * Listener =>
          if decide (entry.1 = Main.channelOf K)
          then Some (listener_callback entry.2, d) else None) (asRegistered <$> alive)).
  rewrite IH. unfold liveCallbacks.
  destruct x as [[i t] cb]. cbn [asRegistered fst snd listener_callback].
  destruct (decide (t = K)) as [->|Hne].
  - rewrite decide_True by done. done.
  - rewrite decide_False; [done|]. intros H. by apply channelOf_inj in H.
Qed.

Lemma pageReceives_emit self K d p n alive called :
  PageInv self p n alive called ->
  pageReceives self (effects (emitSdkEvent K d (page_world p))) (page_renderer p) =
    if wc_send_throws self then []
    else if decide (0 < refcount K (wc_id self) (page_world p))
         then (fun cb => (cb, d)) <$> liveCallbacks K alive
         else [].
Proof.
  intros HP. unfold pageReceives. destruct (wc_send_throws self); [done|].
  rewrite emitSdkEvent_sendsTo by apply HP.
  destruct (decide (0 < refcount K (wc_id self) (page_world p))); [|done].
  cbn [mbind list_bind]. rewrite app_nil_r.
  apply receive_registered, HP.
Qed.

(** X16. End to end, for a page whose consumer had no subscription when it
    loaded and whose script never calls a returned unsubscribe function
    twice: the hub's count for the page equals the number of its live
    listeners for the event type, and when the provider emits the event
    every live callback is called exactly once with the payload, in
    registration order, and no other callback is called (none at all if
    [send] throws on the page). *)
Theorem page_callbacks_called_once
    (c : RecallSdkConfig) (pre : list Op) (self : WebContents) (ops : list PageOp)
    (K : RecallSdkEventType) (d : Payload) :
  forallb (fun op => negb (isSubscribeFrom (wc_id self) op)) pre = true ->
  scriptOk 0 [] ops = true ->
  let p := pageRun self ops (loadedPage (run pre (boot c))) in
  refcount K (wc_id self) (page_world p) = length (liveCallbacks K (liveAfter 0 [] ops)) /\
  pageReceives self (effects (emitSdkEvent K d (page_world p))) (page_renderer p) =
    if wc_send_throws self then []
    else (fun cb => (cb, d)) <$> liveCallbacks K (liveAfter 0 [] ops).
Proof.
  intros Hpre Hok p.
  assert (HP : PageInv self p (addsAfter 0 ops) (liveAfter 0 [] ops) (calledAfter [] ops)).
  { apply PageInv_run; [by apply PageInv_loaded|by intros k ?%elem_of_nil|done]. }
  split; [apply HP|].
  rewrite (pageReceives_emit _ _ _ _ _ _ _ HP).
  destruct (wc_send_throws self); [done|].
  rewrite (pi_count _ _ _ _ _ HP).
  destruct (decide _) as [|Hz]; [done|].
  destruct (liveCallbacks K (liveAfter 0 [] ops)); [done|]. cbn in Hz. lia.
Qed.

Lemma page_callbacks_called_once_witness :
  let self := mkWebContents 7 false in
  let ops := [PageAddEventListener error_event 1; PageAddEventListener error_event 2;
              PageUnsubscribe 0] in
  let p := pageRun self ops (loadedPage (run [] (boot (config Store.initial)))) in
  refcount error_event 7 (page_world p) = 1 /\
  pageReceives self (effects (emitSdkEvent error_event "boom" (page_world p))) (page_renderer p) =
    [(2, "boom")].
Proof.
  exact (page_callbacks_called_once (config Store.initial) [] (mkWebContents 7 false)
           [PageAddEventListener error_event 1; PageAddEventListener error_event 2;
            PageUnsubscribe 0] error_event "boom" eq_refl eq_refl).
Defined.

Lemma removeFirst_absent (x : string * Listener) l :
  x ∉ l -> Preload.removeFirst x l = l.
Proof.
  induction l as [|y l IH]; [done|].
  intros [Hne Hl]%not_elem_of_cons. cbn [Preload.removeFirst].
  rewrite decide_False by done. by rewrite IH.
Qed.

Lemma removeListener_absent channel listener l :
  (channel, listener) ∉ l -> Preload.removeListener channel listener l = l.
Proof.
  intros H. unfold Preload.removeListener.
  rewrite removeFirst_absent; [by rewrite reverse_involutive|].
  by rewrite elem_of_reverse.
Qed.

(** X17. Calling a returned unsubscribe function a second time removes no
    listener in the renderer, yet takes one off the hub's count for its
    event type.  So if exactly one listener for that event type is still
    live, it stops receiving the event; with more than one, all of them
    still receive it. *)
Theorem stale_unsubscribe_silences_live_listener
    (c : RecallSdkConfig) (pre : list Op) (self : WebContents) (ops : list PageOp)
    (k : nat) (u : Unsubscriber) (d : Payload) :
  forallb (fun op => negb (isSubscribeFrom (wc_id self) op)) pre = true ->
  scriptOk 0 [] ops = true ->
  let p := pageRun self ops (loadedPage (run pre (boot c))) in
  let K := un_eventType u in
  let live := liveCallbacks K (liveAfter 0 [] ops) in
  page_returned p !! k = Some u ->
  k ∈ calledAfter [] ops ->
  let p' := pageStep self (PageUnsubscribe k) p in
  page_renderer p' = page_renderer p /\
  refcount K (wc_id self) (page_world p') = pred (length live) /\
  pageReceives self (effects (emitSdkEvent K d (page_world p'))) (page_renderer p') =
    if wc_send_throws self then []
    else if decide (length live = 1) then []
    else (fun cb => (cb, d)) <$> live.
Proof.
  intros Hpre Hok p K live Hu Hk p'.
  assert (HP : PageInv self p (addsAfter 0 ops) (liveAfter 0 [] ops) (calledAfter [] ops)).
  { apply PageInv_run; [by apply PageInv_loaded|by intros ? ?%elem_of_nil|done]. }
  destruct (pi_returned _ _ _ _ _ HP k u Hu) as [Hid Hch].
  assert (Hren : page_renderer p' = page_renderer p).
  { unfold p', pageStep. rewrite Hu. unfold Preload.unsubscribe.
    cbn [page_renderer]. rewrite removeListener_absent.
    - by destruct (page_renderer p).
    - rewrite (pi_registered _ _ _ _ _ HP). intros Hin.
      apply list_elem_of_fmap in Hin as (x & Hx & Hxin).
      destruct (pi_ids _ _ _ _ _ HP x Hxin) as [_ Hnc]. apply Hnc.
      unfold asRegistered in Hx. injection Hx as _ Hl.
      rewrite Hl in Hid. cbn in Hid. by rewrite Hid. }
  assert (Hw : page_world p' = world (Main.UNSUBSCRIBE_EVENTS self K (page_world p))).
  { unfold p', pageStep. rewrite Hu. done. }
  assert (Hcnt : refcount K (wc_id self) (page_world p') = pred (length live)).
  { rewrite Hw, refcount_after_unsubscribe by apply HP.
    rewrite decide_True by done. by rewrite (pi_count _ _ _ _ _ HP). }
  split; [done|]. split; [done|].
  unfold pageReceives. destruct (wc_send_throws self); [done|].
  rewrite emitSdkEvent_sendsTo.
  2: { rewrite Hw. apply Inv_unsubscribe, HP. }
  rewrite Hcnt. destruct (decide (length live = 1)) as [H1|H1].
  - rewrite decide_False by lia. done.
  - destruct (decide (0 < pred (length live))) as [Hpos|Hz].
    + cbn [mbind list_bind]. rewrite app_nil_r, Hren.
      apply receive_registered, HP.
    + destruct live as [|? [|? ?]]; cbn in *; (done || lia).
Qed.

Lemma stale_unsubscribe_silences_live_listener_witness :
  let self := mkWebContents 7 false in
  let ops := [PageAddEventListener error_event 1; PageAddEventListener error_event 2;
              PageUnsubscribe 0] in
  let p := pageRun self ops (loadedPage (run [] (boot (config Store.initial)))) in
  let p' := pageStep self (PageUnsubscribe 0) p in
  page_renderer p' = page_renderer p /\
  refcount error_event 7 (page_world p') = 0 /\
  pageReceives self (effects (emitSdkEvent error_event "boom" (page_world p'))) (page_renderer p') = [].
Proof.
  exact (stale_unsubscribe_silences_live_listener (config Store.initial) [] (mkWebContents 7 false)
           [PageAddEventListener error_event 1; PageAddEventListener error_event 2;
            PageUnsubscribe 0] 0
           (mkUnsubscriber (Preload.channelOf error_event) (mkListener 0 1) error_event)
           "boom" eq_refl eq_refl eq_refl ltac:(vm_compute; left)).
Defined.

(** ** The client over the preload API *)

Lemma set_fresh key v (m : EventUnsubscribers.t) :
  key ∉ m.*1 -> EventUnsubscribers.set key v m = m ++ [(key, v)].
Proof.
  induction m as [|[k' v'] m IH]; [done|].
  rewrite fmap_cons, not_elem_of_cons. cbn [fst]. intros [Hne Hin].
  cbn [EventUnsubscribers.set]. rewrite decide_False by done. by rewrite IH.
Qed.

Lemma asEntry_app ks key (alive : list (nat * RecallSdkEventType * nat)) :
  (forall x, x ∈ alive -> x.1.1 < length ks) ->
  asEntry (ks ++ [key]) <$> alive = asEntry ks <$> alive.
Proof.
  intros H. apply Forall_fmap_ext_1, Forall_forall. intros x Hx.
  unfold asEntry. by rewrite lookup_app_l by by apply H.
Qed.

Lemma asEntry_keys ks (alive : list (nat * RecallSdkEventType * nat)) key :
  (forall x, x ∈ alive -> x.1.1 < length ks) ->
  key ∈ (asEntry ks <$> alive).*1 -> key ∈ ks.
Proof.
  intros H Hin. apply list_elem_of_fmap in Hin as ([k' v] & -> & Hin).
  apply list_elem_of_fmap in Hin as (x & Hx & Hin).
  unfold asEntry in Hx. injection Hx as -> ->. cbn [fst].
  destruct (lookup_lt_is_Some_2 ks x.1.1 (H x Hin)) as [key Hk].
  rewrite Hk. cbn. by eapply list_elem_of_lookup_2.
Qed.

Lemma delete_entry ks (alive : list (nat * RecallSdkEventType * nat)) j key :
  NoDup ks -> NoDup (idOf <$> alive) ->
  (forall x, x ∈ alive -> x.1.1 < length ks) ->
  ks !! j = Some key ->
  EventUnsubscribers.delete key (asEntry ks <$> alive) =
    asEntry ks <$> filter (fun x => x.1.1 <> j) alive.
Proof.
  intros Hks Hnd Hlt Hj. induction alive as [|x alive IH]; [done|].
  rewrite fmap_cons in Hnd. apply NoDup_cons in Hnd as [Hx Hnd].
  rewrite fmap_cons. unfold asEntry at 1. cbn [EventUnsubscribers.delete].
  destruct (lookup_lt_is_Some_2 ks x.1.1) as [key' Hk']; [apply Hlt; by left|].
  rewrite Hk'. cbn [default from_option id].
  destruct (decide (x.1.1 = j)) as [Hxj|Hxj].
  - assert (key' = key) as -> by congruence.
    rewrite decide_True by done.
    rewrite filter_cons_False by naive_solver.
    rewrite filter_id_absent; [done|]. by rewrite <- Hxj.
  - rewrite decide_False.
    2: { intros Heq. apply Hxj. subst key'. exact (NoDup_lookup ks _ _ _ Hks Hk' Hj). }
    rewrite filter_cons_True by done. rewrite fmap_cons.
    unfold asEntry at 2. rewrite Hk'. cbn [default from_option id]. f_equal.
    apply IH; [done|]. intros y Hy. apply Hlt. by right.
Qed.

Lemma ClientInv_add self s n alive called ks t cb now random :
  ClientInv self s n alive called ks ->
  Client.keyOf t now random ∉ ks ->
  exists s',
    clientStep self (ClientAddEventListener t cb now random) s = inr s' /\
    cp_page s' = pageStep self (PageAddEventListener t cb) (cp_page s) /\
    ClientInv self s' (S n) (alive ++ [(n, t, cb)]) called (ks ++ [Client.keyOf t now random]).
Proof.
  intros [Hapi HP Hc Hret Hlen Hks Hmap] Hkey.
  cbn [clientStep]. unfold Client.addEventListener. rewrite Hapi. cbn [negb].
  eexists. split; [done|]. split; [done|].
  assert (Hlt : forall x, x ∈ alive -> x.1.1 < length ks).
  { intros x Hx. rewrite Hlen. by apply (pi_ids _ _ _ _ _ HP). }
  split; cbn [cp_client cp_page cp_returned api eventUnsubscribers].
  - done.
  - by apply PageInv_add.
  - intros k Hk. apply Hc in Hk. lia.
  - rewrite Hret, imap_app. cbn [imap]. rewrite Nat.add_0_r.
    by rewrite (pi_length _ _ _ _ _ HP), Hlen.
  - rewrite length_app. cbn. lia.
  - apply NoDup_app. split; [done|]. split; [|apply NoDup_singleton].
    by intros x Hx ->%list_elem_of_singleton.
  - rewrite Hmap, set_fresh.
    2: { intros Hin. apply Hkey. by eapply asEntry_keys. }
    rewrite fmap_app, asEntry_app by done. f_equal.
    cbn. unfold asEntry. cbn [fst snd].
    rewrite (pi_length _ _ _ _ _ HP).
    rewrite lookup_app_r by lia. rewrite Hlen, Nat.sub_diag. done.
Qed.

Lemma ClientInv_unsubscribe self s n alive called ks j :
  ClientInv self s n alive called ks ->
  j < n -> j ∉ called ->
  exists s',
    clientStep self (ClientUnsubscribe j) s = inr s' /\
    cp_page s' = pageStep self (PageUnsubscribe j) (cp_page s) /\
    ClientInv self s' n (filter (fun x => x.1.1 <> j) alive) (j :: called) ks.
Proof.
  intros [Hapi HP Hc Hret Hlen Hks Hmap] Hj Hnc.
  cbn [clientStep]. rewrite Hret, list_lookup_imap.
  destruct (lookup_lt_is_Some_2 ks j) as [key Hkey]; [lia|].
  rewrite Hkey. cbn [fmap option_fmap option_map].
  eexists. split; [done|]. unfold Client.unsubscribe.
  cbn [cp_page cu_unsubscribe cu_key]. split; [done|].
  split; cbn [cp_client cp_page cp_returned api eventUnsubscribers].
  - done.
  - by apply PageInv_unsubscribe.
  - intros k [->|Hk]%elem_of_cons; [done|by apply Hc].
  - done.
  - done.
  - done.
  - rewrite Hmap. apply delete_entry; [done|apply HP| |done].
    intros x Hx. rewrite Hlen. by apply (pi_ids _ _ _ _ _ HP).
Qed.

Lemma ClientInv_run self ops : forall s n alive called ks,
  ClientInv self s n alive called ks ->
  clientScriptOk n called ks ops = true ->
  exists s',
    clientRun self ops s = inr s' /\
    cp_page s' = pageRun self (asPageOp <$> ops) (cp_page s) /\
    ClientInv self s' (addsAfter n (asPageOp <$> ops)) (liveAfter n alive (asPageOp <$> ops))
              (calledAfter called (asPageOp <$> ops)) (keysAfter ks ops).
Proof.
  induction ops as [|op ops IH]; intros s n alive called ks HC Hok.
  { exists s. done. }
  destruct op as [t cb now random|j]; cbn [clientScriptOk] in Hok.
  - apply andb_true_iff in Hok as [Hkey%bool_decide_eq_true Hok].
    destruct (ClientInv_add self s n alive called ks t cb now random HC Hkey)
      as (s1 & Hs1 & Hp1 & HC1).
    destruct (IH s1 _ _ _ _ HC1 Hok) as (s' & Hs' & Hp' & HC').
    exists s'. cbn [clientRun]. rewrite Hs1. split; [done|].
    rewrite fmap_cons. cbn [asPageOp pageRun fold_left addsAfter liveAfter calledAfter keysAfter].
    rewrite <- Hp1. done.
  - apply andb_true_iff in Hok as [[Hj%bool_decide_eq_true Hnc%bool_decide_eq_true]%andb_true_iff Hok].
    destruct (ClientInv_unsubscribe self s n alive called ks j HC Hj Hnc)
      as (s1 & Hs1 & Hp1 & HC1).
    destruct (IH s1 _ _ _ _ HC1 Hok) as (s' & Hs' & Hp' & HC').
    exists s'. cbn [clientRun]. rewrite Hs1. split; [done|].
    rewrite fmap_cons. cbn [asPageOp pageRun fold_left addsAfter liveAfter calledAfter keysAfter].
    rewrite <- Hp1. done.
Qed.

Lemma ClientInv_loaded self c pre :
  forallb (fun op => negb (isSubscribeFrom (wc_id self) op)) pre = true ->
  ClientInv self (loadedClient true (run pre (boot c))) 0 [] [] [].
Proof.
  intros Hpre. split; cbn [loadedClient cp_client cp_page cp_returned api eventUnsubscribers];
    try done.
  - by apply PageInv_loaded.
  - by intros k ?%elem_of_nil.
  - apply NoDup_nil_2.
Qed.

(** Calling, in order, the functions of all live listeners leaves none. *)
Lemma PageInv_unsubscribe_all self (alive : list (nat * RecallSdkEventType * nat)) :
  forall p n called,
  PageInv self p n alive called ->
  exists called',
    PageInv self (pageRun self (PageUnsubscribe <$> (idOf <$> alive)) p) n [] called'.
Proof.
  induction alive as [|x alive IH]; intros p n called HP; [by exists called|].
  rewrite !fmap_cons. cbn [pageRun fold_left].
  destruct (pi_ids _ _ _ _ _ HP x) as [Hlt Hnc]; [by left|].
  pose proof (PageInv_unsubscribe self p n (x :: alive) called x.1.1 HP Hlt Hnc) as HP1.
  pose proof (pi_nodup _ _ _ _ _ HP) as Hnd.
  rewrite fmap_cons in Hnd. apply NoDup_cons in Hnd as [Hx Hnd].
  rewrite filter_cons_False in HP1 by naive_solver.
  rewrite filter_id_absent in HP1 by done.
  by apply (IH _ _ _ HP1).
Qed.

Lemma values_asEntry ks (alive : list (nat * RecallSdkEventType * nat)) :
  EventUnsubscribers.values (asEntry ks <$> alive) = idOf <$> alive.
Proof.
  unfold EventUnsubscribers.values. induction alive as [|x alive IH]; [done|].
  rewrite !fmap_cons. cbn [map]. f_equal. exact IH.
Qed.


Lemma ClientInv_remove_all self s n alive called ks :
  ClientInv self s n alive called ks ->
  exists called', PageInv self (cp_page (Client.removeAllEventListeners self s)) n [] called'.
Proof.
  intros HC. unfold Client.removeAllEventListeners. cbn [cp_page].
  rewrite (ci_map _ _ _ _ _ _ HC), values_asEntry.
  eapply PageInv_unsubscribe_all, HC.
Qed.

(** X18. A script that works through the client, never calls a returned
    function twice and never draws the same key twice, runs without an
    exception, drives the preload API exactly as the same script without
    the client would, and keeps in [eventUnsubscribers] the functions of
    the live listeners, in order.  After [removeAllEventListeners] the
    renderer holds no listener, the hub's count for the page is 0 for every
    event type, and an event of the provider is not sent to the page. *)
Theorem remove_all_event_listeners_leaves_none
    (c : RecallSdkConfig) (pre : list Op) (self : WebContents) (ops : list ClientOp)
    (K : RecallSdkEventType) (d : Payload) :
  forallb (fun op => negb (isSubscribeFrom (wc_id self) op)) pre = true ->
  clientScriptOk 0 [] [] ops = true ->
  exists s,
    clientRun self ops (loadedClient true (run pre (boot c))) = inr s /\
    cp_page s = pageRun self (asPageOp <$> ops) (loadedPage (run pre (boot c))) /\
    EventUnsubscribers.values (eventUnsubscribers (cp_client s)) =
      (fun x => x.1.1) <$> liveAfter 0 [] (asPageOp <$> ops) /\
    let s' := Client.removeAllEventListeners self s in
    registered (page_renderer (cp_page s')) = [] /\
    refcount K (wc_id self) (page_world (cp_page s')) = 0 /\
    sendsTo (wc_id self) (effects (emitSdkEvent K d (page_world (cp_page s')))) = [].
Proof.
  intros Hpre Hok.
  destruct (ClientInv_run self ops _ _ _ _ _ (ClientInv_loaded self c pre Hpre) Hok)
    as (s & Hs & Hp & HC).
  exists s. split; [done|]. split; [done|].
  split; [by rewrite (ci_map _ _ _ _ _ _ HC), values_asEntry|].
  destruct (ClientInv_remove_all _ _ _ _ _ _ HC) as [called' HP].
  cbv zeta. split; [by rewrite (pi_registered _ _ _ _ _ HP)|].
  assert (Hz : refcount K (wc_id self)
                 (page_world (cp_page (Client.removeAllEventListeners self s))) = 0)
    by by rewrite (pi_count _ _ _ _ _ HP).
  split; [done|].
  rewrite emitSdkEvent_sendsTo by apply HP. rewrite Hz. done.
Qed.

Lemma remove_all_event_listeners_leaves_none_witness :
  let self := mkWebContents 7 false in
  let ops := [ClientAddEventListener error_event 1 "1700000000000" "0.25";
              ClientAddEventListener shutdown_event 2 "1700000000000" "0.5";
              ClientUnsubscribe 0] in
  exists s,
    clientRun self ops (loadedClient true (run [] (boot (config Store.initial)))) = inr s /\
    cp_page s = pageRun self (asPageOp <$> ops) (loadedPage (run [] (boot (config Store.initial)))) /\
    EventUnsubscribers.values (eventUnsubscribers (cp_client s)) = [1] /\
    let s' := Client.removeAllEventListeners self s in
    registered (page_renderer (cp_page s')) = [] /\
    refcount shutdown_event 7 (page_world (cp_page s')) = 0 /\
    sendsTo 7 (effects (emitSdkEvent shutdown_event "bye" (page_world (cp_page s')))) = [].
Proof.
  exact (remove_all_event_listeners_leaves_none (config Store.initial) [] (mkWebContents 7 false)
           [ClientAddEventListener error_event 1 "1700000000000" "0.25";
            ClientAddEventListener shutdown_event 2 "1700000000000" "0.5";
            ClientUnsubscribe 0] shutdown_event "bye" eq_refl eq_refl).
Defined.



(** ** The example page *)

Lemma blank_join_space (ws : list (option JsStr)) :
  ws <> [] -> blank (Example.join (js " ") ws) = forallb (fun o => blank (default [] o)) ws.
Proof.
  induction ws as [|w ws IH]; [done|]. intros _.
  destruct ws as [|w' ws].
  - cbn [Example.join forallb]. by rewrite andb_true_r.
  - change (Example.join (js " ") (w :: w' :: ws))
      with (default [] w ++ js " " ++ Example.join (js " ") (w' :: ws)).
    rewrite !blank_app, IH by done. cbn [forallb]. done.
Qed.

(** The words that pass [filter(Boolean)] are trimmed texts that are not
    blank; there is one exactly if some word has a text that is not blank. *)
Lemma spoken_words (ws : list TimestampedWord) :
  let words := List.filter Main.truthy (map (fun word => trim <$> word_text word) ws) in
  forallb (fun o => negb (blank (default [] o))) words = true /\
  Nat.eqb (length words) 0 =
    negb (existsb (fun word => match word_text word with
                               | Some text => negb (blank text)
                               | None => false
                               end) ws).
Proof.
  cbv zeta. induction ws as [|[[t|]] ws [IH1 IH2]]; [done| |].
  - cbn [map List.filter fmap option_fmap option_map word_text existsb].
    rewrite trim_truthy. destruct (blank t) eqn:Eb; cbn [negb orb].
    + done.
    + cbn [forallb length default from_option id]. rewrite blank_trim, Eb. done.
  - cbn [map List.filter fmap option_fmap option_map word_text existsb Main.truthy orb]. done.
Qed.

(** X20. The realtime handler of the example page renders a transcript
    line exactly for a ["transcript.data"] event that carries at least one
    word whose text is not all white space (of any kind [trim] strips),
    and then exactly one line, for the event's window.  Neither the
    speaker nor the text of a rendered line is blank; the speaker is the
    trimmed name of the participant or "Unknown participant".  At work: a
    word that is an ideographic space alone is no word, and beside two
    spoken words it leaves no trace in the line. *)
Theorem transcript_line_never_blank :
  (forall payload : TranscriptRealtimeEnvelope,
     let lines := transcriptLines (Example.realtimeHandler payload) in
     if Example.isTranscriptEvent payload && hasSpokenWord payload
     then exists speaker text,
            lines = [(speaker, text, envelope_window payload)] /\
            blank speaker = false /\ blank text = false /\
            (speaker = js "Unknown participant" \/
             exists name,
               (envelope_data payload ≫= payload_participant) ≫= participant_name = Some name /\
               speaker = trim name)
     else lines = []) /\
  let meeting := mkMeetingWindow "w" None in
  let linesFor (texts : list JsStr) (name : option JsStr) :=
    transcriptLines
      (Example.realtimeHandler
         (mkEnvelope (js "transcript.data")
            (Some (mkTranscriptPayload
                     (Some ((fun text => mkTimestampedWord (Some text)) <$> texts))
                     (Some (mkTranscriptParticipant name))))
            meeting)) in
  linesFor [[12288%N]] (Some (js "Ada")) = [] /\
  linesFor [js " hello "; [12288%N]; js "world"] (Some ([8195%N] ++ js "Ada ")) =
    [(js "Ada", js "hello world", meeting)] /\
  linesFor [js "hello"] (Some [8195%N]) = [(js "Unknown participant", js "hello", meeting)].
Proof.
  split; [|repeat split; reflexivity].
  intros payload.
  cbv zeta. unfold Example.realtimeHandler, hasSpokenWord.
  destruct (Example.isTranscriptEvent payload); cbn [negb andb]; [|done].
  destruct (envelope_data payload) as [[ws p]|]; cbn [mbind option_bind default from_option id];
    [|done].
  cbn [payload_words payload_participant].
  destruct ws as [ws|]; cbn [default from_option id existsb]; [|done].
  destruct (spoken_words ws) as [Hall Hlen]. cbv zeta in Hall, Hlen.
  set (words := List.filter Main.truthy (map (fun word => trim <$> word_text word) ws)) in *.
  rewrite Hlen.
  destruct (existsb _ ws) eqn:Ex; cbn [negb]; [|done].
  cbn [transcriptLines omap list_omap].
  eexists. eexists. split; [reflexivity|].
  assert (Hne : words <> []).
  { cbn in Hlen. by destruct words. }
  split; [|split].
  - destruct (p ≫= participant_name) as [name|]; cbn [fmap option_fmap option_map]; [|done].
    rewrite trim_truthy. cbn [default from_option id].
    destruct (blank name) eqn:Eb; cbn [negb andb]; [done|].
    destruct (Nat.ltb 0 (length (trim name))); [|done].
    by rewrite blank_trim.
  - rewrite blank_join_space by done.
    apply not_true_is_false. intros Hb.
    destruct words as [|o words]; [done|].
    cbn [forallb] in Hb, Hall.
    apply andb_true_iff in Hb as [Hb _]. apply andb_true_iff in Hall as [Ho _].
    rewrite Hb in Ho. done.
  - destruct (p ≫= participant_name) as [name|]; cbn [fmap option_fmap option_map]; [|by left].
    destruct (Main.truthy (Some (trim name)) && _); [|by left].
    right. exists name. done.
Qed.
